(** * llm-gateway: the request pipeline, embedded and verified

    A shallow embedding of the Go sources of the gateway:
    - [internal/store]: tenant, model and usage records, the rate-limit
      counter store and the mock stores of the test suite;
    - [internal/middleware]: [AuthMiddleware] and [RateLimitMiddleware];
    - [internal/admin]: the defaults of [CreateTenant];
    - [internal/proxy]: [NewHandler], [CreateCompletion] and
      [streamResponse].

    Go's [int] and [int64] are 64-bit two's complement integers: they are
    embedded as [Z] with the wrap-around written out ([wrap64]).  Go
    strings are byte sequences, embedded as [string]; [len] is
    [String.length].  Maps ([map[string]int64], [gin.H], [http.Header])
    are [gmap]s.  Wall-clock time is an integer number of nanoseconds. *)

From Stdlib Require Import ZArith Lia List Bool Ascii String.
From Stdlib Require Import DecimalString DecimalZ DecimalPos.
From stdpp Require Import base option list strings gmap.
Import ListNotations.

Local Open Scope string_scope.
Local Open Scope Z_scope.

(** ** Machine integers *)

Definition wrap64 (z : Z) : Z := (z + 2 ^ 63) mod 2 ^ 64 - 2 ^ 63.
Definition wrap_u32 (z : Z) : Z := z mod 2 ^ 32.
Definition wrap_u64 (z : Z) : Z := z mod 2 ^ 64.

Definition max_int64 : Z := 2 ^ 63 - 1.
Definition min_int64 : Z := - 2 ^ 63.

(** [len(s)] of a Go string or byte slice. *)
Definition len (s : string) : Z := Z.of_nat (String.length s).

(** Go's truncated integer division on [int] (operands here are never
    [min_int64 / -1]). *)
Definition int_div (a b : Z) : Z := Z.quot a b.

(** ** Errors and results *)

(** Go errors.  The two sentinel errors of the circuit-breaker library are
    compared by identity in the handler; every other error is known by its
    message only. *)
Inductive error : Type :=
| ErrOpenState
| ErrTooManyRequests
| errorString (msg : string).

(** [err.Error()] *)
Definition Error (e : error) : string :=
  match e with
  | ErrOpenState => "circuit breaker is open"
  | ErrTooManyRequests => "too many requests"
  | errorString msg => msg
  end.

Definition is_ErrOpenState (e : error) : bool :=
  match e with ErrOpenState => true | _ => false end.

(** A Go [(T, error)] pair: either the value with a nil error or an error. *)
Inductive result (A : Type) : Type :=
| Ok (a : A)
| Err (e : error).
Arguments Ok {A} a.
Arguments Err {A} e.

(** ** internal/store: records *)

Record Tenant : Type := mkTenant {
  APIKey : string;
  TenantID : string;
  Name : string;
  RPMLimit : Z;
  TPMLimit : Z;
  AllowedModels : list string;
  IsActive : bool
}.

Record Model : Type := mkModel {
  ModelID : string;
  ProviderName : string;
  BaseURLs : list string;
  APIKeyEnv : string
}.

Record UsageRecord : Type := mkUsageRecord {
  rec_TenantID : string;
  rec_Timestamp : Z;        (* the instant [start], rendered RFC3339Nano *)
  rec_RequestID : string;
  rec_ModelID : string;
  rec_InputTokens : Z;
  rec_OutputTokens : Z
}.

(** ** internal/store: the store interfaces *)

Class RateLimitStore (S : Type) : Type := {
  IncrementRPM : S -> string -> S * result Z;
  IncrementTPM : S -> string -> Z -> S * result Z;
  GetTPM : S -> string -> S * result Z
}.

(** [GetTenant] reads the wall clock (the DynamoDB store keeps a TTL cache)
    and may update the store. [Ok None] is Go's [(nil, nil)]. *)
Class TenantStore (S : Type) : Type := {
  GetTenant : S -> Z -> string -> S * result (option Tenant)
}.

Class UsageStore (S : Type) : Type := {
  LogUsage : S -> UsageRecord -> S * option error
}.

(** ** internal/store/mock_store.go *)

Record MockTenantStore : Type := mkMockTenantStore {
  Tenants : gmap string Tenant
}.

Definition MockTenantStore_GetTenant (m : MockTenantStore) (apiKey : string)
  : result (option Tenant) :=
  match Tenants m !! apiKey with
  | Some t =>
      if negb (IsActive t) then Err (errorString "tenant is not active")
      else Ok (Some t)
  | None => Ok None
  end.

Definition MockTenantStore_CreateTenant (m : MockTenantStore) (tenant : Tenant)
  : MockTenantStore :=
  {| Tenants := <[APIKey tenant := tenant]> (Tenants m) |}.

#[export] Instance MockTenantStore_store : TenantStore MockTenantStore :=
  {| GetTenant := fun m _ apiKey => (m, MockTenantStore_GetTenant m apiKey) |}.

Record MockRateLimitStore : Type := mkMockRateLimitStore {
  RPM : gmap string Z;
  TPM : gmap string Z;
  MockErr : option error
}.

(** [m[k]] on a Go map of integers: the zero value when the key is absent. *)
Definition map_get (m : gmap string Z) (k : string) : Z := default 0 (m !! k).

Definition MockRateLimitStore_IncrementRPM (m : MockRateLimitStore) (tenantID : string)
  : MockRateLimitStore * result Z :=
  match MockErr m with
  | Some e => (m, Err e)
  | None =>
      let m' := {| RPM := <[tenantID := wrap64 (map_get (RPM m) tenantID + 1)]> (RPM m);
                   TPM := TPM m;
                   MockErr := MockErr m |} in
      (m', Ok (map_get (RPM m') tenantID))
  end.

Definition MockRateLimitStore_IncrementTPM (m : MockRateLimitStore) (tenantID : string)
  (tokens : Z) : MockRateLimitStore * result Z :=
  match MockErr m with
  | Some e => (m, Err e)
  | None =>
      let m' := {| RPM := RPM m;
                   TPM := <[tenantID := wrap64 (map_get (TPM m) tenantID + tokens)]> (TPM m);
                   MockErr := MockErr m |} in
      (m', Ok (map_get (TPM m') tenantID))
  end.

Definition MockRateLimitStore_GetTPM (m : MockRateLimitStore) (tenantID : string)
  : MockRateLimitStore * result Z :=
  match MockErr m with
  | Some e => (m, Err e)
  | None => (m, Ok (map_get (TPM m) tenantID))
  end.

Definition NewMockTenantStore : MockTenantStore := {| Tenants := ∅ |}.

Definition NewMockRateLimitStore : MockRateLimitStore :=
  {| RPM := ∅; TPM := ∅; MockErr := None |}.

#[export] Instance MockRateLimitStore_store : RateLimitStore MockRateLimitStore :=
  {| IncrementRPM := MockRateLimitStore_IncrementRPM;
     IncrementTPM := MockRateLimitStore_IncrementTPM;
     GetTPM := MockRateLimitStore_GetTPM |}.

Record MockUsageStore : Type := mkMockUsageStore {
  Records : list UsageRecord
}.

Definition MockUsageStore_LogUsage (m : MockUsageStore) (record : UsageRecord)
  : MockUsageStore * option error :=
  ({| Records := Records m ++ [record] |}, None).

#[export] Instance MockUsageStore_store : UsageStore MockUsageStore :=
  {| LogUsage := MockUsageStore_LogUsage |}.

Class ModelStore (S : Type) : Type := {
  GetModel : S -> string -> result (option Model)
}.

Record MockModelStore : Type := mkMockModelStore {
  Models : gmap string Model
}.

Definition MockModelStore_GetModel (m : MockModelStore) (modelID : string)
  : result (option Model) :=
  match Models m !! modelID with
  | Some model => Ok (Some model)
  | None => Err (errorString "model not found")
  end.

#[export] Instance MockModelStore_store : ModelStore MockModelStore :=
  {| GetModel := MockModelStore_GetModel |}.

(** ** internal/store: the DynamoDB tenant store

    The DynamoDB client and the [attributevalue] decoder are libraries.
    What [client.GetItem] followed by [attributevalue.UnmarshalMap] can
    produce for a key is a table entry: no item, an item that does not
    decode, or the decoded struct, in which an attribute that is not stored
    has Go's zero value ([0], the empty list, [false], the empty string). *)

Inductive Item : Type :=
| ItemMalformed (e : string)
| ItemTenant (t : Tenant).

Record cachedTenant : Type := mkCachedTenant {
  ct_tenant : Tenant;
  expiresAt : Z
}.

Record DynamoDBTenantStore : Type := mkDynamoDBTenantStore {
  client_err : option error;          (* the transport fails with this error *)
  table : gmap string Item;
  cache : gmap string cachedTenant
}.

Definition minute_ns : Z := 60 * 1000000000.

Definition set_RPMLimit (t : Tenant) (v : Z) : Tenant :=
  mkTenant (APIKey t) (TenantID t) (Name t) v (TPMLimit t) (AllowedModels t) (IsActive t).
Definition set_TPMLimit (t : Tenant) (v : Z) : Tenant :=
  mkTenant (APIKey t) (TenantID t) (Name t) (RPMLimit t) v (AllowedModels t) (IsActive t).
Definition set_AllowedModels (t : Tenant) (v : list string) : Tenant :=
  mkTenant (APIKey t) (TenantID t) (Name t) (RPMLimit t) (TPMLimit t) v (IsActive t).

Definition DynamoDBTenantStore_GetTenant (s : DynamoDBTenantStore) (now : Z)
  (apiKey : string) : DynamoDBTenantStore * result (option Tenant) :=
  (* 1. Check Cache *)
  let fresh :=
    match cache s !! apiKey with
    | Some entry => if now <? expiresAt entry then Some (ct_tenant entry) else None
    | None => None
    end in
  match fresh with
  | Some t => (s, Ok (Some t))
  | None =>
      (* 2. Fetch from DynamoDB *)
      match client_err s with
      | Some e => (s, Err (errorString ("failed to get item from DynamoDB: " +:+ Error e)))
      | None =>
          match table s !! apiKey with
          | None => (s, Ok None)
          | Some (ItemMalformed e) => (s, Err (errorString ("failed to unmarshal tenant: " +:+ e)))
          | Some (ItemTenant tenant) =>
              if negb (IsActive tenant) then (s, Err (errorString "tenant is not active"))
              else
                (* 3. Apply Defaults if missing *)
                let tenant :=
                  if RPMLimit tenant =? 0 then set_RPMLimit tenant 100 else tenant in
                let tenant :=
                  if TPMLimit tenant =? 0 then set_TPMLimit tenant 100000 else tenant in
                (* 4. Update Cache (60m TTL) *)
                let s' := {| client_err := client_err s;
                             table := table s;
                             cache := <[apiKey := {| ct_tenant := tenant;
                                                     expiresAt := now + 60 * minute_ns |}]>
                                        (cache s) |} in
                (s', Ok (Some tenant))
          end
      end
  end.

#[export] Instance DynamoDBTenantStore_store : TenantStore DynamoDBTenantStore :=
  {| GetTenant := DynamoDBTenantStore_GetTenant |}.

(** ** internal/admin: the defaults of [CreateTenant] *)

Record CreateTenantRequest : Type := mkCreateTenantRequest {
  ctr_TenantID : string;
  ctr_Name : string;
  ctr_APIKey : string;
  ctr_RPMLimit : Z;
  ctr_TPMLimit : Z;
  ctr_AllowedModels : list string
}.

(** The tenant [AdminHandler.CreateTenant] hands to the store once the
    request is bound. *)
Definition CreateTenant_tenant (req : CreateTenantRequest) : Tenant :=
  let rpm := if ctr_RPMLimit req =? 0 then 100 else ctr_RPMLimit req in
  let tpm := if ctr_TPMLimit req =? 0 then 100000 else ctr_TPMLimit req in
  let allowed :=
    if (Z.of_nat (List.length (ctr_AllowedModels req)) =? 0) then ["*"]
    else ctr_AllowedModels req in
  {| TenantID := ctr_TenantID req; Name := ctr_Name req; APIKey := ctr_APIKey req;
     RPMLimit := rpm; TPMLimit := tpm; AllowedModels := allowed; IsActive := true |}.

(** ** gin: requests, contexts, JSON bodies *)

(** A value of a [gin.H] body. *)
Inductive JValue : Type :=
| JString (s : string)
| JInt (z : Z).

(** The request body as [ioutil.ReadAll] finds it: the bytes, or a read
    error of the connection. *)
Inductive RequestBody : Type :=
| BodyBytes (b : string)
| BodyReadError (e : string).

Record Request : Type := mkRequest {
  Method : string;
  Header : gmap string (list string);     (* keyed by canonical header name *)
  Body : RequestBody
}.

Record Context : Type := mkContext {
  ctx_Request : Request;
  ctx_tenant : option Tenant;             (* c.Get("tenant") *)
  ctx_model : option string               (* c.Get("model") *)
}.

Definition is_lower (c : ascii) : bool :=
  let n := Z.of_nat (nat_of_ascii c) in (97 <=? n) && (n <=? 122).
Definition is_upper (c : ascii) : bool :=
  let n := Z.of_nat (nat_of_ascii c) in (65 <=? n) && (n <=? 90).
Definition is_digit (c : ascii) : bool :=
  let n := Z.of_nat (nat_of_ascii c) in (48 <=? n) && (n <=? 57).
Definition to_upper (c : ascii) : ascii :=
  if is_lower c then ascii_of_nat (nat_of_ascii c - 32) else c.
Definition to_lower (c : ascii) : ascii :=
  if is_upper c then ascii_of_nat (nat_of_ascii c + 32) else c.

(** [textproto]'s token bytes: letters, digits and [!#$%&'*+-.^_`|~]. *)
Definition validHeaderFieldByte (c : ascii) : bool :=
  is_lower c || is_upper c || is_digit c
  || existsb (fun n => Nat.eqb (nat_of_ascii c) n)
       [33; 35; 36; 37; 38; 39; 42; 43; 45; 46; 94; 95; 96; 124; 126]%nat.

Fixpoint canonical_from (upper : bool) (s : string) : string :=
  match s with
  | EmptyString => EmptyString
  | String c r =>
      let c' := if upper then to_upper c else to_lower c in
      String c' (canonical_from (Ascii.eqb c' "-"%char) r)
  end.

(** [textproto.CanonicalMIMEHeaderKey]: a key with a byte that is not a
    token byte is returned unchanged. *)
Definition CanonicalMIMEHeaderKey (s : string) : string :=
  if forallb validHeaderFieldByte (list_ascii_of_string s)
  then canonical_from true s else s.

(** [c.GetHeader(key)]: the first value of the header, or the empty string. *)
Definition GetHeader (c : Context) (key : string) : string :=
  match Header (ctx_Request c) !! CanonicalMIMEHeaderKey key with
  | Some (v :: _) => v
  | _ => ""
  end.

(** What a middleware does with the chain: [c.AbortWithStatusJSON] with the
    response headers it set before, or [c.Next()] with the context. *)
Inductive Flow : Type :=
| Abort (status : Z) (header : gmap string string) (body : gmap string JValue)
| Next (c : Context).

Definition StatusBadRequest : Z := 400.
Definition StatusUnauthorized : Z := 401.
Definition StatusForbidden : Z := 403.
Definition StatusNotFound : Z := 404.
Definition StatusRequestEntityTooLarge : Z := 413.
Definition StatusTooManyRequests : Z := 429.
Definition StatusInternalServerError : Z := 500.
Definition StatusBadGateway : Z := 502.

(** [strings.Split(s, sep)] for a one-byte separator. *)
Fixpoint strings_Split (s : string) (sep : ascii) : list string :=
  match s with
  | EmptyString => [EmptyString]
  | String c r =>
      if Ascii.eqb c sep then EmptyString :: strings_Split r sep
      else match strings_Split r sep with
           | p :: ps => String c p :: ps
           | [] => [String c EmptyString]
           end
  end.

(** ** internal/middleware/auth.go *)

Definition AuthMiddleware {S : Type} `{TenantStore S} (tenantStore : S) (now : Z)
  (c : Context) : S * Flow :=
  let authHeader := GetHeader c "Authorization" in
  if String.eqb authHeader "" then
    (tenantStore,
     Abort StatusUnauthorized ∅ {[ "error" := JString "Missing Authorization header" ]})
  else
    let parts := strings_Split authHeader " "%char in
    if negb (Z.of_nat (List.length parts) =? 2)
       || negb (String.eqb (nth 0 parts "") "Bearer") then
      (tenantStore,
       Abort StatusUnauthorized ∅
         {[ "error" := JString "Invalid Authorization header format" ]})
    else
      let apiKey := nth 1 parts "" in
      match GetTenant tenantStore now apiKey with
      | (st, Err _) =>
          (st, Abort StatusUnauthorized ∅ {[ "error" := JString "Invalid API Key" ]})
      | (st, Ok None) =>
          (st, Abort StatusUnauthorized ∅ {[ "error" := JString "Invalid API Key" ]})
      | (st, Ok (Some tenant)) =>
          (st, Next {| ctx_Request := ctx_Request c;
                       ctx_tenant := Some tenant;
                       ctx_model := ctx_model c |})
      end.

(** ** internal/middleware/ratelimit.go *)

Definition RateLimitMiddleware {S : Type} `{RateLimitStore S} (rlStore : S)
  (c : Context) : S * Flow :=
  match ctx_tenant c with
  | None =>
      (rlStore,
       Abort StatusInternalServerError ∅ {[ "error" := JString "Tenant context missing" ]})
  | Some tenant =>
      (* Check RPM *)
      match IncrementRPM rlStore (TenantID tenant) with
      | (st, Err _) =>
          (st, Abort StatusInternalServerError ∅
                 {[ "error" := JString "Rate limit check failed" ]})
      | (st, Ok currentRPM) =>
          if currentRPM >? RPMLimit tenant then
            (st, Abort StatusTooManyRequests {[ "Retry-After" := "60" ]}
                   (<[ "limit" := JInt (RPMLimit tenant) ]>
                      {[ "error" := JString "Rate limit exceeded (RPM)" ]}))
          else
            (* Check TPM *)
            match GetTPM st (TenantID tenant) with
            | (st', Err _) =>
                (st', Abort StatusInternalServerError ∅
                        {[ "error" := JString "Rate limit check failed (TPM)" ]})
            | (st', Ok currentTPM) =>
                if currentTPM >? TPMLimit tenant then
                  (st', Abort StatusTooManyRequests {[ "Retry-After" := "60" ]}
                          (<[ "limit" := JInt (TPMLimit tenant) ]>
                             {[ "error" := JString "Rate limit exceeded (TPM)" ]}))
                else (st', Next c)
            end
      end
  end.

(** ** The circuit breaker

    [github.com/sony/gobreaker] is a dependency of the gateway; its source
    is not part of the repository.  The state machine below is the
    library's [CircuitBreaker]: [Execute] asks [beforeRequest] for
    admission, runs the request, and reports to [afterRequest] whether the
    request returned a nil error.  The settings are those [NewHandler]
    passes.  Counters are [uint32], the generation is [uint64]; the zero
    [time.Time] of [expiry] is [None]. *)

Inductive State : Type := StateClosed | StateHalfOpen | StateOpen.

Record Counts : Type := mkCounts {
  Requests : Z;
  TotalSuccesses : Z;
  TotalFailures : Z;
  ConsecutiveSuccesses : Z;
  ConsecutiveFailures : Z
}.

Record Settings : Type := mkSettings {
  MaxRequests : Z;
  Interval : Z;
  Timeout : Z;
  ReadyToTrip : Counts -> bool
}.

Record CircuitBreaker : Type := mkCircuitBreaker {
  cb_settings : Settings;
  cb_state : State;
  cb_generation : Z;
  cb_counts : Counts;
  cb_expiry : option Z
}.

Definition second_ns : Z := 1000000000.
Definition millisecond_ns : Z := 1000000.

Definition Counts_clear : Counts := mkCounts 0 0 0 0 0.

Definition Counts_onRequest (c : Counts) : Counts :=
  mkCounts (wrap_u32 (Requests c + 1)) (TotalSuccesses c) (TotalFailures c)
    (ConsecutiveSuccesses c) (ConsecutiveFailures c).

Definition Counts_onSuccess (c : Counts) : Counts :=
  mkCounts (Requests c) (wrap_u32 (TotalSuccesses c + 1)) (TotalFailures c)
    (wrap_u32 (ConsecutiveSuccesses c + 1)) 0.

Definition Counts_onFailure (c : Counts) : Counts :=
  mkCounts (Requests c) (TotalSuccesses c) (wrap_u32 (TotalFailures c + 1))
    0 (wrap_u32 (ConsecutiveFailures c + 1)).

Definition State_eqb (a b : State) : bool :=
  match a, b with
  | StateClosed, StateClosed | StateHalfOpen, StateHalfOpen | StateOpen, StateOpen => true
  | _, _ => false
  end.

Definition toNewGeneration (cb : CircuitBreaker) (now : Z) : CircuitBreaker :=
  let st := cb_settings cb in
  let expiry :=
    match cb_state cb with
    | StateClosed => if Interval st =? 0 then None else Some (now + Interval st)
    | StateOpen => Some (now + Timeout st)
    | StateHalfOpen => None
    end in
  mkCircuitBreaker st (cb_state cb) (wrap_u64 (cb_generation cb + 1)) Counts_clear expiry.

Definition setState (cb : CircuitBreaker) (state : State) (now : Z) : CircuitBreaker :=
  if State_eqb (cb_state cb) state then cb
  else
    toNewGeneration
      (mkCircuitBreaker (cb_settings cb) state (cb_generation cb) (cb_counts cb)
         (cb_expiry cb)) now.

(** [expiry.Before(now)] on a set expiry. *)
Definition expired (cb : CircuitBreaker) (now : Z) : bool :=
  match cb_expiry cb with
  | Some e => e <? now
  | None => false
  end.

(** [currentState]: the breaker after the lazy transitions due at [now]. *)
Definition currentState (cb : CircuitBreaker) (now : Z) : CircuitBreaker :=
  match cb_state cb with
  | StateClosed => if expired cb now then toNewGeneration cb now else cb
  | StateOpen =>
      (* an open breaker always has an expiry *)
      if match cb_expiry cb with Some e => e <? now | None => true end
      then setState cb StateHalfOpen now else cb
  | StateHalfOpen => cb
  end.

Definition with_counts (cb : CircuitBreaker) (c : Counts) : CircuitBreaker :=
  mkCircuitBreaker (cb_settings cb) (cb_state cb) (cb_generation cb) c (cb_expiry cb).

Definition beforeRequest (cb : CircuitBreaker) (now : Z) : CircuitBreaker * result Z :=
  let cb := currentState cb now in
  match cb_state cb with
  | StateOpen => (cb, Err ErrOpenState)
  | StateHalfOpen =>
      if Requests (cb_counts cb) >=? MaxRequests (cb_settings cb)
      then (cb, Err ErrTooManyRequests)
      else (with_counts cb (Counts_onRequest (cb_counts cb)), Ok (cb_generation cb))
  | StateClosed =>
      (with_counts cb (Counts_onRequest (cb_counts cb)), Ok (cb_generation cb))
  end.

Definition onSuccess (cb : CircuitBreaker) (now : Z) : CircuitBreaker :=
  match cb_state cb with
  | StateClosed => with_counts cb (Counts_onSuccess (cb_counts cb))
  | StateHalfOpen =>
      let cb := with_counts cb (Counts_onSuccess (cb_counts cb)) in
      if ConsecutiveSuccesses (cb_counts cb) >=? MaxRequests (cb_settings cb)
      then setState cb StateClosed now else cb
  | StateOpen => cb
  end.

Definition onFailure (cb : CircuitBreaker) (now : Z) : CircuitBreaker :=
  match cb_state cb with
  | StateClosed =>
      let cb := with_counts cb (Counts_onFailure (cb_counts cb)) in
      if ReadyToTrip (cb_settings cb) (cb_counts cb)
      then setState cb StateOpen now else cb
  | StateHalfOpen => setState cb StateOpen now
  | StateOpen => cb
  end.

Definition afterRequest (cb : CircuitBreaker) (before : Z) (success : bool) (now : Z)
  : CircuitBreaker :=
  let cb := currentState cb now in
  if negb (cb_generation cb =? before) then cb
  else if success then onSuccess cb now else onFailure cb now.

(** [cb.Execute(req)].  The request runs in a world [W] that carries the
    wall clock; it is not run when the breaker refuses it. *)
Definition Execute {W A : Type} (clock : W -> Z) (cb : CircuitBreaker) (w : W)
  (req : W -> W * result A) : CircuitBreaker * W * result A :=
  match beforeRequest cb (clock w) with
  | (cb1, Err e) => (cb1, w, Err e)
  | (cb1, Ok generation) =>
      let '(w', r) := req w in
      let success := match r with Ok _ => true | Err _ => false end in
      (afterRequest cb1 generation success (clock w'), w', r)
  end.

(** [ReadyToTrip] of [NewHandler]:
    [counts.Requests >= 10 && failureRatio >= 0.6] with
    [failureRatio := float64(counts.TotalFailures) / float64(counts.Requests)].
    For [uint32] operands the rounded quotient is at least the [float64]
    nearest to 0.6 exactly when the exact quotient is at least 3/5 (a
    quotient below 3/5 is below it by at least [1/(5 * 2^32)], far more than
    one rounding step), and [0/0] is a NaN, for which the comparison is
    false; so the test is written with integers. *)
Definition readyToTrip (counts : Counts) : bool :=
  let ratio_ok := (0 <? Requests counts)
                  && (3 * Requests counts <=? 5 * TotalFailures counts) in
  (Requests counts >=? 10) && ratio_ok.

Definition handler_settings : Settings :=
  {| MaxRequests := 5;
     Interval := 60 * second_ns;
     Timeout := 30 * second_ns;
     ReadyToTrip := readyToTrip |}.

(** [gobreaker.NewCircuitBreaker(st)] at wall-clock time [now], for settings
    without zero fields (the library replaces those by its defaults). *)
Definition NewCircuitBreaker (st : Settings) (now : Z) : CircuitBreaker :=
  toNewGeneration (mkCircuitBreaker st StateClosed 0 Counts_clear None) now.

(** ** internal/proxy/handler.go: data *)

Record Message : Type := mkMessage {
  Role : string;
  Content : string
}.

Record ChatRequest : Type := mkChatRequest {
  req_Model : string;
  req_Messages : list Message;
  req_Stream : bool
}.

(** An upstream response: status, headers, the body bytes the gateway gets
    to read (all of them, or those before a read error), and for every line
    the wall-clock reading at which [scanner.Scan] returns it. *)
Record Response : Type := mkResponse {
  StatusCode : Z;
  resp_Header : gmap string (list string);
  resp_Body : string;
  resp_Arrival : nat -> Z
}.

Record ProxyRequest : Type := mkProxyRequest {
  pr_Method : string;
  pr_URL : string;
  pr_Header : gmap string (list string);
  pr_Body : string
}.

(** What one [h.httpClient.Do(proxyReq)] does: a response of any status
    with a nil error, or a transport error; and the time it took. *)
Record Exchange : Type := mkExchange {
  x_result : result Response;
  x_elapsed : Z
}.

(** The libraries and the outside world the handler runs against:
    [encoding/json] on the request body and on a stream payload (for the
    latter, the [Content] of every element of [partial.Choices]),
    [os.Getenv], whether [http.NewRequestWithContext] accepts a method and
    URL, and the upstream's answer to the n-th call the gateway makes. *)
Record Runtime : Type := mkRuntime {
  json_Unmarshal_ChatRequest : string -> option ChatRequest;
  json_Unmarshal_partial : string -> option (list string);
  os_Getenv : string -> string;
  http_NewRequest_ok : string -> string -> bool;
  upstream : nat -> ProxyRequest -> Exchange
}.

(** The arguments of the deferred goroutine and the [start] it captures. *)
Record Bookkeeping : Type := mkBookkeeping {
  bk_tid : string;
  bk_mid : string;
  bk_in : Z;
  bk_out : Z;
  bk_start : Z
}.

(** Observable effects, in program order (log lines are not recorded). *)
Inductive Event : Type :=
| EvUpstream (req : ProxyRequest)                        (* httpClient.Do *)
| EvSleep (d : Z)                                        (* time.Sleep *)
| EvFlush                                                (* c.Writer.Flush *)
| EvWriteString (s : string)                             (* c.Writer.WriteString / Write *)
| EvRecordTTFT (tenantID model : string) (ns : Z)        (* middleware.RecordTTFT *)
| EvRecordTokenUsage (tenantID model : string) (input output : Z)
| EvGo (task : Bookkeeping).                             (* h.wg.Add(1); go func *)

Inductive ReplyBody : Type :=
| JSONBody (h : gmap string JValue)      (* c.JSON *)
| RawBody (b : string).                  (* bytes written to c.Writer *)

(** The response the caller receives. *)
Record Reply : Type := mkReply {
  reply_status : Z;
  reply_header : gmap string string;
  reply_body : ReplyBody
}.

(** The part of the [Handler] a request goes through: the model store, the
    shared circuit breaker, and how many upstream calls were made so far. *)
Record Handler (MS : Type) : Type := mkHandler {
  modelStore : MS;
  cb : CircuitBreaker;
  calls : nat
}.
Arguments mkHandler {MS} _ _ _.
Arguments modelStore {MS} _.
Arguments cb {MS} _.
Arguments calls {MS} _.

Definition NewHandler {MS : Type} (ms : MS) (now : Z) : Handler MS :=
  {| modelStore := ms; cb := NewCircuitBreaker handler_settings now; calls := 0%nat |}.

Record Outcome (MS : Type) : Type := mkOutcome {
  out_reply : Reply;
  out_handler : Handler MS;
  out_trace : list Event;
  out_model : option string             (* c.Set("model", ...) *)
}.
Arguments mkOutcome {MS} _ _ _ _.
Arguments out_reply {MS} _.
Arguments out_handler {MS} _.
Arguments out_trace {MS} _.
Arguments out_model {MS} _.

(** How a run of Go code ends. *)
Inductive Run (A : Type) : Type :=
| Returned (a : A)
| Panicked (msg : string)
| OutOfFuel.
Arguments Returned {A} a.
Arguments Panicked {A} msg.
Arguments OutOfFuel {A}.

(** ** Strings and lines *)

Definition LF : string := String "010"%char EmptyString.
Definition CR : ascii := "013"%char.

Fixpoint strings_HasPrefix (s prefix : string) {struct prefix} : bool :=
  match prefix with
  | EmptyString => true
  | String p pr =>
      match s with
      | String c r => Ascii.eqb p c && strings_HasPrefix r pr
      | EmptyString => false
      end
  end.

Fixpoint string_drop (n : nat) (s : string) : string :=
  match n, s with
  | O, _ => s
  | S n', String _ r => string_drop n' r
  | S _, EmptyString => EmptyString
  end.

Definition strings_TrimPrefix (s prefix : string) : string :=
  if strings_HasPrefix s prefix then string_drop (String.length prefix) s else s.

(** [bufio.MaxScanTokenSize]: the scanner's buffer; a line must fit in it
    together with the byte that ends it. *)
Definition MaxScanTokenSize : Z := 64 * 1024.

Fixpoint dropCR (s : string) : string :=
  match s with
  | EmptyString => EmptyString
  | String c EmptyString => if Ascii.eqb c CR then EmptyString else s
  | String c r => String c (dropCR r)
  end.

Fixpoint scan_tokens (pieces : list string) : list string :=
  match pieces with
  | [] => []
  | [p] =>
      if len p =? 0 then []
      else if len p >=? MaxScanTokenSize then [] else [dropCR p]
  | p :: rest =>
      if len p >=? MaxScanTokenSize then [] else dropCR p :: scan_tokens rest
  end.

(** The lines [bufio.Scanner] (with [bufio.ScanLines]) returns for a body:
    the pieces between newlines without a trailing carriage return, without
    an empty piece after the last newline, up to the first piece that
    exceeds the buffer. *)
Definition scan_lines (body : string) : list string :=
  scan_tokens (strings_Split body "010"%char).

(** ** internal/proxy/handler.go: [streamResponse] *)

Section Proxy.

Context (E : Runtime).

(** The tokens one forwarded line adds to [outputTokens]. *)
Definition line_tokens (line : string) : option Z :=
  if strings_HasPrefix line "data: " then
    let data := strings_TrimPrefix line "data: " in
    if String.eqb data "[DONE]" then None
    else
      match json_Unmarshal_partial E data with
      | Some (content :: _) => Some (int_div (len content) 4)
      | Some [] => None
      | None => None
      end
  else None.

(** The body of the [for scanner.Scan()] loop, over the lines the scanner
    returns; [i] is the index of the next line. *)
Fixpoint streamLoop (tenantID model : string) (start : Z) (arrival : nat -> Z)
  (lines : list string) (i : nat) (outputTokens : Z) (firstByte : bool)
  : Z * list Event :=
  match lines with
  | [] => (outputTokens, [])
  | line :: rest =>
      (* Record TTFT on first line *)
      let ttft :=
        if firstByte then [EvRecordTTFT tenantID model (arrival i - start)] else [] in
      (* Write line to client immediately *)
      let wr := [EvWriteString (line +:+ LF); EvFlush] in
      (* Token Counting Logic *)
      let outputTokens :=
        match line_tokens line with
        | Some n => wrap64 (outputTokens + n)
        | None => outputTokens
        end in
      let '(out, evs) :=
        streamLoop tenantID model start arrival rest (S i) outputTokens false in
      (out, (ttft ++ wr ++ evs)%list)
  end.

Definition streamResponse (body : string) (arrival : nat -> Z) (tenantID model : string)
  (start : Z) : Z * list Event :=
  let '(out, evs) :=
    streamLoop tenantID model start arrival (scan_lines body) 0%nat 0 true in
  (out, EvFlush :: evs).

(** ** internal/proxy/handler.go: [CreateCompletion] *)

Fixpoint parse_digits (s : string) (acc : Z) : option Z :=
  match s with
  | EmptyString => Some acc
  | String c r =>
      if is_digit c
      then parse_digits r (10 * acc + (Z.of_nat (nat_of_ascii c) - 48))
      else None
  end.

(** [strconv.Atoi]: an optional sign and decimal digits, within [int]. *)
Definition strconv_Atoi (s : string) : option Z :=
  match s with
  | EmptyString => None
  | String c r =>
      let neg := Ascii.eqb c "-"%char in
      let digits := if neg || Ascii.eqb c "+"%char then r else s in
      match digits with
      | EmptyString => None
      | _ =>
          match parse_digits digits 0 with
          | Some n =>
              let v := if neg then - n else n in
              if (min_int64 <=? v) && (v <=? max_int64) then Some v else None
          | None => None
          end
      end
  end.

(** [ioutil.ReadAll] on the request body behind
    [http.MaxBytesReader(..., 10*1024*1024)]. *)
Definition ReadAll_limited (b : RequestBody) : result string :=
  match b with
  | BodyBytes bytes =>
      if len bytes >? 10 * 1024 * 1024
      then Err (errorString "http: request body too large")
      else Ok bytes
  | BodyReadError e => Err (errorString e)
  end.

(** The [for _, m := range tenant.AllowedModels] loop. *)
Definition model_allowed (allowedModels : list string) (model : string) : bool :=
  existsb (fun m => String.eqb m "*" || String.eqb m model) allowedModels.

Definition retryMax_of (c : Context) : Z :=
  let hVal := GetHeader c "X-LLM-Retry-Max" in
  if negb (String.eqb hVal "") then
    match strconv_Atoi hVal with
    | Some val => if (val >=? 0) && (val <=? 10) then val else 3
    | None => 3
    end
  else 3.

Definition backoffMs_of (c : Context) : Z :=
  let hVal := GetHeader c "X-LLM-Retry-Backoff-Ms" in
  if negb (String.eqb hVal "") then
    match strconv_Atoi hVal with
    | Some val => if val >=? 0 then val else 100
    | None => 100
    end
  else 100.

(** [c.Header(k, v)] for every value of every upstream header: [Set]
    replaces, and an empty value deletes, so the last value decides. *)
Definition forward_headers (h : gmap string (list string)) : gmap string string :=
  omap (fun vv => match last vv with
                  | Some v => if String.eqb v "" then None else Some v
                  | None => None
                  end) h.

Fixpoint written_bytes (tr : list Event) : string :=
  match tr with
  | [] => ""
  | EvWriteString s :: r => s +:+ written_bytes r
  | _ :: r => written_bytes r
  end.

(** The clock, the upstream call counter and the effects so far. *)
Record World : Type := mkWorld {
  w_now : Z;
  w_calls : nat;
  w_trace : list Event
}.

Definition add_event (w : World) (e : Event) : World :=
  mkWorld (w_now w) (w_calls w) (w_trace w ++ [e])%list.

(** [time.Sleep(d)]: returns at once for [d <= 0]. *)
Definition time_Sleep (w : World) (d : Z) : World :=
  mkWorld (w_now w + Z.max 0 d) (w_calls w) (w_trace w ++ [EvSleep d])%list.

Definition httpClient_Do (proxyReq : ProxyRequest) (w : World) : World * result Response :=
  let x := upstream E (w_calls w) proxyReq in
  (mkWorld (w_now w + x_elapsed x) (S (w_calls w)) (w_trace w ++ [EvUpstream proxyReq])%list,
   x_result x).

(** The variables of the retry loop. *)
Record LoopState : Type := mkLoopState {
  attempt : Z;
  urlIndex : Z;
  resp : option Response;
  lastErr : option error;
  l_cb : CircuitBreaker;
  l_world : World
}.

Inductive LoopEnd : Type :=
| LoopDone (st : LoopState)       (* [break], or [attempt <= retryMax] is false *)
| LoopReturn500 (st : LoopState)  (* the upstream request could not be created *)
| LoopFuel.

Section RetryLoop.

Variables (method : string) (reqHeader : gmap string (list string))
  (bodyBytes apiKey : string) (baseURLs : list string) (retryMax backoffMs : Z).

Definition make_proxyReq (currentURL : string) : ProxyRequest :=
  let h := reqHeader in
  let h := <[ "Authorization" := ["Bearer " +:+ apiKey] ]> h in
  let h := delete "Host" h in
  let h := delete (CanonicalMIMEHeaderKey "X-LLM-Retry-Max") h in
  let h := delete (CanonicalMIMEHeaderKey "X-LLM-Retry-Backoff-Ms") h in
  mkProxyRequest method currentURL h bodyBytes.

(** [time.Duration(backoffMs) * time.Millisecond *
     time.Duration(math.Pow(retryFactor, float64(attempt-1)))]; the power
    of two is exact for the exponents 0..9 that occur. *)
Definition sleepTime (attempt : Z) : Z :=
  wrap64 (wrap64 (backoffMs * millisecond_ns) * 2 ^ (attempt - 1)).

(** The code after the success condition, once an attempt has failed. *)
Definition failure_step (st : LoopState) (shouldFailover : bool) : LoopState :=
  let attempt := attempt st + 1 in
  let urlIndex := if shouldFailover then urlIndex st + 1 else urlIndex st in
  let w :=
    if attempt <=? retryMax then
      let is429 := match resp st with
                   | Some r => StatusCode r =? 429
                   | None => false
                   end in
      if is429 && shouldFailover then l_world st
      else time_Sleep (l_world st) (sleepTime attempt)
    else l_world st in
  mkLoopState attempt urlIndex (resp st) (lastErr st) (l_cb st) w.

Fixpoint retryLoop (fuel : nat) (st : LoopState) : LoopEnd :=
  if negb (attempt st <=? retryMax) then LoopDone st
  else
    match fuel with
    | O => LoopFuel
    | S fuel =>
        let currentURL :=
          nth (Z.to_nat (Z.rem (urlIndex st) (Z.of_nat (List.length baseURLs))))
            baseURLs "" in
        if negb (http_NewRequest_ok E method currentURL) then LoopReturn500 st
        else
          let proxyReq := make_proxyReq currentURL in
          (* Execute with Circuit Breaker *)
          let '(cb', w', r) :=
            Execute w_now (l_cb st) (l_world st) (httpClient_Do proxyReq) in
          match r with
          | Err cbErr =>
              let st := mkLoopState (attempt st) (urlIndex st) (resp st) (Some cbErr)
                          cb' w' in
              if is_ErrOpenState cbErr then LoopDone st
              else retryLoop fuel (failure_step st true)
          | Ok rsp =>
              let st := mkLoopState (attempt st) (urlIndex st) (Some rsp) None cb' w' in
              (* success condition *)
              if (StatusCode rsp <? 500) && negb (StatusCode rsp =? 429)
              then LoopDone st
              else
                retryLoop fuel
                  (failure_step st ((StatusCode rsp >=? 500) || (StatusCode rsp =? 429)))
          end
    end.

End RetryLoop.

Definition json_reply (status : Z) (h : gmap string JValue) : Reply :=
  mkReply status ∅ (JSONBody h).

Context {MS : Type} `{ModelStore MS}.

Definition finish (h : Handler MS) (r : Reply) : Run (Outcome MS) :=
  Returned (mkOutcome r h [] None).

(** What the handler knows once the request is validated and the model
    resolved (steps 1 to 4). *)
Record Intake : Type := mkIntake {
  in_tenant : Tenant;
  in_bodyBytes : string;
  in_chatReq : ChatRequest;
  in_modelConfig : Model
}.

(** Steps 1 to 4 of [CreateCompletion]: every [return] before the retry
    loop, or the validated request. *)
Definition intake (h : Handler MS) (c : Context) : Reply + Intake :=
  match ctx_tenant c with
  | None =>
      inl (json_reply StatusInternalServerError
             {[ "error" := JString "Tenant context missing" ]})
  | Some tenant =>
  (* 1. Read and buffer body to inspect model *)
  match ReadAll_limited (Body (ctx_Request c)) with
  | Err err =>
      if String.eqb (Error err) "http: request body too large" then
        inl (json_reply StatusRequestEntityTooLarge
               {[ "error" := JString "Request body too large (limit: 10MB)" ]})
      else
        inl (json_reply StatusBadRequest
               {[ "error" := JString "Failed to read request body" ]})
  | Ok bodyBytes =>
  match json_Unmarshal_ChatRequest E bodyBytes with
  | None => inl (json_reply StatusBadRequest {[ "error" := JString "Invalid JSON body" ]})
  | Some chatReq =>
  (* Validation: Max Messages *)
  if Z.of_nat (List.length (req_Messages chatReq)) >? 50 then
    inl (json_reply StatusBadRequest
           {[ "error" := JString "Too many messages in conversation (max: 50)" ]})
  else
  (* 2. Validate Model access *)
  if negb (model_allowed (AllowedModels tenant) (req_Model chatReq)) then
    inl (json_reply StatusForbidden
           {[ "error" := JString "Model not allowed for this tenant" ]})
  else
  (* 3. Lookup Model Config *)
  match GetModel (modelStore h) (req_Model chatReq) with
  | Err _ =>
      inl (json_reply StatusInternalServerError
             {[ "error" := JString "Failed to resolve model config" ]})
  | Ok None =>
      inl (json_reply StatusNotFound
             {[ "error" := JString "Model configuration not found" ]})
  | Ok (Some modelConfig) =>
  (* 4. Determine Upstream Candidates *)
  if Z.of_nat (List.length (BaseURLs modelConfig)) =? 0 then
    inl (json_reply StatusInternalServerError
           {[ "error" := JString "Misconfigured model: no base URLs" ]})
  else inr (mkIntake tenant bodyBytes chatReq modelConfig)
  end
  end
  end
  end.

(** Step 5: the retry policy from the headers and the retry loop, started
    at [attempt = 0], [urlIndex = 0] with nil [resp] and [lastErr].  The
    loop runs at most [retryMax + 1] times. *)
Definition upstreamLoop (h : Handler MS) (start : Z) (c : Context) (i : Intake)
  : LoopEnd :=
  let apiKey := os_Getenv E (APIKeyEnv (in_modelConfig i)) in
  let retryMax := retryMax_of c in
  let backoffMs := backoffMs_of c in
  retryLoop (Method (ctx_Request c)) (Header (ctx_Request c)) (in_bodyBytes i) apiKey
    (BaseURLs (in_modelConfig i)) retryMax backoffMs (Z.to_nat (retryMax + 1))
    (mkLoopState 0 0 None None (cb h) (mkWorld start (calls h) [])).

Definition after_loop (h : Handler MS) (st : LoopState) : Handler MS :=
  mkHandler (modelStore h) (l_cb st) (w_calls (l_world st)).

(** Step 8: the response body goes to the client, through [streamResponse]
    or in one [Write]; the result is [outputTokens]. *)
Definition write_body (start : Z) (i : Intake) (rsp : Response) : Z * list Event :=
  if req_Stream (in_chatReq i) then
    streamResponse (resp_Body rsp) (resp_Arrival rsp) (TenantID (in_tenant i))
      (req_Model (in_chatReq i)) start
  else
    (int_div (len (resp_Body rsp)) 4, [EvWriteString (resp_Body rsp)]).

(** Steps 6 to 9: the code after the loop. *)
Definition respond (h : Handler MS) (start : Z) (i : Intake) (le : LoopEnd)
  : Run (Outcome MS) :=
  match le with
  | LoopFuel => OutOfFuel
  | LoopReturn500 st =>
      Returned (mkOutcome
                  (json_reply StatusInternalServerError
                     {[ "error" := JString "Failed to create upstream request" ]})
                  (after_loop h st) (w_trace (l_world st)) None)
  | LoopDone st =>
      match lastErr st with
      | Some e =>
          Returned (mkOutcome
                      (json_reply StatusBadGateway
                         (<[ "details" := JString (Error e) ]>
                            {[ "error" := JString "Upstream provider failed" ]}))
                      (after_loop h st) (w_trace (l_world st)) None)
      | None =>
          match resp st with
          | None => Panicked "invalid memory address or nil pointer dereference"
          | Some rsp =>
              if StatusCode rsp >=? 500 then
                Returned (mkOutcome
                            (json_reply StatusBadGateway
                               (<[ "status" := JInt (StatusCode rsp) ]>
                                  {[ "error" := JString "Upstream provider error" ]}))
                            (after_loop h st) (w_trace (l_world st)) None)
              else
                let tenant := in_tenant i in
                let chatReq := in_chatReq i in
                (* 7. Forward Response Headers *)
                let header := forward_headers (resp_Header rsp) in
                (* Calculate Input Tokens (Approx) *)
                let inputTokens := int_div (len (in_bodyBytes i)) 4 in
                (* 8. Handle Response Body (Streaming vs Non-Streaming) *)
                let '(outputTokens, evs) := write_body start i rsp in
                (* 9. Update Metrics & Logs (Async) *)
                let task := mkBookkeeping (TenantID tenant) (req_Model chatReq)
                              inputTokens outputTokens start in
                let tail := [EvGo task;
                             EvRecordTokenUsage (TenantID tenant) (req_Model chatReq)
                               inputTokens outputTokens] in
                Returned (mkOutcome
                            (mkReply (StatusCode rsp) header (RawBody (written_bytes evs)))
                            (after_loop h st) (w_trace (l_world st) ++ evs ++ tail)%list
                            (Some (req_Model chatReq)))
          end
      end
  end.

Definition CreateCompletion (h : Handler MS) (start : Z) (c : Context)
  : Run (Outcome MS) :=
  match intake h c with
  | inl r => finish h r
  | inr i => respond h start i (upstreamLoop h start c i)
  end.

End Proxy.

(** ** The deferred goroutine of [CreateCompletion] *)

Section Bookkeeping.

Context {RL US : Type} `{RateLimitStore RL} `{UsageStore US}.

(** [for i := 0; i < 3; i++], over the values of [i] still to come. *)
Fixpoint logUsageLoop (todo : list Z) (us : US) (usageRec : UsageRecord)
  : US * list Event :=
  match todo with
  | [] => (us, [])
  | i :: rest =>
      match LogUsage us usageRec with
      | (us', Some _) =>
          let '(us'', evs) := logUsageLoop rest us' usageRec in
          (us'', EvSleep (100 * (i + 1) * millisecond_ns) :: evs)
      | (us', None) => (us', [])
      end
  end.

(** The goroutine body; [requestID] is the value of [uuid.New().String()]. *)
Definition run_Bookkeeping (requestID : string) (task : Bookkeeping) (rl : RL) (us : US)
  : RL * US * list Event :=
  (* Update Rate Limit *)
  let estTokens := wrap64 (bk_in task + bk_out task) in
  let '(rl', _) := IncrementTPM rl (bk_tid task) estTokens in
  (* Log Usage Persistence *)
  let usageRec := {| rec_TenantID := bk_tid task;
                     rec_Timestamp := bk_start task;
                     rec_RequestID := requestID;
                     rec_ModelID := bk_mid task;
                     rec_InputTokens := bk_in task;
                     rec_OutputTokens := bk_out task |} in
  let '(us', evs) := logUsageLoop [0; 1; 2] us usageRec in
  (rl', us', evs).

End Bookkeeping.

(** ** A usage sink that fails

    [MockUsageStore] never fails.  This sink refuses its first
    [failures_left] writes and counts every write it is asked for. *)

Record FlakyUsageStore : Type := mkFlakyUsageStore {
  failures_left : nat;
  accepted : list UsageRecord;
  writes_seen : nat
}.

Definition FlakyUsageStore_LogUsage (s : FlakyUsageStore) (record : UsageRecord)
  : FlakyUsageStore * option error :=
  match failures_left s with
  | O => (mkFlakyUsageStore O (accepted s ++ [record]) (S (writes_seen s)), None)
  | S k => (mkFlakyUsageStore k (accepted s) (S (writes_seen s)),
            Some (errorString "failed to put item to DynamoDB"))
  end.

#[export] Instance FlakyUsageStore_store : UsageStore FlakyUsageStore :=
  {| LogUsage := FlakyUsageStore_LogUsage |}.

(** ** Runs of several requests *)

(** [k] requests of one tenant through [RateLimitMiddleware], one after the
    other against the same counter store: the final store and what each
    request met. *)
Fixpoint admit_sequence (k : nat) (m : MockRateLimitStore) (c : Context)
  : MockRateLimitStore * list Flow :=
  match k with
  | O => (m, [])
  | S k' =>
      let '(m1, f) := RateLimitMiddleware m c in
      let '(m2, fs) := admit_sequence k' m1 c in
      (m2, f :: fs)
  end.

(** Requests through [CreateCompletion] one after the other, the request
    that starts at each time of [starts], against the same handler (the
    breaker and the upstream call counter carry over). *)
Fixpoint serve (E : Runtime) {MS : Type} `{ModelStore MS} (h : Handler MS)
  (starts : list Z) (c : Context) : Handler MS * list (Run (Outcome MS)) :=
  match starts with
  | [] => (h, [])
  | t :: rest =>
      match CreateCompletion E h t c with
      | Returned o =>
          let '(h', outs) := serve E (out_handler o) rest c in
          (h', Returned o :: outs)
      | r => (h, [r])
      end
  end.

(** The response of [RateLimitMiddleware] to a request over the RPM limit. *)
Definition rpm_rejection (t : Tenant) : Flow :=
  Abort StatusTooManyRequests {[ "Retry-After" := "60" ]}
    (<[ "limit" := JInt (RPMLimit t) ]>
       {[ "error" := JString "Rate limit exceeded (RPM)" ]}).

(** ** Concrete inputs

    The inputs of the repository's tests, used to run the model. *)

(** A JSON text written with ['] for the quotation mark. *)
Definition json_text (s : string) : string :=
  string_of_list_ascii
    (map (fun ch => if Ascii.eqb ch "'"%char then "034"%char else ch)
       (list_ascii_of_string s)).

Definition request_of (hdr : gmap string (list string)) (body : string)
  (tenant : option Tenant) : Context :=
  mkContext (mkRequest "POST" hdr (BodyBytes body)) tenant None.

Definition bearer (key : string) : gmap string (list string) :=
  {[ "Authorization" := ["Bearer " +:+ key] ]}.

(** The tenants of [TestAuthMiddleware]. *)
Definition test_tenants : MockTenantStore :=
  {| Tenants :=
       <[ "inactive-key" := mkTenant "inactive-key" "tenant-2" "" 0 0 [] false ]>
         {[ "valid-key" := mkTenant "valid-key" "tenant-1" "" 0 0 [] true ]} |}.

(** The same records in the DynamoDB table, nothing cached. *)
Definition test_table : DynamoDBTenantStore :=
  {| client_err := None;
     table :=
       <[ "inactive-key" := ItemTenant (mkTenant "inactive-key" "tenant-2" "" 0 0 [] false) ]>
         {[ "valid-key" := ItemTenant (mkTenant "valid-key" "tenant-1" "" 0 0 [] true) ]};
     cache := ∅ |}.

(** A tenant with [rpm_limit = 2]. *)
Definition tenant_rpm2 : Tenant := mkTenant "k" "t1" "" 2 100 ["*"] true.

(** The body of the [Valid Request] test and its decoded form. *)
Definition chat_body : string :=
  json_text "{'model': 'gpt-4', 'messages': [{'role': 'user', 'content': 'hi'}]}".

Definition chat_request (stream : bool) : ChatRequest :=
  mkChatRequest "gpt-4" [mkMessage "user" "hi"] stream.

(** The two content chunks of [TestCreateCompletion_Streaming]. *)
Definition chunk_hello : string :=
  json_text "{'choices':[{'delta':{'content':'Hello'}}]}".
Definition chunk_world : string :=
  json_text "{'choices':[{'delta':{'content':' World'}}]}".

Definition sse_body : string :=
  "data: " +:+ chunk_hello +:+ LF +:+ LF +:+
  "data: " +:+ chunk_world +:+ LF +:+ LF +:+
  "data: [DONE]" +:+ LF +:+ LF.

(** A runtime for the tests: [encoding/json] on the texts above, an empty
    environment, well-formed URLs, and the given upstream. *)
Definition test_runtime (stream : bool) (up : nat -> ProxyRequest -> Exchange) : Runtime :=
  {| json_Unmarshal_ChatRequest :=
       fun b => if String.eqb b chat_body then Some (chat_request stream) else None;
     json_Unmarshal_partial :=
       fun d => if String.eqb d chunk_hello then Some ["Hello"]
                else if String.eqb d chunk_world then Some [" World"]
                else None;
     os_Getenv := fun _ => "";
     http_NewRequest_ok := fun _ _ => true;
     upstream := up |}.

Definition test_models : MockModelStore :=
  {| Models := {[ "gpt-4" := mkModel "gpt-4" "" ["http://a"; "http://b"] "" ]} |}.

(** An upstream that answers every call with the same status. *)
Definition always_status (code : Z) (body : string) : nat -> ProxyRequest -> Exchange :=
  fun _ _ => mkExchange (Ok (mkResponse code ∅ body (fun _ => 0))) 0.

(** An upstream that is unreachable. *)
Definition unreachable : nat -> ProxyRequest -> Exchange :=
  fun _ _ => mkExchange (Err (errorString "dial tcp: connection refused")) 0.

(** ** The streaming estimate in the spec's words

    Spec 4.5.4: a forwarded line that begins with [data: ], whose payload is
    not [[DONE]] and parses with a non-empty [choices], counts
    [floor (len (choices[0].delta.content) / 4)]; any other line counts 0;
    [output_tokens] is the sum over the lines. *)

Definition spec_line_tokens (E : Runtime) (line : string) : Z :=
  if strings_HasPrefix line "data: " then
    let payload := string_drop 6 line in
    if String.eqb payload "[DONE]" then 0
    else match json_Unmarshal_partial E payload with
         | Some (content :: _) => len content / 4
         | _ => 0
         end
  else 0.

Definition spec_output_tokens (E : Runtime) (lines : list string) : Z :=
  foldr Z.add 0 (map (spec_line_tokens E) lines).

(** The bytes a client receives when every line is forwarded. *)
Fixpoint forwarded_bytes (lines : list string) : string :=
  match lines with
  | [] => ""
  | l :: r => (l +:+ LF) +:+ forwarded_bytes r
  end.

(** How often TTFT was observed in a trace. *)
Fixpoint count_TTFT (tr : list Event) : nat :=
  match tr with
  | [] => O
  | EvRecordTTFT _ _ _ :: r => S (count_TTFT r)
  | _ :: r => count_TTFT r
  end.

(** How many deferred tasks a trace starts, and how many upstream calls it
    makes. *)
Fixpoint count_Go (tr : list Event) : nat :=
  match tr with
  | [] => O
  | EvGo _ :: r => S (count_Go r)
  | _ :: r => count_Go r
  end.

Fixpoint count_Upstream (tr : list Event) : nat :=
  match tr with
  | [] => O
  | EvUpstream _ :: r => S (count_Upstream r)
  | _ :: r => count_Upstream r
  end.

(** The spec's success class (4.5.3 step 4): a response with
    [status < 500] and [status <> 429]. *)
Definition success_class (rsp : Response) : bool :=
  (StatusCode rsp <? 500) && negb (StatusCode rsp =? 429).

(** The events the retry loop produces. *)
Definition is_loop_event (e : Event) : bool :=
  match e with
  | EvUpstream _ | EvSleep _ => true
  | _ => false
  end.

(** ** Further inputs and replies *)


(** The retry headers, under their canonical keys. *)
Definition retry_headers (retryMax backoffMs : string) : gmap string (list string) :=
  <[ "X-Llm-Retry-Backoff-Ms" := [backoffMs] ]> {[ "X-Llm-Retry-Max" := [retryMax] ]}.

(** An active record with nothing but its keys stored. *)
Definition unset_record : Tenant := mkTenant "new-key" "new-tenant" "New Tenant" 0 0 [] true.

Definition unset_table : DynamoDBTenantStore :=
  {| client_err := None; table := {[ "new-key" := ItemTenant unset_record ]}; cache := ∅ |}.

(** The [Valid Request] of the handler test, against an upstream that
    answers every attempt with 429. *)
Definition rate_limited_run : Run (Outcome MockModelStore) :=
  CreateCompletion (test_runtime false (always_status 429 "slow down"))
    (NewHandler test_models 0) 0
    (request_of ∅ chat_body (Some (mkTenant "k" "t1" "" 10 100 ["gpt-4"] true))).

(** The [usageRec] the deferred task builds. *)
Definition usage_record_of (requestID : string) (task : Bookkeeping) : UsageRecord :=
  {| rec_TenantID := bk_tid task; rec_Timestamp := bk_start task;
     rec_RequestID := requestID; rec_ModelID := bk_mid task;
     rec_InputTokens := bk_in task; rec_OutputTokens := bk_out task |}.

(** The reply of [CreateCompletion] when the breaker refuses the call. *)
Definition breaker_open_reply : Reply :=
  json_reply StatusBadGateway
    (<[ "details" := JString "circuit breaker is open" ]>
       {[ "error" := JString "Upstream provider failed" ]}).

(** Ten requests one second apart, each allowed a single attempt
    ([X-LLM-Retry-Max: 0]), through a new handler; and the handler they
    leave behind. *)
Definition breaker_request : Context :=
  request_of (retry_headers "0" "100") chat_body
    (Some (mkTenant "k" "t1" "" 100 100000 ["*"] true)).

Definition ten_starts : list Z := map (fun k => Z.of_nat k * second_ns) (seq 0 10).

Definition ten_runs (up : nat -> ProxyRequest -> Exchange)
  : Handler MockModelStore * list (Run (Outcome MockModelStore)) :=
  serve (test_runtime false up) (NewHandler test_models 0) ten_starts breaker_request.

(** The reply status and the number of upstream calls of a run. *)
Definition run_summary (r : Run (Outcome MockModelStore)) : option (Z * nat) :=
  match r with
  | Returned o => Some (reply_status (out_reply o), count_Upstream (out_trace o))
  | _ => None
  end.

(** The tenants of the handler test and the validated [Valid Request]. *)
Definition tenant_any : Tenant := mkTenant "k" "t1" "" 10 100 ["*"] true.
Definition tenant_claude : Tenant := mkTenant "k" "t1" "" 10 100 ["claude-2"] true.

Definition chat_intake (stream : bool) : Intake :=
  mkIntake tenant_any chat_body (chat_request stream)
    (mkModel "gpt-4" "" ["http://a"; "http://b"] "").

(** ** Invariants of the retry loop *)

(** What holds of the loop variables whenever the loop condition is
    tested: the trace holds loop events only, and a nil [lastErr] means that
    no attempt was made yet or that the last response was not a success. *)
Definition loop_inv (retryMax : Z) (st : LoopState) : Prop :=
  forallb is_loop_event (w_trace (l_world st)) = true
  /\ (lastErr st = None ->
      attempt st <= retryMax
      \/ exists rsp, resp st = Some rsp /\ success_class rsp = false).

(** What holds when the loop is left. *)
Definition loop_post (retryMax : Z) (st : LoopState) : Prop :=
  forallb is_loop_event (w_trace (l_world st)) = true
  /\ (lastErr st = None ->
      exists rsp, resp st = Some rsp
                  /\ (success_class rsp = true
                      \/ (success_class rsp = false /\ retryMax < attempt st))).

(** ** The schedule of the retry loop

    What the loop of [CreateCompletion] may send and when it may sleep,
    written by attempt number: attempt [k] goes to
    [baseURLs[k % len(baseURLs)]], and the sleep after the [k]-th failed
    attempt is [sleepTime k]. *)

Fixpoint upstream_requests (tr : list Event) : list ProxyRequest :=
  match tr with
  | [] => []
  | EvUpstream r :: tr => r :: upstream_requests tr
  | _ :: tr => upstream_requests tr
  end.

Fixpoint sleeps (tr : list Event) : list Z :=
  match tr with
  | [] => []
  | EvSleep d :: tr => d :: sleeps tr
  | _ :: tr => sleeps tr
  end.

Definition url_at (baseURLs : list string) (k : nat) : string :=
  nth (k mod List.length baseURLs) baseURLs "".

Definition request_at (method : string) (reqHeader : gmap string (list string))
  (bodyBytes apiKey : string) (baseURLs : list string) (k : nat) : ProxyRequest :=
  make_proxyReq method reqHeader bodyBytes apiKey (url_at baseURLs k).

(** The requests of a validated request [c], by attempt number. *)
Definition request_of_attempt (E : Runtime) (c : Context) (i : Intake) (k : nat)
  : ProxyRequest :=
  request_at (Method (ctx_Request c)) (Header (ctx_Request c)) (in_bodyBytes i)
    (os_Getenv E (APIKeyEnv (in_modelConfig i))) (BaseURLs (in_modelConfig i)) k.

Definition schedule_inv (method : string) (reqHeader : gmap string (list string))
  (bodyBytes apiKey : string) (baseURLs : list string) (retryMax backoffMs : Z)
  (st : LoopState) : Prop :=
  0 <= attempt st <= retryMax + 1
  /\ urlIndex st = attempt st
  /\ upstream_requests (w_trace (l_world st))
     `sublist_of` map (request_at method reqHeader bodyBytes apiKey baseURLs)
                    (seq 0 (Z.to_nat (attempt st)))
  /\ sleeps (w_trace (l_world st))
     `sublist_of` map (fun k => sleepTime backoffMs (Z.of_nat k))
                    (seq 1 (Z.to_nat (Z.min (attempt st) retryMax))).

Definition schedule_post (method : string) (reqHeader : gmap string (list string))
  (bodyBytes apiKey : string) (baseURLs : list string) (retryMax backoffMs : Z)
  (st : LoopState) : Prop :=
  upstream_requests (w_trace (l_world st))
  `sublist_of` map (request_at method reqHeader bodyBytes apiKey baseURLs)
                 (seq 0 (Z.to_nat (retryMax + 1)))
  /\ sleeps (w_trace (l_world st))
     `sublist_of` map (fun k => sleepTime backoffMs (Z.of_nat k))
                    (seq 1 (Z.to_nat retryMax)).

(** The sum of a list of durations. *)
Definition total (l : list Z) : Z := foldr Z.add 0 l.

(** Whether the byte [ch] occurs in [s]. *)
Definition has_byte (s : string) (ch : ascii) : bool :=
  existsb (fun c => Ascii.eqb c ch) (list_ascii_of_string s).

(** [c.Set("tenant", tenant)] *)
Definition set_tenant (c : Context) (tenant : Tenant) : Context :=
  {| ctx_Request := ctx_Request c; ctx_tenant := Some tenant; ctx_model := ctx_model c |}.

(** The response of [RateLimitMiddleware] to a request over the TPM limit. *)
Definition tpm_rejection (t : Tenant) : Flow :=
  Abort StatusTooManyRequests {[ "Retry-After" := "60" ]}
    (<[ "limit" := JInt (TPMLimit t) ]>
       {[ "error" := JString "Rate limit exceeded (TPM)" ]}).

(** ** internal/store: [TenantStore.CreateTenant]

    The second method of the [TenantStore] interface.  The mock store
    overwrites the entry of the tenant's key and never fails.  The DynamoDB
    store puts the item under its [api_key] and leaves its cache alone. *)

Class TenantCreator (S : Type) : Type := {
  CreateTenant : S -> Tenant -> S * option error
}.

#[export] Instance MockTenantStore_creator : TenantCreator MockTenantStore :=
  {| CreateTenant := fun m tenant => (MockTenantStore_CreateTenant m tenant, None) |}.

Definition DynamoDBTenantStore_CreateTenant (s : DynamoDBTenantStore) (tenant : Tenant)
  : DynamoDBTenantStore * option error :=
  match client_err s with
  | Some e => (s, Some (errorString ("failed to put item to DynamoDB: " +:+ Error e)))
  | None =>
      ({| client_err := client_err s;
          table := <[APIKey tenant := ItemTenant tenant]> (table s);
          cache := cache s |}, None)
  end.

#[export] Instance DynamoDBTenantStore_creator : TenantCreator DynamoDBTenantStore :=
  {| CreateTenant := DynamoDBTenantStore_CreateTenant |}.

(** ** internal/store: the DynamoDB model store *)

Inductive ModelItem : Type :=
| ModelItemMalformed (e : string)
| ModelItemModel (m : Model).

Record DynamoDBModelStore : Type := mkDynamoDBModelStore {
  model_client_err : option error;
  model_table : gmap string ModelItem
}.

Definition DynamoDBModelStore_GetModel (s : DynamoDBModelStore) (modelID : string)
  : result (option Model) :=
  match model_client_err s with
  | Some e => Err (errorString ("failed to get model from DynamoDB: " +:+ Error e))
  | None =>
      match model_table s !! modelID with
      | None => Ok None
      | Some (ModelItemMalformed e) => Err (errorString ("failed to unmarshal model: " +:+ e))
      | Some (ModelItemModel model) => Ok (Some model)
      end
  end.

#[export] Instance DynamoDBModelStore_store : ModelStore DynamoDBModelStore :=
  {| GetModel := DynamoDBModelStore_GetModel |}.

(** ** internal/admin/handler.go *)

Record AdminHandler (S : Type) : Type := mkAdminHandler {
  admin_tenantStore : S;
  admin_apiKey : string
}.
Arguments mkAdminHandler {S} _ _.
Arguments admin_tenantStore {S} _.
Arguments admin_apiKey {S} _.

Definition NewAdminHandler {S : Type} (ts : S) (apiKey : string) : AdminHandler S :=
  {| admin_tenantStore := ts; admin_apiKey := apiKey |}.

Definition AdminHandler_AuthMiddleware {S : Type} (h : AdminHandler S) (c : Context) : Flow :=
  let key := GetHeader c "X-Admin-Key" in
  if negb (String.eqb key (admin_apiKey h)) then
    Abort StatusUnauthorized ∅ {[ "error" := JString "Invalid Admin Key" ]}
  else Next c.

(** [c.ShouldBindJSON(&req)]: [encoding/json] on the body, a library, and
    then the validator on the fields tagged [binding:"required"], which
    refuses a string field that is empty; the text of its error is the
    library's. *)
Record Binder : Type := mkBinder {
  json_Decode_CreateTenantRequest : string -> result CreateTenantRequest;
  validation_error : CreateTenantRequest -> error
}.

Definition ShouldBindJSON (B : Binder) (body : RequestBody) : result CreateTenantRequest :=
  match body with
  | BodyReadError e => Err (errorString e)
  | BodyBytes b =>
      match json_Decode_CreateTenantRequest B b with
      | Err e => Err e
      | Ok req =>
          if String.eqb (ctr_TenantID req) "" || String.eqb (ctr_Name req) ""
             || String.eqb (ctr_APIKey req) ""
          then Err (validation_error B req)
          else Ok req
      end
  end.

Definition StatusOK : Z := 200.
Definition StatusCreated : Z := 201.

(** What [CreateTenant] writes: a [gin.H] body, or the tenant. *)
Inductive AdminReply : Type :=
| AdminJSON (status : Z) (body : gmap string JValue)
| AdminTenant (status : Z) (tenant : Tenant).

Definition AdminHandler_CreateTenant {S : Type} `{TenantCreator S} (B : Binder)
  (h : AdminHandler S) (c : Context) : AdminHandler S * AdminReply :=
  match ShouldBindJSON B (Body (ctx_Request c)) with
  | Err err => (h, AdminJSON StatusBadRequest {[ "error" := JString (Error err) ]})
  | Ok req =>
      (* Validate Defaults *)
      let tenant := CreateTenant_tenant req in
      match CreateTenant (admin_tenantStore h) tenant with
      | (ts, Some _) =>
          (mkAdminHandler ts (admin_apiKey h),
           AdminJSON StatusInternalServerError
             {[ "error" := JString "Failed to create tenant" ]})
      | (ts, None) =>
          (mkAdminHandler ts (admin_apiKey h), AdminTenant StatusCreated tenant)
      end
  end.

(** Whether the last byte of [s] is a carriage return. *)
Fixpoint ends_with_CR (s : string) : bool :=
  match s with
  | EmptyString => false
  | String c EmptyString => Ascii.eqb c CR
  | String _ r => ends_with_CR r
  end.

(** A line that the scanner returns as it is: no newline inside, no
    carriage return at its end, and short enough for the buffer. *)
Definition plain_line (l : string) : bool :=
  negb (has_byte l "010"%char) && negb (ends_with_CR l) && (len l <? MaxScanTokenSize).

(** ** internal/middleware/metrics.go *)

(** [strconv.Itoa] and the [%d] verb of [fmt]. *)
Definition strconv_Itoa (z : Z) : string := NilZero.string_of_int (Z.to_int z).

(** The label values of one increment of [http_requests_total]. *)
Record MetricLabels : Type := mkMetricLabels {
  lbl_method : string;
  lbl_status : string;
  lbl_tenant_id : string;
  lbl_model : string
}.

(** What [MetricsMiddleware] records once [c.Next()] has returned, from the
    context and the status the chain left behind. *)
Definition MetricsMiddleware_labels (c : Context) (status : Z) : MetricLabels :=
  let method := Method (ctx_Request c) in
  (* Extract context info if available *)
  let tenantID := match ctx_tenant c with Some t => TenantID t | None => "unknown" end in
  (* Try to extract model if set by Handler *)
  let model := match ctx_model c with Some m => m | None => "unknown" end in
  mkMetricLabels method (strconv_Itoa status) tenantID model.

(** ** cmd/server/main.go: the routes

    [main] registers its middleware on the engine before it creates the
    admin group and before it registers any route, so the chain of every
    route starts with the engine's handlers.  The routes are named by a
    constructor:
    [POST /admin/tenants], [POST /v1/chat/completions], [GET /health] and
    [GET /metrics]. *)

Inductive HandlerFunc : Type :=
| H_Logger | H_Recovery                 (* gin.Default() *)
| H_Otel                                (* otelgin.Middleware *)
| H_Metrics | H_Auth | H_RateLimit
| H_AdminAuth | H_CreateTenant
| H_CreateCompletion | H_Health | H_PromHandler.

Inductive Route : Type :=
| RouteAdminTenants | RouteChatCompletions | RouteHealth | RouteMetrics.

Definition Route_eqb (a b : Route) : bool :=
  match a, b with
  | RouteAdminTenants, RouteAdminTenants | RouteChatCompletions, RouteChatCompletions
  | RouteHealth, RouteHealth | RouteMetrics, RouteMetrics => true
  | _, _ => false
  end.

Record RouterGroup : Type := mkRouterGroup {
  Handlers : list HandlerFunc
}.

Record Engine : Type := mkEngine {
  engine_group : RouterGroup;
  engine_routes : list (Route * list HandlerFunc)
}.

(** [gin.Default()] *)
Definition gin_Default : Engine := mkEngine (mkRouterGroup [H_Logger; H_Recovery]) [].

(** [group.Use(middleware...)] *)
Definition RouterGroup_Use (g : RouterGroup) (middleware : list HandlerFunc) : RouterGroup :=
  mkRouterGroup (Handlers g ++ middleware)%list.

(** [r.Use(middleware...)] *)
Definition Engine_Use (r : Engine) (middleware : list HandlerFunc) : Engine :=
  mkEngine (RouterGroup_Use (engine_group r) middleware) (engine_routes r).

(** [group.Group(path)]: the new group starts with the handlers the parent
    has at this moment. *)
Definition RouterGroup_Group (g : RouterGroup) : RouterGroup := mkRouterGroup (Handlers g).

(** [group.POST(path, handler)], [group.GET(path, handler)] *)
Definition Engine_handle (r : Engine) (g : RouterGroup) (route : Route)
  (handler : HandlerFunc) : Engine :=
  mkEngine (engine_group r) (engine_routes r ++ [(route, Handlers g ++ [handler])])%list.

Definition main_engine : Engine :=
  let r := gin_Default in
  (* Register Middleware *)
  let r := Engine_Use r [H_Otel] in
  let r := Engine_Use r [H_Metrics] in
  let r := Engine_Use r [H_Auth] in
  let r := Engine_Use r [H_RateLimit] in
  (* Admin Routes (Protected) *)
  let adminGroup := RouterGroup_Group (engine_group r) in
  let adminGroup := RouterGroup_Use adminGroup [H_AdminAuth] in
  let r := Engine_handle r adminGroup RouteAdminTenants H_CreateTenant in
  (* Routes *)
  let r := Engine_handle r (engine_group r) RouteChatCompletions H_CreateCompletion in
  let r := Engine_handle r (engine_group r) RouteHealth H_Health in
  Engine_handle r (engine_group r) RouteMetrics H_PromHandler.

Definition route_handlers (r : Engine) (route : Route) : list HandlerFunc :=
  match List.find (fun e => Route_eqb (fst e) route) (engine_routes r) with
  | Some e => snd e
  | None => []
  end.

(** ** cmd/server/main.go: serving a request *)

(** The objects [main] creates and shares between its handlers: the tenant
    store (used by [AuthMiddleware] and by the admin handler), the
    rate-limit store, the proxy handler and the admin key. *)
Record Server (TS RL MS : Type) : Type := mkServer {
  srv_tenantStore : TS;
  srv_rlStore : RL;
  srv_proxyHandler : Handler MS;
  srv_adminKey : string
}.
Arguments mkServer {TS RL MS} _ _ _ _.
Arguments srv_tenantStore {TS RL MS} _.
Arguments srv_rlStore {TS RL MS} _.
Arguments srv_proxyHandler {TS RL MS} _.
Arguments srv_adminKey {TS RL MS} _.

Inductive ResponseBody : Type :=
| RespJSON (h : gmap string JValue)
| RespRaw (b : string)
| RespTenant (t : Tenant)
| RespPrometheus                        (* the text promhttp.Handler() writes *)
| RespEmpty.

Record HTTPResponse : Type := mkHTTPResponse {
  http_status : Z;
  http_header : gmap string string;
  http_body : ResponseBody
}.

(** A request served: the shared objects afterwards, the response, the
    context as the chain left it, the effects of the proxy handler, the
    increments of [http_requests_total], and whether a panic is unwinding
    the chain. *)
Record Served (TS RL MS : Type) : Type := mkServed {
  sv_server : Server TS RL MS;
  sv_response : HTTPResponse;
  sv_context : Context;
  sv_trace : list Event;
  sv_metrics : list MetricLabels;
  sv_panicking : bool
}.
Arguments mkServed {TS RL MS} _ _ _ _ _ _.
Arguments sv_server {TS RL MS} _.
Arguments sv_response {TS RL MS} _.
Arguments sv_context {TS RL MS} _.
Arguments sv_trace {TS RL MS} _.
Arguments sv_metrics {TS RL MS} _.
Arguments sv_panicking {TS RL MS} _.

Definition reply_response (r : Reply) : HTTPResponse :=
  mkHTTPResponse (reply_status r) (reply_header r)
    match reply_body r with
    | JSONBody h => RespJSON h
    | RawBody b => RespRaw b
    end.

Definition admin_response (r : AdminReply) : HTTPResponse :=
  match r with
  | AdminJSON status body => mkHTTPResponse status ∅ (RespJSON body)
  | AdminTenant status tenant => mkHTTPResponse status ∅ (RespTenant tenant)
  end.

Section Serve.

Context (E : Runtime) (B : Binder).
Context {TS RL MS : Type} `{TenantStore TS} `{TenantCreator TS} `{RateLimitStore RL}
  `{ModelStore MS}.

(** The chain of a request, handler by handler.  A middleware either
    aborts with a response or lets the rest of the chain run; the route's
    own handler is the last one and writes the response.  [now] is the
    clock reading of the tenant lookup, [start] that of the proxy handler. *)
Fixpoint run_chain (now start : Z) (hs : list HandlerFunc) (srv : Server TS RL MS)
  (c : Context) : Served TS RL MS :=
  match hs with
  | [] => mkServed srv (mkHTTPResponse StatusOK ∅ RespEmpty) c [] [] false
  | h :: rest =>
      match h with
      | H_Logger | H_Otel => run_chain now start rest srv c
      | H_Recovery =>
          let r := run_chain now start rest srv c in
          if sv_panicking r then
            mkServed (sv_server r) (mkHTTPResponse StatusInternalServerError ∅ RespEmpty)
              (sv_context r) (sv_trace r) (sv_metrics r) false
          else r
      | H_Metrics =>
          let r := run_chain now start rest srv c in
          if sv_panicking r then r
          else
            mkServed (sv_server r) (sv_response r) (sv_context r) (sv_trace r)
              (sv_metrics r
               ++ [MetricsMiddleware_labels (sv_context r) (http_status (sv_response r))])%list
              false
      | H_Auth =>
          let '(ts, flow) := AuthMiddleware (srv_tenantStore srv) now c in
          let srv := mkServer ts (srv_rlStore srv) (srv_proxyHandler srv) (srv_adminKey srv) in
          match flow with
          | Abort status header body =>
              mkServed srv (mkHTTPResponse status header (RespJSON body)) c [] [] false
          | Next c => run_chain now start rest srv c
          end
      | H_RateLimit =>
          let '(rl, flow) := RateLimitMiddleware (srv_rlStore srv) c in
          let srv := mkServer (srv_tenantStore srv) rl (srv_proxyHandler srv)
                       (srv_adminKey srv) in
          match flow with
          | Abort status header body =>
              mkServed srv (mkHTTPResponse status header (RespJSON body)) c [] [] false
          | Next c => run_chain now start rest srv c
          end
      | H_AdminAuth =>
          match AdminHandler_AuthMiddleware
                  (NewAdminHandler (srv_tenantStore srv) (srv_adminKey srv)) c with
          | Abort status header body =>
              mkServed srv (mkHTTPResponse status header (RespJSON body)) c [] [] false
          | Next c => run_chain now start rest srv c
          end
      | H_CreateTenant =>
          let '(ah, reply) :=
            AdminHandler_CreateTenant B
              (NewAdminHandler (srv_tenantStore srv) (srv_adminKey srv)) c in
          mkServed (mkServer (admin_tenantStore ah) (srv_rlStore srv) (srv_proxyHandler srv)
                      (srv_adminKey srv))
            (admin_response reply) c [] [] false
      | H_CreateCompletion =>
          match CreateCompletion E (srv_proxyHandler srv) start c with
          | Returned o =>
              mkServed (mkServer (srv_tenantStore srv) (srv_rlStore srv) (out_handler o)
                          (srv_adminKey srv))
                (reply_response (out_reply o))
                {| ctx_Request := ctx_Request c; ctx_tenant := ctx_tenant c;
                   ctx_model := match out_model o with
                                | Some m => Some m
                                | None => ctx_model c
                                end |}
                (out_trace o) [] false
          | Panicked _ | OutOfFuel =>
              mkServed srv (mkHTTPResponse StatusOK ∅ RespEmpty) c [] [] true
          end
      | H_Health =>
          mkServed srv (mkHTTPResponse 200 ∅ (RespJSON {[ "status" := JString "ok" ]}))
            c [] [] false
      | H_PromHandler =>
          mkServed srv (mkHTTPResponse StatusOK ∅ RespPrometheus) c [] [] false
      end
  end.

(** The server on one request of a route, from a fresh context. *)
Definition ServeHTTP (now start : Z) (srv : Server TS RL MS) (route : Route)
  (req : Request) : Served TS RL MS :=
  run_chain now start (route_handlers main_engine route) srv (mkContext req None None).

End Serve.

(** A server with one tenant, and the binder of a request that creates a
    second one with nothing but its keys set. *)
Definition one_tenant_server : Server MockTenantStore MockRateLimitStore MockModelStore :=
  mkServer {| Tenants := {[ "k" := tenant_any ]} |} NewMockRateLimitStore
    (NewHandler test_models 0) "admin-secret".

Definition second_tenant_binder : Binder :=
  mkBinder (fun _ => Ok (mkCreateTenantRequest "t2" "second" "key-2" 0 0 []))
    (fun _ => errorString "validation failed").

Definition create_second_tenant : Request :=
  mkRequest "POST" (<[ "X-Admin-Key" := ["admin-secret"] ]> (bearer "k")) (BodyBytes "{}").

(** ** internal/store/redis.go

    The Redis server is outside the repository.  What the store uses of it:
    a key holds an integer and may carry an expiry instant, after which it
    is gone; [INCR] and [INCRBY] start a key that is missing at 0 without
    expiry, add to it and keep its expiry, and fail when the sum leaves
    [int64]; [EXPIRE] sets the expiry of a key that exists; [GET] of a key
    that is missing is [redis.Nil].  The store carries the wall clock, in
    nanoseconds, that [time.Now()] and the server read. *)

Record RedisEntry : Type := mkRedisEntry {
  redis_value : Z;
  redis_expireAt : option Z
}.

Record RedisRateLimitStore : Type := mkRedisRateLimitStore {
  redis_err : option error;               (* the server cannot be reached *)
  redis_db : gmap string RedisEntry;
  redis_now : Z
}.

(** The store at another reading of the clock. *)
Definition redis_at (s : RedisRateLimitStore) (now : Z) : RedisRateLimitStore :=
  mkRedisRateLimitStore (redis_err s) (redis_db s) now.

(** The entry of a key, unless it has expired. *)
Definition redis_lookup (s : RedisRateLimitStore) (key : string) : option RedisEntry :=
  match redis_db s !! key with
  | Some e =>
      match redis_expireAt e with
      | Some t => if t <=? redis_now s then None else Some e
      | None => Some e
      end
  | None => None
  end.

(** [client.IncrBy(ctx, key, n).Result()]; [Incr] is [IncrBy] with 1. *)
Definition redis_IncrBy (s : RedisRateLimitStore) (key : string) (n : Z)
  : RedisRateLimitStore * result Z :=
  match redis_err s with
  | Some e => (s, Err e)
  | None =>
      let old := match redis_lookup s key with
                 | Some e => e
                 | None => mkRedisEntry 0 None
                 end in
      let v := redis_value old + n in
      if (v <? min_int64) || (v >? max_int64)
      then (s, Err (errorString "ERR increment or decrement would overflow"))
      else (mkRedisRateLimitStore (redis_err s)
              (<[key := mkRedisEntry v (redis_expireAt old)]> (redis_db s)) (redis_now s),
            Ok v)
  end.

(** [client.Expire(ctx, key, d)], its result dropped. *)
Definition redis_Expire (s : RedisRateLimitStore) (key : string) (d : Z)
  : RedisRateLimitStore :=
  match redis_err s, redis_lookup s key with
  | None, Some e =>
      mkRedisRateLimitStore (redis_err s)
        (<[key := mkRedisEntry (redis_value e) (Some (redis_now s + d))]> (redis_db s))
        (redis_now s)
  | _, _ => s
  end.

(** [time.Now().Unix()] *)
Definition time_Unix (now : Z) : Z := now / second_ns.

(** [fmt.Sprintf("rate_limit:rpm:%s:%d", tenantID, time.Now().Unix()/60)] *)
Definition rpm_key (tenantID : string) (now : Z) : string :=
  "rate_limit:rpm:" +:+ tenantID +:+ ":" +:+ strconv_Itoa (int_div (time_Unix now) 60).

Definition tpm_key (tenantID : string) (now : Z) : string :=
  "rate_limit:tpm:" +:+ tenantID +:+ ":" +:+ strconv_Itoa (int_div (time_Unix now) 60).

Definition RedisRateLimitStore_IncrementRPM (s : RedisRateLimitStore) (tenantID : string)
  : RedisRateLimitStore * result Z :=
  let key := rpm_key tenantID (redis_now s) in
  match redis_IncrBy s key 1 with
  | (s, Err err) => (s, Err err)
  | (s, Ok count) =>
      let s := if count =? 1 then redis_Expire s key (90 * second_ns) else s in
      (s, Ok count)
  end.

Definition RedisRateLimitStore_IncrementTPM (s : RedisRateLimitStore) (tenantID : string)
  (tokens : Z) : RedisRateLimitStore * result Z :=
  let key := tpm_key tenantID (redis_now s) in
  match redis_IncrBy s key tokens with
  | (s, Err err) => (s, Err err)
  | (s, Ok count) =>
      let s := if count =? tokens then redis_Expire s key (90 * second_ns) else s in
      (s, Ok count)
  end.

Definition RedisRateLimitStore_GetTPM (s : RedisRateLimitStore) (tenantID : string)
  : RedisRateLimitStore * result Z :=
  let key := tpm_key tenantID (redis_now s) in
  match redis_err s with
  | Some e => (s, Err e)
  | None =>
      match redis_lookup s key with
      | None => (s, Ok 0)                       (* redis.Nil *)
      | Some e => (s, Ok (redis_value e))
      end
  end.

#[export] Instance RedisRateLimitStore_store : RateLimitStore RedisRateLimitStore :=
  {| IncrementRPM := RedisRateLimitStore_IncrementRPM;
     IncrementTPM := RedisRateLimitStore_IncrementTPM;
     GetTPM := RedisRateLimitStore_GetTPM |}.

(** The minute a clock reading falls in. *)
Definition minute_of (now : Z) : Z := int_div (time_Unix now) 60.

(** [IncrementRPM] for one tenant at each of the given clock readings. *)
Fixpoint redis_rpm_sequence (s : RedisRateLimitStore) (tenantID : string) (times : list Z)
  : RedisRateLimitStore * list (result Z) :=
  match times with
  | [] => (s, [])
  | t :: rest =>
      let '(s1, r) := RedisRateLimitStore_IncrementRPM (redis_at s t) tenantID in
      let '(s2, rs) := redis_rpm_sequence s1 tenantID rest in
      (s2, r :: rs)
  end.

(** Requests of one tenant through [RateLimitMiddleware] against the Redis
    store, one at each of the given clock readings. *)
Fixpoint redis_admit_sequence (s : RedisRateLimitStore) (c : Context) (times : list Z)
  : RedisRateLimitStore * list Flow :=
  match times with
  | [] => (s, [])
  | t :: rest =>
      let '(s1, f) := RateLimitMiddleware (redis_at s t) c in
      let '(s2, fs) := redis_admit_sequence s1 c rest in
      (s2, f :: fs)
  end.

(** What the RPM counter of tenant [tenantID] in minute [b] has reached:
    nothing yet, or [k] with an expiry that lies beyond the minute. *)
Definition rpm_state (s : RedisRateLimitStore) (tenantID : string) (b k : Z) : Prop :=
  redis_err s = None
  /\ ((k = 0 /\ redis_db s !! ("rate_limit:rpm:" +:+ tenantID +:+ ":" +:+ strconv_Itoa b)
                = None)
      \/ (1 <= k
          /\ exists e,
               redis_db s !! ("rate_limit:rpm:" +:+ tenantID +:+ ":" +:+ strconv_Itoa b)
               = Some (mkRedisEntry k (Some e))
               /\ (b + 1) * 60 * second_ns <= e)).

(** * Properties *)

(** ** Machine integers *)

Lemma wrap64_small (z : Z) : min_int64 <= z <= max_int64 -> wrap64 z = z.
Proof.
  unfold wrap64, min_int64, max_int64. intros Hz.
  rewrite Z.mod_small; lia.
Qed.

Lemma wrap64_add_l (a b : Z) : wrap64 (wrap64 a + b) = wrap64 (a + b).
Proof.
  unfold wrap64.
  replace ((a + 2 ^ 63) mod 2 ^ 64 - 2 ^ 63 + b + 2 ^ 63)
    with ((a + 2 ^ 63) mod 2 ^ 64 + b) by lia.
  rewrite Zplus_mod_idemp_l. f_equal. f_equal. lia.
Qed.

Lemma len_nonneg (s : string) : 0 <= len s.
Proof. unfold len. lia. Qed.

(** ** Rate-limit admission *)

Lemma map_get_insert_eq (m : gmap string Z) (k : string) (v : Z) :
  map_get (<[k := v]> m) k = v.
Proof. unfold map_get. by rewrite lookup_insert_eq. Qed.

Lemma IncrementRPM_ok (m : MockRateLimitStore) (tid : string) :
  MockErr m = None ->
  exists m', MockRateLimitStore_IncrementRPM m tid
             = (m', Ok (wrap64 (map_get (RPM m) tid + 1)))
             /\ map_get (RPM m') tid = wrap64 (map_get (RPM m) tid + 1)
             /\ TPM m' = TPM m /\ MockErr m' = None.
Proof.
  intros He. unfold MockRateLimitStore_IncrementRPM. rewrite He.
  exists {| RPM := <[tid := wrap64 (map_get (RPM m) tid + 1)]> (RPM m);
            TPM := TPM m; MockErr := None |}.
  cbn [RPM TPM MockErr]. rewrite map_get_insert_eq. done.
Qed.

(** One request against a store that answers: the counter is incremented
    whatever the verdict, and the verdict is the RPM rejection exactly when
    the incremented counter exceeds the limit. *)
Lemma RateLimitMiddleware_step (m : MockRateLimitStore) (c : Context) (t : Tenant) :
  ctx_tenant c = Some t -> MockErr m = None ->
  let n := wrap64 (map_get (RPM m) (TenantID t) + 1) in
  exists m' flow,
    RateLimitMiddleware m c = (m', flow)
    /\ map_get (RPM m') (TenantID t) = n
    /\ TPM m' = TPM m /\ MockErr m' = None
    /\ (n > RPMLimit t -> flow = rpm_rejection t)
    /\ (n <= RPMLimit t -> flow <> rpm_rejection t)
    /\ (n <= RPMLimit t -> map_get (TPM m) (TenantID t) <= TPMLimit t -> flow = Next c).
Proof.
  intros Ht He n.
  destruct (IncrementRPM_ok m (TenantID t) He) as (m' & Hinc & Hrpm & Htpm & He').
  unfold RateLimitMiddleware. rewrite Ht. cbn [IncrementRPM MockRateLimitStore_store].
  rewrite Hinc. fold n.
  destruct (Z.gtb_spec n (RPMLimit t)) as [Hgt | Hle].
  - exists m', (rpm_rejection t). repeat split; try done; lia.
  - cbn [GetTPM MockRateLimitStore_store]. unfold MockRateLimitStore_GetTPM.
    rewrite He', Htpm.
    destruct (Z.gtb_spec (map_get (TPM m) (TenantID t)) (TPMLimit t)) as [Hg | Hl].
    + eexists m', _. repeat split; try done; try lia.
    + exists m', (Next c). repeat split; try done; lia.
Qed.

Lemma admit_sequence_under_limit (k : nat) :
  forall (m : MockRateLimitStore) (c : Context) (t : Tenant),
    ctx_tenant c = Some t -> MockErr m = None ->
    0 <= map_get (RPM m) (TenantID t) ->
    map_get (RPM m) (TenantID t) + Z.of_nat k <= RPMLimit t ->
    RPMLimit t <= max_int64 ->
    map_get (TPM m) (TenantID t) <= TPMLimit t ->
    exists m', admit_sequence k m c = (m', replicate k (Next c))
               /\ map_get (RPM m') (TenantID t) = map_get (RPM m) (TenantID t) + Z.of_nat k
               /\ TPM m' = TPM m /\ MockErr m' = None.
Proof.
  induction k as [|k IH]; intros m c t Ht He H0 Hk Hmax Htpm.
  - exists m. cbn. repeat split; try done. lia.
  - destruct (RateLimitMiddleware_step m c t Ht He)
      as (m1 & f & Hstep & Hrpm & Htpm1 & He1 & _ & _ & Hnext).
    assert (Hw : wrap64 (map_get (RPM m) (TenantID t) + 1)
                 = map_get (RPM m) (TenantID t) + 1).
    { apply wrap64_small. unfold min_int64, max_int64 in *. lia. }
    rewrite Hw in Hrpm, Hnext.
    destruct (IH m1 c t Ht He1) as (m2 & Hseq & Hrpm2 & Htpm2 & He2);
      try (rewrite ?Hrpm, ?Htpm1; lia).
    exists m2. cbn [admit_sequence]. rewrite Hstep, Hseq.
    rewrite Hnext by lia. repeat split; try done.
    + rewrite Hrpm2, Hrpm. lia.
    + congruence.
Qed.

(** C5. Admission increments the RPM counter before checking it, so a
    rejected request is counted too; the request is rejected for RPM exactly
    when the incremented counter is strictly above [rpm_limit] (equality is
    admitted), with HTTP 429, [Retry-After: 60] and the documented body; and
    from an empty bucket the first [rpm_limit] requests are admitted and the
    next one is rejected. *)
Theorem C5_rpm_admission (m : MockRateLimitStore) (c : Context) (t : Tenant)
  (Hten : ctx_tenant c = Some t) (Herr : MockErr m = None) :
  let n := wrap64 (map_get (RPM m) (TenantID t) + 1) in
  map_get (RPM (fst (RateLimitMiddleware m c))) (TenantID t) = n
  /\ (snd (RateLimitMiddleware m c)
      = Abort 429 {[ "Retry-After" := "60" ]}
          (<[ "limit" := JInt (RPMLimit t) ]>
             {[ "error" := JString "Rate limit exceeded (RPM)" ]})
      <-> n > RPMLimit t)
  /\ (map_get (RPM m) (TenantID t) = 0 ->
      0 <= RPMLimit t < max_int64 ->
      map_get (TPM m) (TenantID t) <= TPMLimit t ->
      snd (admit_sequence (S (Z.to_nat (RPMLimit t))) m c)
      = (replicate (Z.to_nat (RPMLimit t)) (Next c) ++ [rpm_rejection t])%list).
Proof.
  intros n.
  destruct (RateLimitMiddleware_step m c t Hten Herr)
    as (m' & f & Hstep & Hrpm & _ & _ & Hrej & Hnot & _).
  fold n in Hrpm, Hrej, Hnot. rewrite Hstep. cbn [fst snd].
  split; [exact Hrpm|]. split.
  - split.
    + intros Hf. destruct (Z_gt_le_dec n (RPMLimit t)) as [Hg|Hl]; [exact Hg|].
      exfalso. apply (Hnot Hl). exact Hf.
    + intros Hg. exact (Hrej Hg).
  - intros H0 HL Htpm.
    replace (S (Z.to_nat (RPMLimit t))) with (Z.to_nat (RPMLimit t) + 1)%nat by lia.
    destruct (admit_sequence_under_limit (Z.to_nat (RPMLimit t)) m c t Hten Herr)
      as (m1 & Hseq & Hrpm1 & Htpm1 & He1); try lia.
    assert (Happ : forall a b mm, admit_sequence (a + b) mm c
              = let '(m1, fs) := admit_sequence a mm c in
                let '(m2, gs) := admit_sequence b m1 c in (m2, (fs ++ gs)%list)).
    { induction a as [|a IHa]; intros b mm; cbn [admit_sequence Nat.add].
      - by destruct (admit_sequence b mm c).
      - destruct (RateLimitMiddleware mm c) as [mm1 f1]. rewrite IHa.
        destruct (admit_sequence a mm1 c) as [mm2 fs].
        by destruct (admit_sequence b mm2 c). }
    rewrite Happ, Hseq.
    destruct (RateLimitMiddleware_step m1 c t Hten He1)
      as (m2 & f2 & Hstep2 & _ & _ & _ & Hrej2 & _ & _).
    cbn [admit_sequence]. rewrite Hstep2. cbn [snd].
    rewrite Hrej2; [reflexivity|].
    rewrite Hrpm1, H0. rewrite wrap64_small; unfold min_int64, max_int64 in *; lia.
Qed.

(** ** Authentication *)



Lemma C5_rpm_admission_witness :
  snd (admit_sequence 3 NewMockRateLimitStore (request_of ∅ "" (Some tenant_rpm2)))
  = [Next (request_of ∅ "" (Some tenant_rpm2));
     Next (request_of ∅ "" (Some tenant_rpm2));
     rpm_rejection tenant_rpm2].
Proof.
  destruct (C5_rpm_admission NewMockRateLimitStore
              (request_of ∅ "" (Some tenant_rpm2)) tenant_rpm2 eq_refl eq_refl)
    as (_ & _ & Hseq).
  apply Hseq; vm_compute; intuition congruence.
Defined.


(** ** Retry policy headers *)

Lemma retryMax_of_range (c : Context) : 0 <= retryMax_of c <= 10.
Proof.
  unfold retryMax_of.
  destruct (negb _); [|lia].
  destruct (strconv_Atoi _) as [v|]; [|lia].
  destruct (Z.geb_spec v 0), (Z.leb_spec v 10); cbn [andb]; lia.
Qed.

Lemma backoffMs_of_nonneg (c : Context) : 0 <= backoffMs_of c.
Proof.
  unfold backoffMs_of.
  destruct (negb _); [|lia].
  destruct (strconv_Atoi _) as [v|]; [|lia].
  destruct (Z.geb_spec v 0); lia.
Qed.

Lemma Atoi_nonempty (s : string) (v : Z) : strconv_Atoi s = Some v -> s <> "".
Proof. intros H ->. discriminate. Qed.

(** C3, as the code has it.  A [X-LLM-Retry-Max] header whose value is the
    integer [v] sets the retry maximum to [v] when [0 <= v <= 10] and leaves
    the default 3 otherwise; a [X-LLM-Retry-Backoff-Ms] header with the
    integer [v] sets the backoff to [v] when [0 <= v] and leaves the default
    100 otherwise.  These are the values the retry loop runs with, and the
    retry maximum is always within [0, 10]. *)
Theorem C3_retry_headers (c : Context) (v : Z) :
  (strconv_Atoi (GetHeader c "X-LLM-Retry-Max") = Some v ->
   retryMax_of c = if (0 <=? v) && (v <=? 10) then v else 3)
  /\ (strconv_Atoi (GetHeader c "X-LLM-Retry-Backoff-Ms") = Some v ->
      backoffMs_of c = if 0 <=? v then v else 100)
  /\ 0 <= retryMax_of c <= 10
  /\ 0 <= backoffMs_of c
  /\ (forall (E : Runtime) (MS : Type) (h : Handler MS) (start : Z) (i : Intake),
        upstreamLoop E h start c i
        = retryLoop E (Method (ctx_Request c)) (Header (ctx_Request c)) (in_bodyBytes i)
            (os_Getenv E (APIKeyEnv (in_modelConfig i))) (BaseURLs (in_modelConfig i))
            (retryMax_of c) (backoffMs_of c) (Z.to_nat (retryMax_of c + 1))
            (mkLoopState 0 0 None None (cb h) (mkWorld start (calls h) []))).
Proof.
  split; [|split; [|split; [|split]]].
  - intros Ha. unfold retryMax_of. rewrite Ha.
    destruct (String.eqb_spec (GetHeader c "X-LLM-Retry-Max") "") as [He|_].
    + exfalso. exact (Atoi_nonempty _ _ Ha He).
    + cbn [negb]. rewrite Z.geb_leb. reflexivity.
  - intros Ha. unfold backoffMs_of. rewrite Ha.
    destruct (String.eqb_spec (GetHeader c "X-LLM-Retry-Backoff-Ms") "") as [He|_].
    + exfalso. exact (Atoi_nonempty _ _ Ha He).
    + cbn [negb]. rewrite Z.geb_leb. reflexivity.
  - apply retryMax_of_range.
  - apply backoffMs_of_nonneg.
  - reflexivity.
Qed.

Lemma C3_retry_headers_witness :
  retryMax_of (request_of (retry_headers "11" "-5") "" None) = 3
  /\ backoffMs_of (request_of (retry_headers "-5" "-5") "" None) = 100
  /\ retryMax_of (request_of (retry_headers "7" "250") "" None) = 7
  /\ backoffMs_of (request_of (retry_headers "7" "250") "" None) = 250.
Proof.
  split; [|split; [|split]].
  - exact (proj1 (C3_retry_headers (request_of (retry_headers "11" "-5") "" None) 11)
             eq_refl).
  - exact (proj1 (proj2 (C3_retry_headers (request_of (retry_headers "-5" "-5") "" None)
                           (-5))) eq_refl).
  - exact (proj1 (C3_retry_headers (request_of (retry_headers "7" "250") "" None) 7)
             eq_refl).
  - exact (proj1 (proj2 (C3_retry_headers (request_of (retry_headers "7" "250") "" None)
                           250)) eq_refl).
Defined.

(** C3 as the spec states it fails: the header value 11 is an integer above
    10, and the retry maximum is then the default 3, not 10. *)
Lemma C3_retry_max_not_clipped :
  strconv_Atoi (GetHeader (request_of (retry_headers "11" "100") "" None) "X-LLM-Retry-Max")
  = Some 11
  /\ retryMax_of (request_of (retry_headers "11" "100") "" None) = 3
  /\ retryMax_of (request_of (retry_headers "11" "100") "" None) <> Z.max 0 (Z.min 10 11).
Proof. vm_compute. repeat split. discriminate. Qed.

(** ** Tenant defaults *)

(** A request for a model outside the tenant's list that passes the body
    checks is answered 403 at once. *)
Lemma CreateCompletion_forbidden (E : Runtime) {MS : Type} `{ModelStore MS}
  (h : Handler MS) (start : Z) (c : Context) (t : Tenant) (b : string)
  (chatReq : ChatRequest) :
  ctx_tenant c = Some t ->
  ReadAll_limited (Body (ctx_Request c)) = Ok b ->
  json_Unmarshal_ChatRequest E b = Some chatReq ->
  Z.of_nat (List.length (req_Messages chatReq)) <= 50 ->
  model_allowed (AllowedModels t) (req_Model chatReq) = false ->
  CreateCompletion E h start c
  = Returned (mkOutcome
                (json_reply 403 {[ "error" := JString "Model not allowed for this tenant" ]})
                h [] None).
Proof.
  intros Ht Hb Hj Hn Ha. unfold CreateCompletion, intake.
  rewrite Ht, Hb, Hj, Ha.
  destruct (Z.gtb_spec (Z.of_nat (List.length (req_Messages chatReq))) 50); [lia|].
  reflexivity.
Qed.

(** C2 at the failing input.  An active record whose limits and model list
    are not stored comes out of [GetTenant] with [rpm_limit = 100] and
    [tpm_limit = 100000] but with the model list still empty, so every
    model the tenant asks for is answered 403; the admin handler, for the
    same unset fields, defaults the list to ["*"]. *)
Theorem C2_allowed_models_not_defaulted (d : DynamoDBTenantStore) (now : Z)
  (key : string) (t : Tenant)
  (Hclient : client_err d = None) (Hcache : cache d !! key = None)
  (Hitem : table d !! key = Some (ItemTenant t)) (Hactive : IsActive t = true)
  (Hrpm : RPMLimit t = 0) (Htpm : TPMLimit t = 0) (Hallowed : AllowedModels t = []) :
  exists t',
    snd (GetTenant d now key) = Ok (Some t')
    /\ RPMLimit t' = 100 /\ TPMLimit t' = 100000 /\ AllowedModels t' = []
    /\ (forall (E : Runtime) (h : Handler MockModelStore) (start : Z) (c : Context)
               (b : string) (chatReq : ChatRequest),
          ctx_tenant c = Some t' ->
          ReadAll_limited (Body (ctx_Request c)) = Ok b ->
          json_Unmarshal_ChatRequest E b = Some chatReq ->
          Z.of_nat (List.length (req_Messages chatReq)) <= 50 ->
          exists o, CreateCompletion E h start c = Returned o
                    /\ reply_status (out_reply o) = 403)
    /\ AllowedModels
         (CreateTenant_tenant
            (mkCreateTenantRequest (TenantID t) (Name t) (APIKey t) 0 0 [])) = ["*"].
Proof.
  cbn [GetTenant DynamoDBTenantStore_store]. unfold DynamoDBTenantStore_GetTenant.
  rewrite Hcache, Hclient, Hitem, Hactive, Hrpm. cbn [negb Z.eqb set_RPMLimit TPMLimit].
  rewrite Htpm. cbn [Z.eqb snd].
  eexists. split; [reflexivity|]. unfold set_TPMLimit, set_RPMLimit.
  cbn [RPMLimit TPMLimit AllowedModels]. rewrite Hallowed. repeat split.
  intros E h start c b chatReq Hc Hb Hj Hn.
  eexists. split.
  - eapply CreateCompletion_forbidden; eauto.
  - reflexivity.
Qed.

Lemma C2_allowed_models_not_defaulted_witness :
  exists t',
    snd (GetTenant unset_table 0 "new-key") = Ok (Some t')
    /\ AllowedModels t' = []
    /\ exists o,
         CreateCompletion (test_runtime false unreachable) (NewHandler test_models 0) 0
           (request_of ∅ chat_body (Some t')) = Returned o
         /\ reply_status (out_reply o) = 403.
Proof.
  destruct (C2_allowed_models_not_defaulted unset_table 0 "new-key" unset_record
              eq_refl eq_refl eq_refl eq_refl eq_refl eq_refl eq_refl)
    as (t' & Hget & _ & _ & Hall & H403 & _).
  exists t'. split; [exact Hget|]. split; [exact Hall|].
  apply (H403 (test_runtime false unreachable) (NewHandler test_models 0) 0
           (request_of ∅ chat_body (Some t')) chat_body (chat_request false));
    vm_compute; (reflexivity || discriminate).
Defined.

(** ** Streaming: token estimate and TTFT *)

Lemma line_tokens_spec (E : Runtime) (line : string) :
  match line_tokens E line with Some n => n | None => 0 end = spec_line_tokens E line.
Proof.
  unfold line_tokens, spec_line_tokens, strings_TrimPrefix.
  destruct (strings_HasPrefix line "data: "); [|reflexivity].
  cbn [String.length]. destruct (String.eqb _ "[DONE]"); [reflexivity|].
  destruct (json_Unmarshal_partial E _) as [[|content ?]|]; try reflexivity.
  unfold int_div. apply Z.quot_div_nonneg; [apply len_nonneg | lia].
Qed.

Lemma spec_line_tokens_nonneg (E : Runtime) (line : string) : 0 <= spec_line_tokens E line.
Proof.
  unfold spec_line_tokens.
  destruct (strings_HasPrefix line "data: "); [|lia].
  cbv zeta. destruct (String.eqb _ _); [lia|].
  destruct (json_Unmarshal_partial E _) as [[|content ?]|]; try lia.
  apply Z.div_pos; [apply len_nonneg | lia].
Qed.

Lemma spec_output_tokens_nonneg (E : Runtime) (lines : list string) :
  0 <= spec_output_tokens E lines.
Proof.
  induction lines as [|l r IH]; cbn; [lia|].
  pose proof (spec_line_tokens_nonneg E l). unfold spec_output_tokens in IH. lia.
Qed.

Lemma streamLoop_tokens (E : Runtime) (tid model : string) (start : Z)
  (arrival : nat -> Z) (lines : list string) :
  forall (i : nat) (acc : Z) (fb : bool),
    0 <= acc -> acc + spec_output_tokens E lines <= max_int64 ->
    fst (streamLoop E tid model start arrival lines i acc fb)
    = acc + spec_output_tokens E lines.
Proof.
  induction lines as [|l r IH]; intros i acc fb Hacc Hsum.
  - cbn. lia.
  - cbn [streamLoop]. change (spec_output_tokens E (l :: r))
      with (spec_line_tokens E l + spec_output_tokens E r) in *.
    pose proof (spec_line_tokens_nonneg E l) as Hl.
    pose proof (spec_output_tokens_nonneg E r) as Hr.
    pose proof (line_tokens_spec E l) as Hlt.
    destruct (line_tokens E l) as [n|].
    + rewrite (wrap64_small (acc + n)) by (unfold min_int64, max_int64 in *; lia).
      specialize (IH (S i) (acc + n) false).
      destruct (streamLoop E tid model start arrival r (S i) (acc + n) false) as [out evs].
      cbn [fst] in *. rewrite IH; lia.
    + specialize (IH (S i) acc false).
      destruct (streamLoop E tid model start arrival r (S i) acc false) as [out evs].
      cbn [fst] in *. rewrite IH; lia.
Qed.

Lemma string_append_assoc (a b c : string) : (a +:+ b) +:+ c = a +:+ (b +:+ c).
Proof.
  induction a as [|ch a IH]; [reflexivity|].
  change (String ch ((a +:+ b) +:+ c) = String ch (a +:+ (b +:+ c))).
  by rewrite IH.
Qed.

Lemma string_append_nil_r (a : string) : a +:+ "" = a.
Proof.
  induction a as [|ch a IH]; [reflexivity|].
  change (String ch (a +:+ "") = String ch a). by rewrite IH.
Qed.

Lemma written_bytes_app (a b : list Event) :
  written_bytes (a ++ b) = written_bytes a +:+ written_bytes b.
Proof.
  induction a as [|e a IH]; [reflexivity|].
  destruct e; cbn [written_bytes app]; rewrite ?IH; try reflexivity.
  by rewrite string_append_assoc.
Qed.

Lemma streamLoop_forwards (E : Runtime) (tid model : string) (start : Z)
  (arrival : nat -> Z) (lines : list string) :
  forall (i : nat) (acc : Z) (fb : bool),
    written_bytes (snd (streamLoop E tid model start arrival lines i acc fb))
    = forwarded_bytes lines.
Proof.
  induction lines as [|l r IH]; intros i acc fb; [reflexivity|].
  cbn [streamLoop forwarded_bytes].
  match goal with |- context [streamLoop E tid model start arrival r (S i) ?a false] =>
    specialize (IH (S i) a false);
    destruct (streamLoop E tid model start arrival r (S i) a false) as [out evs] end.
  cbn [snd] in *. rewrite written_bytes_app.
  destruct fb; cbn [written_bytes app]; rewrite IH; reflexivity.
Qed.


(** Every line the scanner returns reaches the client, in order. *)
Lemma streamResponse_forwards (E : Runtime) (body : string) (arrival : nat -> Z)
  (tid model : string) (start : Z) :
  written_bytes (snd (streamResponse E body arrival tid model start))
  = forwarded_bytes (scan_lines body).
Proof.
  unfold streamResponse.
  pose proof (streamLoop_forwards E tid model start arrival (scan_lines body) 0%nat 0 true)
    as Hfw.
  destruct (streamLoop E tid model start arrival (scan_lines body) 0 0 true) as [out evs].
  cbn [snd written_bytes] in *. exact Hfw.
Qed.

(** C6. The streamed [output_tokens] is the sum, over the forwarded lines
    that begin with [data: ], are not [[DONE]] and parse with a non-empty
    [choices], of [floor (len (content) / 4)] (as long as the sum is an
    [int]); every line the scanner returns is forwarded, whether its payload
    parses or not; and the chunks [Hello] and [ World] give 2. *)
Theorem C6_stream_token_estimate (E : Runtime) (body : string) (arrival : nat -> Z)
  (tid model : string) (start : Z) :
  (spec_output_tokens E (scan_lines body) <= max_int64 ->
   fst (streamResponse E body arrival tid model start)
   = spec_output_tokens E (scan_lines body))
  /\ written_bytes (snd (streamResponse E body arrival tid model start))
     = forwarded_bytes (scan_lines body)
  /\ (json_Unmarshal_partial E chunk_hello = Some ["Hello"] ->
      json_Unmarshal_partial E chunk_world = Some [" World"] ->
      fst (streamResponse E sse_body arrival tid model start) = 2).
Proof.
  assert (Hgen : forall b, spec_output_tokens E (scan_lines b) <= max_int64 ->
            fst (streamResponse E b arrival tid model start)
            = spec_output_tokens E (scan_lines b)).
  { intros b Hb. unfold streamResponse.
    pose proof (streamLoop_tokens E tid model start arrival (scan_lines b) 0%nat 0 true)
      as Htok.
    destruct (streamLoop E tid model start arrival (scan_lines b) 0 0 true) as [out evs].
    cbn [fst] in *. rewrite Htok; lia. }
  split; [apply Hgen|]. split.
  - apply streamResponse_forwards.
  - intros Hhello Hworld.
    assert (Hlines : scan_lines sse_body
                     = ["data: " +:+ chunk_hello; ""; "data: " +:+ chunk_world; "";
                        "data: [DONE]"; ""]) by (vm_compute; reflexivity).
    assert (Hsum : spec_output_tokens E (scan_lines sse_body) = 2).
    { rewrite Hlines. unfold spec_output_tokens. cbn [map foldr].
      assert (Hd : forall p, spec_line_tokens E ("data: " +:+ p)
                = if String.eqb p "[DONE]" then 0
                  else match json_Unmarshal_partial E p with
                       | Some (content :: _) => len content / 4
                       | _ => 0
                       end) by reflexivity.
      rewrite !Hd, Hhello, Hworld.
      replace (String.eqb chunk_hello "[DONE]") with false by (vm_compute; reflexivity).
      replace (String.eqb chunk_world "[DONE]") with false by (vm_compute; reflexivity).
      vm_compute. reflexivity. }
    rewrite Hgen; rewrite Hsum; [reflexivity|]. unfold max_int64. lia.
Qed.

Lemma C6_stream_token_estimate_witness :
  fst (streamResponse (test_runtime true unreachable) sse_body (fun _ => 0) "t-stream"
         "gpt-4-stream" 0) = 2
  /\ fst (streamResponse (test_runtime true unreachable) sse_body (fun _ => 0) "t-stream"
            "gpt-4-stream" 0)
     = spec_output_tokens (test_runtime true unreachable) (scan_lines sse_body).
Proof.
  destruct (C6_stream_token_estimate (test_runtime true unreachable) sse_body (fun _ => 0)
              "t-stream" "gpt-4-stream" 0) as (Hsum & _ & Hex).
  split.
  - apply Hex; vm_compute; reflexivity.
  - apply Hsum. vm_compute. discriminate.
Defined.


(** ** The retry loop *)

Lemma loop_events_app (a b : list Event) :
  forallb is_loop_event (a ++ b) = forallb is_loop_event a && forallb is_loop_event b.
Proof. apply forallb_app. Qed.

Lemma loop_events_silent (tr : list Event) :
  forallb is_loop_event tr = true ->
  count_TTFT tr = O /\ count_Go tr = O /\ written_bytes tr = "".
Proof.
  induction tr as [|e tr IH]; [done|].
  cbn [forallb]. intros [He Htr]%andb_prop. specialize (IH Htr).
  destruct e; try discriminate; exact IH.
Qed.

Lemma Execute_trace (E : Runtime) (cb0 : CircuitBreaker) (w : World) (pr : ProxyRequest) :
  forallb is_loop_event (w_trace w) = true ->
  forallb is_loop_event (w_trace (snd (fst (Execute w_now cb0 w (httpClient_Do E pr)))))
  = true.
Proof.
  intros Hw. unfold Execute.
  destruct (beforeRequest cb0 (w_now w)) as [cb1 [g|e]]; cbn [fst snd]; [|exact Hw].
  unfold httpClient_Do. cbn [fst snd w_trace].
  rewrite loop_events_app, Hw. reflexivity.
Qed.

Lemma failure_step_trace (retryMax backoffMs : Z) (st : LoopState) (b : bool) :
  forallb is_loop_event (w_trace (l_world st)) = true ->
  forallb is_loop_event (w_trace (l_world (failure_step retryMax backoffMs st b))) = true.
Proof.
  intros Hw. unfold failure_step. cbn [l_world].
  destruct (_ <=? _); [|exact Hw].
  destruct (_ && _); [exact Hw|].
  unfold time_Sleep. cbn [w_trace]. rewrite loop_events_app, Hw. reflexivity.
Qed.

Section LoopFacts.

Variables (E : Runtime) (method : string) (reqHeader : gmap string (list string))
  (bodyBytes apiKey : string) (baseURLs : list string) (retryMax backoffMs : Z).

Abbreviation loop :=
  (retryLoop E method reqHeader bodyBytes apiKey baseURLs retryMax backoffMs).

Lemma retryLoop_spec (fuel : nat) :
  forall st : LoopState,
    loop_inv retryMax st ->
    (Z.to_nat (retryMax + 1 - attempt st) <= fuel)%nat ->
    match loop fuel st with
    | LoopFuel => False
    | LoopReturn500 st' => forallb is_loop_event (w_trace (l_world st')) = true
    | LoopDone st' => loop_post retryMax st'
    end.
Proof.
  induction fuel as [|fuel IH]; intros st [Htr Hinv] Hfuel.
  - cbn [retryLoop]. destruct (Z.leb_spec (attempt st) retryMax) as [Hle|Hgt]; cbn [negb].
    + lia.
    + split; [exact Htr|]. intros Hnil. destruct (Hinv Hnil) as [?|(rsp & Hr & Hs)]; [lia|].
      exists rsp. split; [exact Hr|]. right. split; [exact Hs|lia].
  - cbn [retryLoop]. destruct (Z.leb_spec (attempt st) retryMax) as [Hle|Hgt]; cbn [negb].
    2:{ split; [exact Htr|]. intros Hnil.
        destruct (Hinv Hnil) as [?|(rsp & Hr & Hs)]; [lia|].
        exists rsp. split; [exact Hr|]. right. split; [exact Hs|lia]. }
    destruct (negb (http_NewRequest_ok E method _)); [exact Htr|].
    match goal with |- context [Execute w_now ?c ?w ?d] =>
      pose proof (Execute_trace E c w
                    (make_proxyReq method reqHeader bodyBytes apiKey
                       (nth (Z.to_nat (Z.rem (urlIndex st) (Z.of_nat (List.length baseURLs))))
                          baseURLs "")) Htr) as Htr';
      destruct (Execute w_now c w d) as [[cb' w'] r] end.
    cbn [fst snd] in Htr'.
    destruct r as [rsp|cbErr].
    + fold (success_class rsp).
      destruct (success_class rsp) eqn:Hs.
      * split; [exact Htr'|]. intros _. exists rsp. split; [reflexivity|]. by left.
      * apply IH.
        -- split; [apply failure_step_trace; exact Htr'|].
           intros _. right. exists rsp. split; [reflexivity|exact Hs].
        -- cbn [failure_step attempt]. lia.
    + destruct (is_ErrOpenState cbErr).
      * split; [exact Htr'|]. discriminate.
      * apply IH.
        -- split; [apply failure_step_trace; exact Htr'|]. discriminate.
        -- cbn [failure_step attempt]. lia.
Qed.

End LoopFacts.

Lemma upstreamLoop_spec (E : Runtime) {MS : Type} (h : Handler MS) (start : Z)
  (c : Context) (i : Intake) :
  match upstreamLoop E h start c i with
  | LoopFuel => False
  | LoopReturn500 st' => forallb is_loop_event (w_trace (l_world st')) = true
  | LoopDone st' => loop_post (retryMax_of c) st'
  end.
Proof.
  unfold upstreamLoop. pose proof (retryMax_of_range c) as Hr.
  apply retryLoop_spec.
  - split; [reflexivity|]. intros _. left. cbn [attempt]. lia.
  - cbn [attempt]. lia.
Qed.

(** ** Replies after the retry loop *)

(** C4, as the code has it.  A request that reaches the retry loop always
    gets a reply.  When the loop ends with an error (a transport error on
    the last attempt, or the breaker open) the reply is 502 with
    [error = "Upstream provider failed"] and the error text in [details];
    when it ends with a response of status 500 or more the reply is 502 with
    [error = "Upstream provider error"] and the status; when the upstream
    request cannot be created the reply is 500.  Any other exit forwards the
    upstream status: a success-class response, or a 429 on which the
    attempts were exhausted. *)
Theorem C4_replies_after_retry_loop (E : Runtime) {MS : Type} `{ModelStore MS}
  (h : Handler MS) (start : Z) (c : Context) (i : Intake)
  (Hintake : intake E h c = inr i) :
  exists o,
    CreateCompletion E h start c = Returned o
    /\ match upstreamLoop E h start c i with
       | LoopFuel => False
       | LoopReturn500 _ =>
           out_reply o
           = json_reply 500 {[ "error" := JString "Failed to create upstream request" ]}
       | LoopDone st =>
           match lastErr st, resp st with
           | Some e, _ =>
               out_reply o
               = json_reply 502
                   (<[ "details" := JString (Error e) ]>
                      {[ "error" := JString "Upstream provider failed" ]})
           | None, Some rsp =>
               if StatusCode rsp >=? 500 then
                 out_reply o
                 = json_reply 502
                     (<[ "status" := JInt (StatusCode rsp) ]>
                        {[ "error" := JString "Upstream provider error" ]})
               else
                 reply_status (out_reply o) = StatusCode rsp
                 /\ (success_class rsp = true
                     \/ (StatusCode rsp = 429 /\ retryMax_of c < attempt st))
           | None, None => False
           end
       end.
Proof.
  unfold CreateCompletion. rewrite Hintake.
  pose proof (upstreamLoop_spec E h start c i) as Hspec.
  destruct (upstreamLoop E h start c i) as [st|st|]; [| |contradiction].
  - destruct Hspec as [_ Hpost]. unfold respond.
    destruct (lastErr st) as [e|].
    + eexists. split; reflexivity.
    + destruct (Hpost eq_refl) as (rsp & Hr & Hcls). rewrite Hr.
      destruct (Z.geb_spec (StatusCode rsp) 500) as [Hge|Hlt].
      * eexists. split; reflexivity.
      * destruct (write_body E start i rsp) as [outTok evs].
        eexists. split; [reflexivity|]. cbn [out_reply reply_status].
        split; [reflexivity|].
        destruct Hcls as [Hs|[Hs Hex]]; [by left|right].
        split; [|exact Hex]. unfold success_class in Hs.
        destruct (Z.ltb_spec (StatusCode rsp) 500); [|lia].
        destruct (Z.eqb_spec (StatusCode rsp) 429); [assumption|discriminate].
  - eexists. split; reflexivity.
Qed.

Lemma C4_replies_after_retry_loop_witness :
  exists o, rate_limited_run = Returned o /\ reply_status (out_reply o) = 429.
Proof.
  assert (Hin : intake (test_runtime false (always_status 429 "slow down"))
                  (NewHandler test_models 0)
                  (request_of ∅ chat_body (Some (mkTenant "k" "t1" "" 10 100 ["gpt-4"] true)))
                = inr (mkIntake (mkTenant "k" "t1" "" 10 100 ["gpt-4"] true) chat_body
                         (chat_request false)
                         (mkModel "gpt-4" "" ["http://a"; "http://b"] "")))
    by (vm_compute; reflexivity).
  destruct (C4_replies_after_retry_loop _ _ 0 _ _ Hin) as (o & Hrun & Hcase).
  exists o. split; [exact Hrun|].
  unfold rate_limited_run in *. vm_compute in Hrun.
  injection Hrun as <-. reflexivity.
Defined.

(** C4 as the spec states it fails: four attempts, each answered 429, use
    up the default retry budget without a success-class response, and the
    caller receives 429, not 502. *)
Lemma C4_exhausted_429_is_forwarded :
  match rate_limited_run with
  | Returned o =>
      reply_status (out_reply o) = 429
      /\ reply_status (out_reply o) <> 502
      /\ count_Upstream (out_trace o) = 4%nat
  | _ => False
  end.
Proof. vm_compute. repeat split; discriminate. Qed.

(** ** What a forwarded response leaves behind *)


Lemma count_Go_app (a b : list Event) :
  count_Go (a ++ b) = (count_Go a + count_Go b)%nat.
Proof. induction a as [|e a IH]; [reflexivity|]. destruct e; cbn; lia. Qed.

Lemma streamLoop_no_Go (E : Runtime) (tid model : string) (start : Z)
  (arrival : nat -> Z) (lines : list string) :
  forall (i : nat) (acc : Z) (fb : bool),
    count_Go (snd (streamLoop E tid model start arrival lines i acc fb)) = O.
Proof.
  induction lines as [|l r IH]; intros i acc fb; [reflexivity|].
  cbn [streamLoop].
  match goal with |- context [streamLoop E tid model start arrival r (S i) ?a false] =>
    specialize (IH (S i) a false);
    destruct (streamLoop E tid model start arrival r (S i) a false) as [out evs] end.
  cbn [snd] in *. rewrite count_Go_app. destruct fb; cbn; exact IH.
Qed.

Lemma write_body_no_Go (E : Runtime) (start : Z) (i : Intake) (rsp : Response) :
  count_Go (snd (write_body E start i rsp)) = O.
Proof.
  unfold write_body. destruct (req_Stream (in_chatReq i)); [|reflexivity].
  unfold streamResponse.
  match goal with |- context [streamLoop E ?t ?m start ?a ?l 0 0 true] =>
    pose proof (streamLoop_no_Go E t m start a l 0%nat 0 true) as Hno;
    destruct (streamLoop E t m start a l 0 0 true) as [out evs] end.
  exact Hno.
Qed.


(** The outcome of a request whose upstream response is forwarded. *)
Lemma respond_forwarded (E : Runtime) {MS : Type} (h : Handler MS) (start : Z)
  (i : Intake) (st : LoopState) (rsp : Response) :
  lastErr st = None -> resp st = Some rsp -> StatusCode rsp < 500 ->
  respond E h start i (LoopDone st)
  = let task := mkBookkeeping (TenantID (in_tenant i)) (req_Model (in_chatReq i))
                  (int_div (len (in_bodyBytes i)) 4) (fst (write_body E start i rsp))
                  start in
    Returned
      (mkOutcome
         (mkReply (StatusCode rsp) (forward_headers (resp_Header rsp))
            (RawBody (written_bytes (snd (write_body E start i rsp)))))
         (after_loop h st)
         (w_trace (l_world st) ++ snd (write_body E start i rsp)
          ++ [EvGo task;
              EvRecordTokenUsage (TenantID (in_tenant i)) (req_Model (in_chatReq i))
                (int_div (len (in_bodyBytes i)) 4) (fst (write_body E start i rsp))])%list
         (Some (req_Model (in_chatReq i)))).
Proof.
  intros He Hr Hs. unfold respond. rewrite He, Hr.
  destruct (Z.geb_spec (StatusCode rsp) 500); [lia|].
  destruct (write_body E start i rsp) as [outTok evs]. reflexivity.
Qed.



(** ** Deferred bookkeeping *)

(** With the sink of the tests the task appends its record at the first
    write and never sleeps. *)
Lemma run_Bookkeeping_mock {RL : Type} `{RateLimitStore RL} (requestID : string)
  (task : Bookkeeping) (rl : RL) (us : MockUsageStore) :
  Records (snd (fst (run_Bookkeeping requestID task rl us)))
  = (Records us ++ [usage_record_of requestID task])%list
  /\ snd (run_Bookkeeping requestID task rl us) = [].
Proof.
  unfold run_Bookkeeping. destruct (IncrementTPM rl _ _) as [rl' r]. cbn. done.
Qed.

(** Against a sink that refuses its first [k] writes: up to three writes,
    a sleep of [100 * attempt] ms after each refused one, and one record
    exactly when a write is accepted. *)
Lemma run_Bookkeeping_flaky {RL : Type} `{RateLimitStore RL} (requestID : string)
  (task : Bookkeeping) (rl : RL) (k : nat) (old : list UsageRecord) :
  let us' := snd (fst (run_Bookkeeping requestID task rl (mkFlakyUsageStore k old 0))) in
  let sleeps := snd (run_Bookkeeping requestID task rl (mkFlakyUsageStore k old 0)) in
  (k < 3)%nat
  /\ accepted us' = (old ++ [usage_record_of requestID task])%list
  /\ writes_seen us' = S k
  /\ sleeps = map (fun a => EvSleep (100 * a * millisecond_ns))
                (map Z.of_nat (seq 1 k))
  \/ (3 <= k)%nat
     /\ accepted us' = old
     /\ writes_seen us' = 3%nat
     /\ sleeps = [EvSleep (100 * millisecond_ns); EvSleep (200 * millisecond_ns);
                  EvSleep (300 * millisecond_ns)].
Proof.
  unfold run_Bookkeeping. destruct (IncrementTPM rl _ _) as [rl' r].
  destruct k as [|[|[|k]]]; cbn; [left|left|left|right]; repeat split; lia.
Qed.

(** C9. When a 2xx response is forwarded, exactly one deferred task is
    started; run against a sink that does not fail, it appends exactly one
    usage record.  The sink is written at most three times, with a sleep of
    [100 * attempt] ms after each failed write.  A request for a model
    outside the tenant's list gets 403, makes no upstream call and starts no
    task, so it leaves no usage record. *)
Theorem C9_usage_record_and_forbidden (E : Runtime) {MS : Type} `{ModelStore MS}
  (h : Handler MS) (start : Z) (c : Context) :
  (forall (i : Intake) (st : LoopState) (rsp : Response),
     intake E h c = inr i -> upstreamLoop E h start c i = LoopDone st ->
     lastErr st = None -> resp st = Some rsp -> 200 <= StatusCode rsp < 300 ->
     exists o task,
       CreateCompletion E h start c = Returned o
       /\ reply_status (out_reply o) = StatusCode rsp
       /\ count_Go (out_trace o) = 1%nat /\ In (EvGo task) (out_trace o)
       /\ forall (requestID : string) (rl : MockRateLimitStore) (us : MockUsageStore),
            Records (snd (fst (run_Bookkeeping requestID task rl us)))
            = (Records us ++ [usage_record_of requestID task])%list)
  /\ (forall (requestID : string) (task : Bookkeeping) (rl : MockRateLimitStore)
             (k : nat) (old : list UsageRecord),
        let us' := snd (fst (run_Bookkeeping requestID task rl
                               (mkFlakyUsageStore k old 0))) in
        let sleeps := snd (run_Bookkeeping requestID task rl
                             (mkFlakyUsageStore k old 0)) in
        (k < 3)%nat
        /\ accepted us' = (old ++ [usage_record_of requestID task])%list
        /\ writes_seen us' = S k
        /\ sleeps = map (fun a => EvSleep (100 * a * millisecond_ns))
                      (map Z.of_nat (seq 1 k))
        \/ (3 <= k)%nat
           /\ accepted us' = old
           /\ writes_seen us' = 3%nat
           /\ sleeps = [EvSleep (100 * millisecond_ns); EvSleep (200 * millisecond_ns);
                        EvSleep (300 * millisecond_ns)])
  /\ (forall (t : Tenant) (b : string) (chatReq : ChatRequest),
        ctx_tenant c = Some t ->
        ReadAll_limited (Body (ctx_Request c)) = Ok b ->
        json_Unmarshal_ChatRequest E b = Some chatReq ->
        Z.of_nat (List.length (req_Messages chatReq)) <= 50 ->
        model_allowed (AllowedModels t) (req_Model chatReq) = false ->
        exists o,
          CreateCompletion E h start c = Returned o
          /\ reply_status (out_reply o) = 403
          /\ count_Upstream (out_trace o) = O /\ count_Go (out_trace o) = O
          /\ calls (out_handler o) = calls h).
Proof.
  split; [|split].
  - intros i st rsp Hin Hloop He Hr Hs.
    unfold CreateCompletion. rewrite Hin, Hloop.
    rewrite (respond_forwarded E h start i st rsp He Hr) by lia. cbv zeta.
    eexists. eexists. split; [reflexivity|]. cbn [out_reply reply_status out_trace].
    split; [reflexivity|].
    pose proof (upstreamLoop_spec E h start c i) as Hspec. rewrite Hloop in Hspec.
    destruct (loop_events_silent _ (proj1 Hspec)) as (_ & Hgo & _).
    split; [|split].
    + rewrite !count_Go_app, Hgo, write_body_no_Go. reflexivity.
    + apply in_or_app. right. apply in_or_app. right. left. reflexivity.
    + intros requestID rl us. apply run_Bookkeeping_mock.
  - intros requestID task rl k old. apply run_Bookkeeping_flaky.
  - intros t b chatReq Ht Hb Hj Hn Ha.
    rewrite (CreateCompletion_forbidden E h start c t b chatReq Ht Hb Hj Hn Ha).
    eexists. split; [reflexivity|]. cbn. done.
Qed.

(** C10. Whenever the upstream response is forwarded (its status is below
    500), whatever the status class and however much of the body could be
    read, exactly one deferred task is started; its token counts are
    [len(request body) / 4] and the output estimate of the body that was
    read, and do not depend on the status; run against stores that answer,
    it adds [input + output] to the tenant's TPM counter and appends one
    usage record. *)
Theorem C10_bookkeeping_for_every_forwarded_response (E : Runtime) {MS : Type}
  `{ModelStore MS} (h : Handler MS) (start : Z) (c : Context) (i : Intake)
  (st : LoopState) (rsp : Response)
  (Hintake : intake E h c = inr i)
  (Hloop : upstreamLoop E h start c i = LoopDone st)
  (Hnil : lastErr st = None) (Hresp : resp st = Some rsp)
  (Hstatus : StatusCode rsp < 500) :
  let task := mkBookkeeping (TenantID (in_tenant i)) (req_Model (in_chatReq i))
                (int_div (len (in_bodyBytes i)) 4) (fst (write_body E start i rsp))
                start in
  exists o,
    CreateCompletion E h start c = Returned o
    /\ reply_status (out_reply o) = StatusCode rsp
    /\ count_Go (out_trace o) = 1%nat /\ In (EvGo task) (out_trace o)
    /\ (forall rsp' : Response,
          resp_Body rsp' = resp_Body rsp -> resp_Arrival rsp' = resp_Arrival rsp ->
          fst (write_body E start i rsp') = fst (write_body E start i rsp))
    /\ forall (requestID : string) (rl : MockRateLimitStore) (us : MockUsageStore),
         MockErr rl = None ->
         map_get (TPM (fst (fst (run_Bookkeeping requestID task rl us)))) (bk_tid task)
         = wrap64 (map_get (TPM rl) (bk_tid task) + wrap64 (bk_in task + bk_out task))
         /\ Records (snd (fst (run_Bookkeeping requestID task rl us)))
            = (Records us ++ [usage_record_of requestID task])%list.
Proof.
  intros task. unfold CreateCompletion. rewrite Hintake, Hloop.
  rewrite (respond_forwarded E h start i st rsp Hnil Hresp Hstatus). cbv zeta.
  eexists. split; [reflexivity|]. cbn [out_reply reply_status out_trace].
  split; [reflexivity|].
  pose proof (upstreamLoop_spec E h start c i) as Hspec. rewrite Hloop in Hspec.
  destruct (loop_events_silent _ (proj1 Hspec)) as (_ & Hgo & _).
  split; [|split; [|split]].
  - rewrite !count_Go_app, Hgo, write_body_no_Go. reflexivity.
  - apply in_or_app. right. apply in_or_app. right. left. reflexivity.
  - intros rsp' Hb Ha. unfold write_body. rewrite Hb, Ha. reflexivity.
  - intros requestID rl us Herr. split; [|apply run_Bookkeeping_mock].
    unfold run_Bookkeeping. cbn [IncrementTPM MockRateLimitStore_store].
    unfold MockRateLimitStore_IncrementTPM. rewrite Herr. cbn [fst snd TPM].
    apply map_get_insert_eq.
Qed.

(** ** The circuit breaker in the retry loop *)

Lemma wrap_u32_small (z : Z) : 0 <= z < 2 ^ 32 -> wrap_u32 z = z.
Proof. intros Hz. unfold wrap_u32. apply Z.mod_small. exact Hz. Qed.

(** A call that fails inside the window of a closed breaker is counted, and
    opens the breaker exactly when the counts then satisfy [ReadyToTrip]. *)
Lemma Execute_failure {W A : Type} (clock : W -> Z) (b : CircuitBreaker) (w w' : W)
  (req : W -> W * result A) (e : error) :
  cb_settings b = handler_settings -> cb_state b = StateClosed ->
  expired b (clock w) = false -> expired b (clock w') = false ->
  req w = (w', Err e) ->
  0 <= Requests (cb_counts b) -> Requests (cb_counts b) + 1 < 2 ^ 32 ->
  0 <= TotalFailures (cb_counts b) -> TotalFailures (cb_counts b) + 1 < 2 ^ 32 ->
  let b' := fst (fst (Execute clock b w req)) in
  if (10 <=? Requests (cb_counts b) + 1)
     && (3 * (Requests (cb_counts b) + 1) <=? 5 * (TotalFailures (cb_counts b) + 1))
  then cb_state b' = StateOpen /\ cb_expiry b' = Some (clock w' + 30 * second_ns)
  else cb_state b' = StateClosed
       /\ Requests (cb_counts b') = Requests (cb_counts b) + 1
       /\ TotalFailures (cb_counts b') = TotalFailures (cb_counts b) + 1.
Proof.
  destruct b as [st s g cnt ex]. cbn [cb_settings cb_state cb_counts].
  intros -> -> Hw Hw' Hreq HR0 HR HF0 HF.
  unfold expired in Hw, Hw'. cbn [cb_expiry] in Hw, Hw'.
  unfold Execute, beforeRequest, currentState, expired, with_counts.
  cbn [cb_state cb_settings cb_generation cb_counts cb_expiry]. rewrite Hw, Hreq.
  unfold afterRequest, currentState, expired.
  cbn [cb_state cb_settings cb_generation cb_counts cb_expiry fst]. rewrite Hw'.
  cbn [cb_generation]. rewrite Z.eqb_refl. cbn [negb].
  unfold onFailure, with_counts.
  cbn [cb_state cb_settings cb_generation cb_counts cb_expiry ReadyToTrip handler_settings].
  unfold readyToTrip, Counts_onFailure, Counts_onRequest.
  cbn [Requests TotalFailures].
  rewrite !wrap_u32_small by lia.
  destruct (Z.leb_spec 10 (Requests cnt + 1)) as [H10|H10];
    destruct (Z.leb_spec (3 * (Requests cnt + 1)) (5 * (TotalFailures cnt + 1))) as [Hr|Hr];
    cbn [andb].
  - replace (Requests cnt + 1 >=? 10) with true by (symmetry; apply Z.geb_le; lia).
    replace (0 <? Requests cnt + 1) with true by (symmetry; apply Z.ltb_lt; lia).
    cbn [andb]. unfold setState, toNewGeneration.
    cbn [cb_state State_eqb cb_settings Timeout handler_settings]. split; reflexivity.
  - replace (Requests cnt + 1 >=? 10) with true by (symmetry; apply Z.geb_le; lia).
    replace (0 <? Requests cnt + 1) with true by (symmetry; apply Z.ltb_lt; lia).
    cbn [andb]. repeat split.
  - replace (Requests cnt + 1 >=? 10) with false
      by (symmetry; rewrite Z.geb_leb; apply Z.leb_gt; lia).
    cbn [andb]. repeat split.
  - replace (Requests cnt + 1 >=? 10) with false
      by (symmetry; rewrite Z.geb_leb; apply Z.leb_gt; lia).
    cbn [andb]. repeat split.
Qed.

(** A call that returns without an error leaves a closed breaker closed
    and adds no failure. *)
Lemma Execute_success {W A : Type} (clock : W -> Z) (b : CircuitBreaker) (w w' : W)
  (req : W -> W * result A) (a : A) :
  cb_state b = StateClosed -> req w = (w', Ok a) ->
  let b' := fst (fst (Execute clock b w req)) in
  cb_state b' = StateClosed
  /\ (TotalFailures (cb_counts b') = TotalFailures (cb_counts b)
      \/ TotalFailures (cb_counts b') = 0).
Proof.
  destruct b as [st s g cnt ex]. cbn [cb_state cb_counts]. intros -> Hreq.
  unfold Execute, beforeRequest, afterRequest, onSuccess, currentState, expired,
    toNewGeneration, with_counts, Counts_onSuccess, Counts_onRequest, Counts_clear.
  repeat (cbn [cb_state cb_settings cb_generation cb_counts cb_expiry fst negb
               TotalFailures];
          try rewrite Hreq;
          match goal with
          | |- context [if ?c then _ else _] => destruct c
          | |- context [match ?x with Some _ => _ | None => _ end] => destruct x
          end);
    cbn [cb_state cb_settings cb_generation cb_counts cb_expiry fst negb TotalFailures];
    auto.
Qed.

(** While the breaker is open, a validated request is answered 502 at the
    first attempt: nothing is sent, nothing sleeps, the breaker and the call
    counter are as before. *)
Lemma CreateCompletion_open_breaker (E : Runtime) {MS : Type} `{ModelStore MS}
  (h : Handler MS) (start : Z) (c : Context) (i : Intake) (e : Z) :
  cb_state (cb h) = StateOpen -> cb_expiry (cb h) = Some e -> start <= e ->
  intake E h c = inr i ->
  http_NewRequest_ok E (Method (ctx_Request c)) (nth 0 (BaseURLs (in_modelConfig i)) "")
  = true ->
  CreateCompletion E h start c = Returned (mkOutcome breaker_open_reply h [] None).
Proof.
  intros Hstate Hexp Hle Hin Hnew. unfold CreateCompletion. rewrite Hin.
  unfold upstreamLoop. pose proof (retryMax_of_range c) as Hr.
  destruct (Z.to_nat (retryMax_of c + 1)) as [|fuel] eqn:Hfuel; [lia|].
  cbn [retryLoop attempt urlIndex l_cb l_world].
  replace (0 <=? retryMax_of c) with true by (symmetry; apply Z.leb_le; lia).
  cbn [negb]. change (Z.rem 0 _) with 0. change (Z.to_nat 0) with O.
  rewrite Hnew. cbn [negb].
  unfold Execute, beforeRequest, currentState. rewrite Hstate, Hexp.
  cbn [w_now]. replace (e <? start) with false by (symmetry; apply Z.ltb_ge; lia).
  rewrite Hstate. cbn [is_ErrOpenState].
  unfold respond. cbn [lastErr]. unfold after_loop. cbn [l_cb l_world w_calls w_trace Error].
  destruct h as [ms b n]. reflexivity.
Qed.

(** C1 (amended). The breaker counts a call as failed only when the HTTP
    client returns an error.  When such a call, made through a closed
    breaker inside its window, brings the window to at least 10 requests of
    which at least 60% failed, the breaker is open afterwards, for 30 s.  A
    call that returns a response, of whatever status, leaves a closed
    breaker closed.  While the breaker is open, a proxied request is
    answered 502 at once: no upstream is contacted and nothing sleeps. *)
Theorem C1_breaker_opens_on_failed_calls (E : Runtime) :
  (forall (b : CircuitBreaker) (w w' : World) (proxyReq : ProxyRequest) (e : error),
     cb_settings b = handler_settings -> cb_state b = StateClosed ->
     expired b (w_now w) = false -> expired b (w_now w') = false ->
     httpClient_Do E proxyReq w = (w', Err e) ->
     0 <= Requests (cb_counts b) -> Requests (cb_counts b) + 1 < 2 ^ 32 ->
     0 <= TotalFailures (cb_counts b) -> TotalFailures (cb_counts b) + 1 < 2 ^ 32 ->
     10 <= Requests (cb_counts b) + 1 ->
     3 * (Requests (cb_counts b) + 1) <= 5 * (TotalFailures (cb_counts b) + 1) ->
     cb_state (fst (fst (Execute w_now b w (httpClient_Do E proxyReq)))) = StateOpen
     /\ cb_expiry (fst (fst (Execute w_now b w (httpClient_Do E proxyReq))))
        = Some (w_now w' + 30 * second_ns))
  /\ (forall (b : CircuitBreaker) (w w' : World) (proxyReq : ProxyRequest)
             (rsp : Response),
        cb_state b = StateClosed ->
        httpClient_Do E proxyReq w = (w', Ok rsp) ->
        cb_state (fst (fst (Execute w_now b w (httpClient_Do E proxyReq)))) = StateClosed)
  /\ (forall (MS : Type) (HMS : ModelStore MS) (h : Handler MS) (start : Z)
             (c : Context) (i : Intake) (e : Z),
        cb_state (cb h) = StateOpen -> cb_expiry (cb h) = Some e -> start <= e ->
        intake E h c = inr i ->
        http_NewRequest_ok E (Method (ctx_Request c))
          (nth 0 (BaseURLs (in_modelConfig i)) "") = true ->
        exists o,
          CreateCompletion E h start c = Returned o
          /\ out_reply o = breaker_open_reply
          /\ reply_status (out_reply o) = 502
          /\ out_trace o = [] /\ count_Upstream (out_trace o) = O
          /\ out_handler o = h).
Proof.
  split; [|split].
  - intros b w w' proxyReq e Hs Hc Hw Hw' Hdo HR0 HR HF0 HF H10 Hratio.
    pose proof (Execute_failure w_now b w w' (httpClient_Do E proxyReq) e
                  Hs Hc Hw Hw' Hdo HR0 HR HF0 HF) as Hex.
    cbv zeta in Hex.
    replace (10 <=? Requests (cb_counts b) + 1) with true in Hex
      by (symmetry; apply Z.leb_le; lia).
    replace (3 * (Requests (cb_counts b) + 1) <=? 5 * (TotalFailures (cb_counts b) + 1))
      with true in Hex by (symmetry; apply Z.leb_le; lia).
    exact Hex.
  - intros b w w' proxyReq rsp Hc Hdo.
    exact (proj1 (Execute_success w_now b w w' (httpClient_Do E proxyReq) rsp Hc Hdo)).
  - intros MS HMS h start c i e Hstate Hexp Hle Hin Hnew.
    rewrite (CreateCompletion_open_breaker E h start c i e Hstate Hexp Hle Hin Hnew).
    eexists. split; [reflexivity|]. cbn [out_reply out_trace out_handler].
    repeat split.
Qed.

Lemma C1_breaker_opens_on_failed_calls_witness :
  map run_summary (snd (ten_runs unreachable)) = repeat (Some (502, 1%nat)) 10
  /\ cb_state (cb (fst (ten_runs unreachable))) = StateOpen
  /\ exists o,
       CreateCompletion (test_runtime false unreachable) (fst (ten_runs unreachable))
         (10 * second_ns) breaker_request = Returned o
       /\ reply_status (out_reply o) = 502
       /\ count_Upstream (out_trace o) = O
       /\ calls (out_handler o) = 10%nat.
Proof.
  split; [vm_compute; reflexivity|]. split; [vm_compute; reflexivity|].
  assert (Hin : intake (test_runtime false unreachable) (fst (ten_runs unreachable))
                  breaker_request
                = inr (mkIntake (mkTenant "k" "t1" "" 100 100000 ["*"] true) chat_body
                         (chat_request false)
                         (mkModel "gpt-4" "" ["http://a"; "http://b"] "")))
    by (vm_compute; reflexivity).
  destruct (proj2 (proj2 (C1_breaker_opens_on_failed_calls (test_runtime false unreachable)))
              MockModelStore _ (fst (ten_runs unreachable)) (10 * second_ns)
              breaker_request _ (39 * second_ns)
              ltac:(vm_compute; reflexivity) ltac:(vm_compute; reflexivity)
              ltac:(vm_compute; discriminate) Hin ltac:(reflexivity))
    as (o & Hrun & _ & Hst & _ & Hup & Hh).
  exists o. split; [exact Hrun|]. split; [exact Hst|]. split; [exact Hup|].
  rewrite Hh. vm_compute. reflexivity.
Defined.

(** C1 as the spec states it fails: ten consecutive requests, each
    answered HTTP 500 by the upstream, are ten successes for the breaker;
    it is closed afterwards, and the eleventh request is sent upstream. *)
Lemma C1_http_500_keeps_breaker_closed :
  map run_summary (snd (ten_runs (always_status 500 "boom")))
  = repeat (Some (502, 1%nat)) 10
  /\ cb_state (cb (fst (ten_runs (always_status 500 "boom")))) = StateClosed
  /\ Requests (cb_counts (cb (fst (ten_runs (always_status 500 "boom"))))) = 10
  /\ TotalFailures (cb_counts (cb (fst (ten_runs (always_status 500 "boom"))))) = 0
  /\ run_summary
       (CreateCompletion (test_runtime false (always_status 500 "boom"))
          (fst (ten_runs (always_status 500 "boom"))) (10 * second_ns) breaker_request)
     = Some (502, 1%nat)
  /\ run_summary
       (CreateCompletion (test_runtime false (always_status 200 "{}"))
          (fst (ten_runs (always_status 500 "boom"))) (10 * second_ns) breaker_request)
     = Some (200, 1%nat).
Proof. vm_compute. repeat split. Qed.

(** ** The handler test's requests, run *)

Lemma C9_usage_record_and_forbidden_witness :
  (exists o task,
     CreateCompletion (test_runtime false (always_status 200 "{}"))
       (NewHandler test_models 0) 0 (request_of ∅ chat_body (Some tenant_any))
     = Returned o
     /\ reply_status (out_reply o) = 200
     /\ count_Go (out_trace o) = 1%nat /\ In (EvGo task) (out_trace o)
     /\ Records (snd (fst (run_Bookkeeping "r1" task NewMockRateLimitStore
                             {| Records := [] |})))
        = [usage_record_of "r1" task])
  /\ (exists o,
        CreateCompletion (test_runtime false (always_status 200 "{}"))
          (NewHandler test_models 0) 0 (request_of ∅ chat_body (Some tenant_claude))
        = Returned o
        /\ reply_status (out_reply o) = 403
        /\ count_Upstream (out_trace o) = O /\ count_Go (out_trace o) = O).
Proof.
  pose proof (C9_usage_record_and_forbidden (test_runtime false (always_status 200 "{}"))
                (NewHandler test_models 0) 0) as Hthm.
  split.
  - destruct (Hthm (request_of ∅ chat_body (Some tenant_any))) as (Hok & _ & _).
    assert (Hloop : exists st,
              upstreamLoop (test_runtime false (always_status 200 "{}"))
                (NewHandler test_models 0) 0 (request_of ∅ chat_body (Some tenant_any))
                (chat_intake false) = LoopDone st
              /\ lastErr st = None
              /\ resp st = Some (mkResponse 200 ∅ "{}" (fun _ => 0))).
    { eexists. split; [vm_compute; reflexivity|]. split; reflexivity. }
    destruct Hloop as (st & Hloop & He & Hr).
    destruct (Hok (chat_intake false) st _ ltac:(vm_compute; reflexivity) Hloop He Hr
                ltac:(cbn; lia)) as (o & task & Hrun & Hs & Hgo & Hin & Hrec).
    exists o, task. split; [exact Hrun|]. split; [exact Hs|]. split; [exact Hgo|].
    split; [exact Hin|].
    exact (Hrec "r1" NewMockRateLimitStore {| Records := [] |}).
  - destruct (Hthm (request_of ∅ chat_body (Some tenant_claude))) as (_ & _ & Hforb).
    destruct (Hforb tenant_claude chat_body (chat_request false) eq_refl eq_refl
                ltac:(vm_compute; reflexivity) ltac:(vm_compute; discriminate)
                ltac:(vm_compute; reflexivity)) as (o & Hrun & Hs & Hup & Hgo & _).
    exists o. repeat split; assumption.
Defined.

Lemma C10_bookkeeping_for_every_forwarded_response_witness :
  exists o,
    CreateCompletion (test_runtime false (always_status 404 "no such model"))
      (NewHandler test_models 0) 0 (request_of ∅ chat_body (Some tenant_any))
    = Returned o
    /\ reply_status (out_reply o) = 404
    /\ count_Go (out_trace o) = 1%nat
    /\ In (EvGo (mkBookkeeping "t1" "gpt-4" 16 3 0)) (out_trace o).
Proof.
  assert (Hloop : exists st,
            upstreamLoop (test_runtime false (always_status 404 "no such model"))
              (NewHandler test_models 0) 0 (request_of ∅ chat_body (Some tenant_any))
              (chat_intake false) = LoopDone st
            /\ lastErr st = None
            /\ resp st = Some (mkResponse 404 ∅ "no such model" (fun _ => 0))).
  { eexists. split; [vm_compute; reflexivity|]. split; reflexivity. }
  destruct Hloop as (st & Hloop & He & Hr).
  assert (Hintake : intake (test_runtime false (always_status 404 "no such model"))
                      (NewHandler test_models 0)
                      (request_of ∅ chat_body (Some tenant_any))
                    = inr (chat_intake false)) by (vm_compute; reflexivity).
  assert (Hstatus : StatusCode (mkResponse 404 ∅ "no such model" (fun _ => 0)) < 500)
    by (cbn; lia).
  destruct (C10_bookkeeping_for_every_forwarded_response
              (test_runtime false (always_status 404 "no such model"))
              (NewHandler test_models 0) 0 (request_of ∅ chat_body (Some tenant_any))
              (chat_intake false) st _ Hintake Hloop He Hr Hstatus)
    as (o & Hrun & Hs & Hgo & Hin & _).
  exists o. split; [exact Hrun|]. split; [exact Hs|]. split; [exact Hgo|].
  exact Hin.
Defined.


(** ** The schedule of the retry loop *)

Lemma upstream_requests_app (a b : list Event) :
  upstream_requests (a ++ b) = (upstream_requests a ++ upstream_requests b)%list.
Proof.
  induction a as [|e a IH]; [reflexivity|]. destruct e; cbn; rewrite ?IH; reflexivity.
Qed.

Lemma sleeps_app (a b : list Event) : sleeps (a ++ b) = (sleeps a ++ sleeps b)%list.
Proof.
  induction a as [|e a IH]; [reflexivity|]. destruct e; cbn; rewrite ?IH; reflexivity.
Qed.

Lemma count_Upstream_length (tr : list Event) :
  count_Upstream tr = List.length (upstream_requests tr).
Proof. induction tr as [|e tr IH]; [reflexivity|]. destruct e; cbn; lia. Qed.

Lemma map_seq_prefix {A : Type} (f : nat -> A) (s m n : nat) :
  (m <= n)%nat -> map f (seq s m) `sublist_of` map f (seq s n).
Proof.
  intros Hmn. replace n with (m + (n - m))%nat by lia.
  rewrite seq_app, map_app. apply sublist_inserts_r. reflexivity.
Qed.

(** The URL the loop computes from [urlIndex]. *)
Lemma currentURL_url_at (baseURLs : list string) (k : nat) :
  nth (Z.to_nat (Z.rem (Z.of_nat k) (Z.of_nat (List.length baseURLs)))) baseURLs ""
  = url_at baseURLs k.
Proof.
  unfold url_at. f_equal.
  destruct (List.length baseURLs) as [|n] eqn:Hn.
  - rewrite Z.rem_0_r_ext by reflexivity. cbn. lia.
  - rewrite Z.rem_mod_nonneg by lia. rewrite <- Nat2Z.inj_mod. apply Nat2Z.id.
Qed.

Lemma Execute_schedule (E : Runtime) (b : CircuitBreaker) (w : World) (pr : ProxyRequest) :
  sleeps (w_trace (snd (fst (Execute w_now b w (httpClient_Do E pr))))) = sleeps (w_trace w)
  /\ (upstream_requests (w_trace (snd (fst (Execute w_now b w (httpClient_Do E pr)))))
      = upstream_requests (w_trace w)
      \/ upstream_requests (w_trace (snd (fst (Execute w_now b w (httpClient_Do E pr)))))
         = (upstream_requests (w_trace w) ++ [pr])%list).
Proof.
  unfold Execute. destruct (beforeRequest b (w_now w)) as [b1 [g|e]]; cbn [fst snd].
  - unfold httpClient_Do. cbn [fst snd w_trace].
    rewrite sleeps_app, upstream_requests_app. cbn. rewrite app_nil_r. by split; [|right].
  - by split; [|left].
Qed.

Lemma failure_step_schedule (retryMax backoffMs : Z) (st : LoopState) (b : bool) :
  upstream_requests (w_trace (l_world (failure_step retryMax backoffMs st b)))
  = upstream_requests (w_trace (l_world st))
  /\ (sleeps (w_trace (l_world (failure_step retryMax backoffMs st b)))
      = sleeps (w_trace (l_world st))
      \/ (attempt st + 1 <= retryMax
          /\ sleeps (w_trace (l_world (failure_step retryMax backoffMs st b)))
             = (sleeps (w_trace (l_world st)) ++ [sleepTime backoffMs (attempt st + 1)])%list)).
Proof.
  unfold failure_step. cbn [l_world].
  destruct (Z.leb_spec (attempt st + 1) retryMax) as [Hle|Hgt]; [|by split; [|left]].
  destruct (_ && _); [by split; [|left]|].
  unfold time_Sleep. cbn [w_trace]. rewrite upstream_requests_app, sleeps_app. cbn.
  rewrite app_nil_r. split; [reflexivity|]. right. by split.
Qed.

Section LoopSchedule.

Variables (E : Runtime) (method : string) (reqHeader : gmap string (list string))
  (bodyBytes apiKey : string) (baseURLs : list string) (retryMax backoffMs : Z).

Hypothesis retryMax_nonneg : 0 <= retryMax.

Lemma schedule_inv_post (st : LoopState) :
  schedule_inv method reqHeader bodyBytes apiKey baseURLs retryMax backoffMs st ->
  schedule_post method reqHeader bodyBytes apiKey baseURLs retryMax backoffMs st.
Proof.
  intros ([Ha0 Ha] & _ & Hup & Hsl). split.
  - etrans; [exact Hup|]. apply map_seq_prefix. lia.
  - etrans; [exact Hsl|]. apply map_seq_prefix. lia.
Qed.

(** One more attempt, made or refused by the breaker, keeps the requests
    within the schedule up to that attempt. *)
Lemma schedule_attempt (st : LoopState) (w : World) :
  schedule_inv method reqHeader bodyBytes apiKey baseURLs retryMax backoffMs st ->
  (upstream_requests (w_trace w) = upstream_requests (w_trace (l_world st))
   \/ upstream_requests (w_trace w)
      = (upstream_requests (w_trace (l_world st))
         ++ [request_at method reqHeader bodyBytes apiKey baseURLs
               (Z.to_nat (attempt st))])%list) ->
  upstream_requests (w_trace w)
  `sublist_of` map (request_at method reqHeader bodyBytes apiKey baseURLs)
                 (seq 0 (Z.to_nat (attempt st + 1))).
Proof.
  intros ([Ha0 Ha] & Hidx & Hup & Hsl) Hu.
  replace (Z.to_nat (attempt st + 1)) with (Z.to_nat (attempt st) + 1)%nat by lia.
  rewrite seq_app, map_app. cbn [seq map Nat.add].
  destruct Hu as [-> | ->].
  - apply sublist_inserts_r. exact Hup.
  - apply sublist_app; [exact Hup|reflexivity].
Qed.

Lemma retryLoop_schedule (fuel : nat) :
  forall st : LoopState,
    schedule_inv method reqHeader bodyBytes apiKey baseURLs retryMax backoffMs st ->
    match retryLoop E method reqHeader bodyBytes apiKey baseURLs retryMax backoffMs fuel st
    with
    | LoopFuel => True
    | LoopReturn500 st' | LoopDone st' =>
        schedule_post method reqHeader bodyBytes apiKey baseURLs retryMax backoffMs st'
    end.
Proof.
  induction fuel as [|fuel IH]; intros st Hinv.
  - cbn [retryLoop]. destruct (negb _); [apply schedule_inv_post; exact Hinv|exact I].
  - cbn [retryLoop].
    destruct (Z.leb_spec (attempt st) retryMax) as [Hle|Hgt]; cbn [negb];
      [|apply schedule_inv_post; exact Hinv].
    destruct (negb (http_NewRequest_ok E method _));
      [apply schedule_inv_post; exact Hinv|].
    pose proof Hinv as ([Ha0 Ha] & Hidx & Hup & Hsl).
    assert (Hurl : nth (Z.to_nat (Z.rem (urlIndex st) (Z.of_nat (List.length baseURLs))))
                     baseURLs ""
                   = url_at baseURLs (Z.to_nat (attempt st))).
    { rewrite Hidx, <- currentURL_url_at, Z2Nat.id by lia. reflexivity. }
    rewrite Hurl.
    fold (request_at method reqHeader bodyBytes apiKey baseURLs (Z.to_nat (attempt st))).
    pose proof (Execute_schedule E (l_cb st) (l_world st)
                  (request_at method reqHeader bodyBytes apiKey baseURLs
                     (Z.to_nat (attempt st)))) as [Hs Hu].
    destruct (Execute w_now (l_cb st) (l_world st) _) as [[cb' w'] r].
    cbn [fst snd] in Hs, Hu.
    (* the state after the attempt, and after the failure handling *)
    assert (Hdone : forall (rr : option Response) (ee : option error),
              schedule_post method reqHeader bodyBytes apiKey baseURLs retryMax backoffMs
                (mkLoopState (attempt st) (urlIndex st) rr ee cb' w')).
    { intros rr ee. split; cbn [l_world].
      - pose proof (schedule_attempt st w' Hinv Hu) as Hup'.
        etrans; [exact Hup'|]. apply map_seq_prefix. lia.
      - rewrite Hs. etrans; [exact Hsl|]. apply map_seq_prefix. lia. }
    assert (Hnext : forall (rr : option Response) (ee : option error),
              schedule_inv method reqHeader bodyBytes apiKey baseURLs retryMax backoffMs
                (failure_step retryMax backoffMs
                   (mkLoopState (attempt st) (urlIndex st) rr ee cb' w') true)).
    { intros rr ee.
      pose proof (schedule_attempt st w' Hinv Hu) as Hup'.
      destruct (failure_step_schedule retryMax backoffMs
                  (mkLoopState (attempt st) (urlIndex st) rr ee cb' w') true)
        as [Hfu Hfs].
      split; [cbn [failure_step attempt]; lia|].
      split; [cbn [failure_step attempt urlIndex]; lia|].
      rewrite Hfu. cbn [failure_step attempt l_world] in *.
      split; [exact Hup'|].
      destruct Hfs as [-> | [Hle' ->]].
      - rewrite Hs. etrans; [exact Hsl|]. apply map_seq_prefix. lia.
      - rewrite Hs.
        replace (Z.to_nat (Z.min (attempt st + 1) retryMax))
          with (Z.to_nat (Z.min (attempt st) retryMax) + 1)%nat by lia.
        rewrite seq_app, map_app. cbn [seq map].
        apply sublist_app; [exact Hsl|].
        replace (Z.of_nat (1 + Z.to_nat (Z.min (attempt st) retryMax)))
          with (attempt st + 1) by lia.
        reflexivity. }
    destruct r as [rsp|cbErr].
    + destruct ((StatusCode rsp <? 500) && negb (StatusCode rsp =? 429)) eqn:Hsucc;
        [apply Hdone|].
      replace ((StatusCode rsp >=? 500) || (StatusCode rsp =? 429)) with true.
      * apply IH, Hnext.
      * symmetry. rewrite Z.geb_leb.
        destruct (Z.ltb_spec (StatusCode rsp) 500), (Z.eqb_spec (StatusCode rsp) 429),
          (Z.leb_spec 500 (StatusCode rsp)); cbn in *; try reflexivity; try discriminate;
          lia.
    + destruct (is_ErrOpenState cbErr); [apply Hdone|apply IH, Hnext].
Qed.

End LoopSchedule.

Lemma streamLoop_quiet (E : Runtime) (tid model : string) (start : Z)
  (arrival : nat -> Z) (lines : list string) :
  forall (i : nat) (acc : Z) (fb : bool),
    upstream_requests (snd (streamLoop E tid model start arrival lines i acc fb)) = []
    /\ sleeps (snd (streamLoop E tid model start arrival lines i acc fb)) = [].
Proof.
  induction lines as [|l r IH]; intros i acc fb; [by split|].
  cbn [streamLoop].
  match goal with |- context [streamLoop E tid model start arrival r (S i) ?a false] =>
    specialize (IH (S i) a false);
    destruct (streamLoop E tid model start arrival r (S i) a false) as [out evs] end.
  cbn [snd] in *. rewrite !upstream_requests_app, !sleeps_app.
  destruct IH as [-> ->]. destruct fb; by split.
Qed.

Lemma write_body_quiet (E : Runtime) (start : Z) (i : Intake) (rsp : Response) :
  upstream_requests (snd (write_body E start i rsp)) = []
  /\ sleeps (snd (write_body E start i rsp)) = [].
Proof.
  unfold write_body. destruct (req_Stream (in_chatReq i)); [|by split].
  unfold streamResponse.
  pose proof (streamLoop_quiet E (TenantID (in_tenant i)) (req_Model (in_chatReq i)) start
                (resp_Arrival rsp) (scan_lines (resp_Body rsp)) 0%nat 0 true) as Hq.
  destruct (streamLoop E _ _ start (resp_Arrival rsp) _ 0 0 true) as [out evs].
  exact Hq.
Qed.

(** What the code after the loop adds to the loop's trace is neither an
    upstream request nor a sleep; the handler keeps the loop's breaker and
    call counter. *)
Lemma respond_trace (E : Runtime) {MS : Type} (h : Handler MS) (start : Z) (i : Intake)
  (le : LoopEnd) (o : Outcome MS) :
  respond E h start i le = Returned o ->
  exists st, (le = LoopDone st \/ le = LoopReturn500 st)
             /\ upstream_requests (out_trace o) = upstream_requests (w_trace (l_world st))
             /\ sleeps (out_trace o) = sleeps (w_trace (l_world st))
             /\ out_handler o = after_loop h st.
Proof.
  intros Hrun. destruct le as [st|st|]; [| |discriminate]; exists st.
  - split; [by left|]. unfold respond in Hrun.
    destruct (lastErr st) as [e|]; [injection Hrun as <-; by repeat split|].
    destruct (resp st) as [rsp|]; [|discriminate].
    destruct (StatusCode rsp >=? 500); [injection Hrun as <-; by repeat split|].
    pose proof (write_body_quiet E start i rsp) as [Hu Hs].
    destruct (write_body E start i rsp) as [outTok evs]. cbn [snd] in Hu, Hs.
    injection Hrun as <-. cbn [out_trace out_handler].
    rewrite !upstream_requests_app, !sleeps_app, Hu, Hs. cbn.
    rewrite !app_nil_r. by repeat split.
  - split; [by right|]. injection Hrun as <-. by repeat split.
Qed.

Lemma upstreamLoop_schedule (E : Runtime) {MS : Type} (h : Handler MS) (start : Z)
  (c : Context) (i : Intake) :
  match upstreamLoop E h start c i with
  | LoopFuel => True
  | LoopReturn500 st | LoopDone st =>
      upstream_requests (w_trace (l_world st))
      `sublist_of` map (request_of_attempt E c i) (seq 0 (Z.to_nat (retryMax_of c + 1)))
      /\ sleeps (w_trace (l_world st))
         `sublist_of` map (fun k => sleepTime (backoffMs_of c) (Z.of_nat k))
                        (seq 1 (Z.to_nat (retryMax_of c)))
  end.
Proof.
  unfold upstreamLoop. pose proof (retryMax_of_range c) as Hr.
  apply retryLoop_schedule; [lia|].
  split; [cbn [attempt]; lia|]. split; [reflexivity|].
  cbn [attempt l_world w_trace upstream_requests sleeps]. split; apply sublist_nil_l.
Qed.

(** Every reply of [CreateCompletion]: made before the loop, with nothing
    sent and the handler as it was, or made after the loop, with the
    requests and sleeps of the loop within the schedule. *)
Lemma CreateCompletion_schedule (E : Runtime) {MS : Type} `{ModelStore MS}
  (h : Handler MS) (start : Z) (c : Context) (o : Outcome MS) :
  CreateCompletion E h start c = Returned o ->
  (intake E h c = inl (out_reply o) /\ out_trace o = [] /\ out_handler o = h
   /\ out_model o = None)
  \/ exists i,
       intake E h c = inr i
       /\ upstream_requests (out_trace o)
          `sublist_of` map (request_of_attempt E c i)
                         (seq 0 (Z.to_nat (retryMax_of c + 1)))
       /\ sleeps (out_trace o)
          `sublist_of` map (fun k => sleepTime (backoffMs_of c) (Z.of_nat k))
                         (seq 1 (Z.to_nat (retryMax_of c))).
Proof.
  unfold CreateCompletion. destruct (intake E h c) as [r|i] eqn:Hin.
  - intros [= <-]. left. by repeat split.
  - intros Hrun. right. exists i. split; [reflexivity|].
    destruct (respond_trace E h start i _ o Hrun) as (st & Hle & -> & -> & _).
    pose proof (upstreamLoop_schedule E h start c i) as Hsched.
    destruct Hle as [Hle | Hle]; rewrite Hle in Hsched; exact Hsched.
Qed.

Lemma In_upstream_requests (pr : ProxyRequest) (tr : list Event) :
  In (EvUpstream pr) tr <-> In pr (upstream_requests tr).
Proof.
  induction tr as [|e tr IH]; [reflexivity|].
  destruct e; cbn [In upstream_requests]; rewrite <- ?IH;
    (split; [intros [Heq|Hin]; [try discriminate|]|]); try tauto.
  - injection Heq as ->. by left.
  - intros [->|Hin]; [by left|by right].
Qed.

(** What a validated request is made of. *)
Lemma intake_inr (E : Runtime) {MS : Type} `{ModelStore MS} (h : Handler MS)
  (c : Context) (i : Intake) :
  intake E h c = inr i ->
  ctx_tenant c = Some (in_tenant i)
  /\ Body (ctx_Request c) = BodyBytes (in_bodyBytes i)
  /\ len (in_bodyBytes i) <= 10 * 1024 * 1024
  /\ json_Unmarshal_ChatRequest E (in_bodyBytes i) = Some (in_chatReq i)
  /\ Z.of_nat (List.length (req_Messages (in_chatReq i))) <= 50
  /\ model_allowed (AllowedModels (in_tenant i)) (req_Model (in_chatReq i)) = true
  /\ GetModel (modelStore h) (req_Model (in_chatReq i)) = Ok (Some (in_modelConfig i))
  /\ BaseURLs (in_modelConfig i) <> [].
Proof.
  unfold intake. destruct (ctx_tenant c) as [t|]; [|discriminate].
  destruct (Body (ctx_Request c)) as [b|e]; cbn [ReadAll_limited].
  2:{ destruct (String.eqb _ _); discriminate. }
  destruct (Z.gtb_spec (len b) (10 * 1024 * 1024)) as [Hbig|Hsmall].
  { cbn [Error]. discriminate. }
  destruct (json_Unmarshal_ChatRequest E b) as [chatReq|] eqn:Hj; [|discriminate].
  destruct (Z.gtb_spec (Z.of_nat (List.length (req_Messages chatReq))) 50); [discriminate|].
  destruct (model_allowed (AllowedModels t) (req_Model chatReq)) eqn:Hal; [|discriminate].
  cbn [negb].
  destruct (GetModel (modelStore h) (req_Model chatReq)) as [[m|]|e] eqn:Hm;
    try discriminate.
  destruct (Z.eqb_spec (Z.of_nat (List.length (BaseURLs m))) 0) as [Hz|Hn0]; [discriminate|].
  intros [= <-]. cbn [in_tenant in_bodyBytes in_chatReq in_modelConfig].
  repeat split; try done; try lia.
  intros Hnil. rewrite Hnil in Hn0. by apply Hn0.
Qed.

(** X1. One request makes at most [retryMax + 1] upstream calls, hence at
    most 11 whatever its headers say, and sleeps at most [retryMax] times:
    never after its last attempt. *)
Theorem upstream_calls_bounded (E : Runtime) {MS : Type} `{ModelStore MS}
  (h : Handler MS) (start : Z) (c : Context) (o : Outcome MS)
  (Hrun : CreateCompletion E h start c = Returned o) :
  Z.of_nat (count_Upstream (out_trace o)) <= retryMax_of c + 1
  /\ (count_Upstream (out_trace o) <= 11)%nat
  /\ Z.of_nat (List.length (sleeps (out_trace o))) <= retryMax_of c.
Proof.
  pose proof (retryMax_of_range c) as Hr.
  destruct (CreateCompletion_schedule E h start c o Hrun)
    as [(_ & -> & _) | (i & _ & Hup & Hsl)]; [cbn; lia|].
  apply sublist_length in Hup, Hsl.
  rewrite length_map, length_seq in Hup, Hsl.
  rewrite count_Upstream_length. lia.
Qed.

Lemma upstream_calls_bounded_witness :
  exists o, rate_limited_run = Returned o
            /\ count_Upstream (out_trace o) = 4%nat
            /\ Z.of_nat (count_Upstream (out_trace o)) <= 3 + 1.
Proof.
  assert (Hrun : exists o, rate_limited_run = Returned o
                           /\ count_Upstream (out_trace o) = 4%nat).
  { eexists. split; [vm_compute; reflexivity|]. vm_compute. reflexivity. }
  destruct Hrun as (o & Hrun & Hfour). exists o. split; [exact Hrun|].
  split; [exact Hfour|].
  exact (proj1 (upstream_calls_bounded _ _ _ _ o Hrun)).
Defined.

(** X2. The upstream calls of one request go round the model's URLs in
    order: the call of attempt [k] goes to [baseURLs[k % len(baseURLs)]],
    so the URLs called are, in order, taken from
    [baseURLs[0], baseURLs[1 % n], ..., baseURLs[retryMax % n]] (an attempt
    the breaker refuses calls nothing). *)
Theorem failover_round_robin (E : Runtime) {MS : Type} `{ModelStore MS}
  (h : Handler MS) (start : Z) (c : Context) (o : Outcome MS) (i : Intake)
  (Hrun : CreateCompletion E h start c = Returned o)
  (Hintake : intake E h c = inr i) :
  map pr_URL (upstream_requests (out_trace o))
  `sublist_of` map (url_at (BaseURLs (in_modelConfig i)))
                 (seq 0 (Z.to_nat (retryMax_of c + 1))).
Proof.
  destruct (CreateCompletion_schedule E h start c o Hrun)
    as [(Hin & _) | (i' & Hin & Hup & _)]; [congruence|].
  assert (i' = i) as -> by congruence.
  assert (Hmap : map (url_at (BaseURLs (in_modelConfig i)))
                   (seq 0 (Z.to_nat (retryMax_of c + 1)))
                 = map pr_URL (map (request_of_attempt E c i)
                                 (seq 0 (Z.to_nat (retryMax_of c + 1))))).
  { rewrite map_map. reflexivity. }
  rewrite Hmap. clear Hmap.
  induction Hup; cbn [map]; by constructor.
Qed.

Lemma failover_round_robin_witness :
  exists o, rate_limited_run = Returned o
            /\ map pr_URL (upstream_requests (out_trace o))
               = ["http://a"; "http://b"; "http://a"; "http://b"]
            /\ map pr_URL (upstream_requests (out_trace o))
               `sublist_of` ["http://a"; "http://b"; "http://a"; "http://b"].
Proof.
  assert (Hrun : exists o, rate_limited_run = Returned o
                           /\ map pr_URL (upstream_requests (out_trace o))
                              = ["http://a"; "http://b"; "http://a"; "http://b"]).
  { eexists. split; [vm_compute; reflexivity|]. vm_compute. reflexivity. }
  destruct Hrun as (o & Hrun & Hurls). exists o. split; [exact Hrun|].
  split; [exact Hurls|].
  assert (Hin : intake (test_runtime false (always_status 429 "slow down"))
                  (NewHandler test_models 0)
                  (request_of ∅ chat_body (Some (mkTenant "k" "t1" "" 10 100 ["gpt-4"] true)))
                = inr (mkIntake (mkTenant "k" "t1" "" 10 100 ["gpt-4"] true) chat_body
                         (chat_request false)
                         (mkModel "gpt-4" "" ["http://a"; "http://b"] "")))
    by (vm_compute; reflexivity).
  exact (failover_round_robin _ _ _ _ o _ Hrun Hin).
Defined.

Lemma url_at_In (baseURLs : list string) (k : nat) :
  baseURLs <> [] -> In (url_at baseURLs k) baseURLs.
Proof.
  intros Hne. unfold url_at. apply nth_In.
  destruct baseURLs as [|u us]; [done|]. apply Nat.mod_upper_bound. cbn. lia.
Qed.

(** The header of the request [make_proxyReq] builds. *)
Lemma make_proxyReq_header (method : string) (reqHeader : gmap string (list string))
  (bodyBytes apiKey currentURL : string) :
  let hd := pr_Header (make_proxyReq method reqHeader bodyBytes apiKey currentURL) in
  hd !! "Authorization" = Some ["Bearer " +:+ apiKey]
  /\ hd !! "Host" = None
  /\ hd !! "X-Llm-Retry-Max" = None
  /\ hd !! "X-Llm-Retry-Backoff-Ms" = None
  /\ forall k : string,
       k <> "Authorization" -> k <> "Host" -> k <> "X-Llm-Retry-Max" ->
       k <> "X-Llm-Retry-Backoff-Ms" -> hd !! k = reqHeader !! k.
Proof.
  cbv zeta. unfold make_proxyReq. cbn [pr_Header].
  change (CanonicalMIMEHeaderKey "X-LLM-Retry-Max") with "X-Llm-Retry-Max".
  change (CanonicalMIMEHeaderKey "X-LLM-Retry-Backoff-Ms") with "X-Llm-Retry-Backoff-Ms".
  repeat split.
  - rewrite !lookup_delete_ne by done. apply lookup_insert_eq.
  - rewrite !lookup_delete_ne by done. apply lookup_delete_eq.
  - rewrite lookup_delete_ne by done. apply lookup_delete_eq.
  - apply lookup_delete_eq.
  - intros k H1 H2 H3 H4. rewrite !lookup_delete_ne by done. by rewrite lookup_insert_ne.
Qed.

(** X3. Every request the gateway sends upstream carries the caller's
    method and body bytes, goes to one of the model's URLs, and has the
    caller's headers except that [Authorization] is replaced by the
    provider's key from the environment (the tenant's own key is never
    forwarded) and that [Host] and the two retry headers are removed. *)
Theorem upstream_request_content (E : Runtime) {MS : Type} `{ModelStore MS}
  (h : Handler MS) (start : Z) (c : Context) (o : Outcome MS) (pr : ProxyRequest)
  (Hrun : CreateCompletion E h start c = Returned o)
  (Hsent : In (EvUpstream pr) (out_trace o)) :
  exists i,
    intake E h c = inr i
    /\ pr_Method pr = Method (ctx_Request c)
    /\ Body (ctx_Request c) = BodyBytes (pr_Body pr)
    /\ In (pr_URL pr) (BaseURLs (in_modelConfig i))
    /\ pr_Header pr !! "Authorization"
       = Some ["Bearer " +:+ os_Getenv E (APIKeyEnv (in_modelConfig i))]
    /\ pr_Header pr !! "Host" = None
    /\ pr_Header pr !! "X-Llm-Retry-Max" = None
    /\ pr_Header pr !! "X-Llm-Retry-Backoff-Ms" = None
    /\ forall k : string,
         k <> "Authorization" -> k <> "Host" -> k <> "X-Llm-Retry-Max" ->
         k <> "X-Llm-Retry-Backoff-Ms" ->
         pr_Header pr !! k = Header (ctx_Request c) !! k.
Proof.
  destruct (CreateCompletion_schedule E h start c o Hrun)
    as [(_ & Htr & _) | (i & Hin & Hup & _)].
  { rewrite Htr in Hsent. destruct Hsent. }
  exists i. split; [exact Hin|].
  destruct (intake_inr E h c i Hin) as (_ & Hbody & _ & _ & _ & _ & _ & Hurls).
  apply In_upstream_requests, list_elem_of_In in Hsent.
  apply (sublist_subseteq _ _ Hup) in Hsent.
  apply list_elem_of_fmap in Hsent as (k & -> & _).
  unfold request_of_attempt, request_at.
  pose proof (make_proxyReq_header (Method (ctx_Request c)) (Header (ctx_Request c))
                (in_bodyBytes i) (os_Getenv E (APIKeyEnv (in_modelConfig i)))
                (url_at (BaseURLs (in_modelConfig i)) k)) as Hhd.
  cbv zeta in Hhd. destruct Hhd as (Ha & Hh & Hm & Hb & Hrest).
  split; [reflexivity|]. split; [exact Hbody|].
  split; [apply url_at_In; exact Hurls|].
  repeat split; assumption.
Qed.

Lemma upstream_request_content_witness :
  exists o pr,
    CreateCompletion (test_runtime false (always_status 200 "{}"))
      (NewHandler test_models 0) 0
      (request_of (<[ "Content-Type" := ["application/json"] ]> (bearer "tenant-key"))
         chat_body (Some tenant_any))
    = Returned o
    /\ In (EvUpstream pr) (out_trace o)
    /\ pr_Header pr !! "Authorization" = Some ["Bearer "]
    /\ pr_Header pr !! "Content-Type" = Some ["application/json"].
Proof.
  assert (Hrun : exists o pr,
            CreateCompletion (test_runtime false (always_status 200 "{}"))
              (NewHandler test_models 0) 0
              (request_of (<[ "Content-Type" := ["application/json"] ]> (bearer "tenant-key"))
                 chat_body (Some tenant_any))
            = Returned o
            /\ out_trace o
               = EvUpstream pr :: skipn 1 (out_trace o)).
  { eexists. eexists. split; [vm_compute; reflexivity|]. vm_compute. reflexivity. }
  destruct Hrun as (o & pr & Hrun & Htr). exists o, pr.
  assert (Hsent : In (EvUpstream pr) (out_trace o)) by (rewrite Htr; by left).
  split; [exact Hrun|]. split; [exact Hsent|].
  destruct (upstream_request_content _ _ _ _ o pr Hrun Hsent)
    as (i & Hin & _ & _ & _ & Hauth & _ & _ & _ & Hrest).
  split.
  - rewrite Hauth. assert (i = chat_intake false) as ->; [|reflexivity].
    assert (Hin' : intake (test_runtime false (always_status 200 "{}"))
                     (NewHandler test_models 0)
                     (request_of (<[ "Content-Type" := ["application/json"] ]>
                                    (bearer "tenant-key")) chat_body (Some tenant_any))
                   = inr (chat_intake false)) by (vm_compute; reflexivity).
    congruence.
  - rewrite Hrest by done. vm_compute. reflexivity.
Defined.

Lemma total_app (a b : list Z) : total (a ++ b) = total a + total b.
Proof. unfold total. induction a as [|x a IH]; cbn; lia. Qed.

Lemma total_sublist (a b : list Z) :
  a `sublist_of` b -> Forall (fun d => 0 <= d) b -> total a <= total b.
Proof.
  unfold total. induction 1 as [|x a b _ IH|x a b _ IH]; intros Hb; cbn.
  - lia.
  - apply Forall_cons in Hb as [_ Hb]. specialize (IH Hb). lia.
  - apply Forall_cons in Hb as [Hx Hb]. specialize (IH Hb). lia.
Qed.

(** Without overflow the sleep after the [k]-th failed attempt is
    [backoffMs * 2^(k-1)] milliseconds. *)
Lemma sleepTime_exact (backoffMs : Z) (k : nat) :
  0 <= backoffMs <= 1000000000 -> (1 <= k <= 10)%nat ->
  sleepTime backoffMs (Z.of_nat k) = backoffMs * millisecond_ns * 2 ^ (Z.of_nat k - 1).
Proof.
  intros Hb Hk. unfold sleepTime, millisecond_ns.
  assert (Hp : 1 <= 2 ^ (Z.of_nat k - 1) <= 512).
  { split; [apply (Z.pow_le_mono_r 2 0); lia|].
    change 512 with (2 ^ 9). apply Z.pow_le_mono_r; lia. }
  rewrite (wrap64_small (backoffMs * 1000000)) by (unfold min_int64, max_int64; lia).
  apply wrap64_small. unfold min_int64, max_int64. nia.
Qed.

Lemma backoff_schedule_total (backoffMs : Z) (n : nat) :
  0 <= backoffMs <= 1000000000 -> (n <= 10)%nat ->
  Forall (fun d => 0 <= d) (map (fun k => sleepTime backoffMs (Z.of_nat k)) (seq 1 n))
  /\ total (map (fun k => sleepTime backoffMs (Z.of_nat k)) (seq 1 n))
     = backoffMs * millisecond_ns * (2 ^ Z.of_nat n - 1).
Proof.
  intros Hb. induction n as [|n IH]; intros Hn.
  - split; [constructor|]. cbn. lia.
  - destruct IH as [Hpos Hsum]; [lia|].
    replace (S n) with (n + 1)%nat by lia. rewrite seq_app, map_app. cbn [seq map].
    replace (1 + n)%nat with (S n) by lia.
    rewrite (sleepTime_exact backoffMs (S n)) by lia.
    replace (Z.of_nat (S n) - 1) with (Z.of_nat n) by lia.
    assert (Hp : 0 < 2 ^ Z.of_nat n) by (apply Z.pow_pos_nonneg; lia).
    split.
    + apply Forall_app. split; [exact Hpos|]. constructor; [|constructor].
      unfold millisecond_ns. nia.
    + rewrite total_app, Hsum. unfold total. cbn [foldr].
      replace (Z.of_nat (n + 1)) with (Z.of_nat n + 1) by lia.
      rewrite Z.pow_add_r by lia. lia.
Qed.

(** X4. With a backoff of at most 10^9 ms, no sleep of the retry loop is
    negative and the time one request spends sleeping is at most
    [backoffMs * (2^retryMax - 1)] milliseconds: 700 ms with the default
    policy. *)
Theorem backoff_total_bounded (E : Runtime) {MS : Type} `{ModelStore MS}
  (h : Handler MS) (start : Z) (c : Context) (o : Outcome MS)
  (Hrun : CreateCompletion E h start c = Returned o)
  (Hbackoff : backoffMs_of c <= 1000000000) :
  Forall (fun d => 0 <= d) (sleeps (out_trace o))
  /\ total (sleeps (out_trace o))
     <= backoffMs_of c * millisecond_ns * (2 ^ retryMax_of c - 1)
  /\ (GetHeader c "X-LLM-Retry-Max" = "" -> GetHeader c "X-LLM-Retry-Backoff-Ms" = "" ->
      total (sleeps (out_trace o)) <= 700 * millisecond_ns).
Proof.
  pose proof (retryMax_of_range c) as Hr. pose proof (backoffMs_of_nonneg c) as Hb.
  assert (Hsl : sleeps (out_trace o)
                `sublist_of` map (fun k => sleepTime (backoffMs_of c) (Z.of_nat k))
                               (seq 1 (Z.to_nat (retryMax_of c)))).
  { destruct (CreateCompletion_schedule E h start c o Hrun)
      as [(_ & -> & _) | (i & _ & _ & Hsl)]; [apply sublist_nil_l|exact Hsl]. }
  destruct (backoff_schedule_total (backoffMs_of c) (Z.to_nat (retryMax_of c)))
    as [Hpos Hsum]; [lia|lia|].
  rewrite Z2Nat.id in Hsum by lia.
  assert (Hbound : total (sleeps (out_trace o))
                   <= backoffMs_of c * millisecond_ns * (2 ^ retryMax_of c - 1)).
  { rewrite <- Hsum. apply total_sublist; assumption. }
  split; [|split; [exact Hbound|]].
  - apply Forall_forall. intros d Hd.
    apply (sublist_subseteq _ _ Hsl) in Hd. rewrite Forall_forall in Hpos. by apply Hpos.
  - intros Hm Hbk. unfold retryMax_of, backoffMs_of in Hbound.
    rewrite Hm, Hbk in Hbound. cbn in Hbound. unfold millisecond_ns in *. lia.
Qed.

Lemma backoff_total_bounded_witness :
  match CreateCompletion (test_runtime false unreachable) (NewHandler test_models 0) 0
          (request_of ∅ chat_body (Some tenant_any)) with
  | Returned o =>
      sleeps (out_trace o)
      = [100 * millisecond_ns; 200 * millisecond_ns; 400 * millisecond_ns]
      /\ total (sleeps (out_trace o)) <= 700 * millisecond_ns
  | _ => False
  end.
Proof.
  destruct (CreateCompletion (test_runtime false unreachable) (NewHandler test_models 0) 0
              (request_of ∅ chat_body (Some tenant_any))) as [o| |] eqn:Hrun;
    [|vm_compute in Hrun; discriminate..].
  split.
  - vm_compute in Hrun. injection Hrun as <-. vm_compute. reflexivity.
  - refine (proj2 (proj2 (backoff_total_bounded _ _ _ _ o Hrun _)) _ _);
      [vm_compute; discriminate|reflexivity|reflexivity].
Defined.

(** ** Who gets past [AuthMiddleware] *)

Lemma Split_nonempty (s : string) (sep : ascii) : strings_Split s sep <> [].
Proof.
  destruct s as [|c r]; cbn [strings_Split]; [discriminate|].
  destruct (Ascii.eqb c sep); [discriminate|].
  destruct (strings_Split r sep); discriminate.
Qed.

Lemma Split_no_sep (s : string) (sep : ascii) :
  has_byte s sep = false -> strings_Split s sep = [s].
Proof.
  unfold has_byte. induction s as [|c r IH]; [reflexivity|].
  cbn [list_ascii_of_string existsb strings_Split].
  intros [Hc Hr]%orb_false_elim. rewrite Hc, (IH Hr). reflexivity.
Qed.

(** The first piece of a split holds no separator; the input is that piece
    alone, or the piece, a separator and an input that splits into the
    remaining pieces. *)
Lemma Split_spec (sep : ascii) (s : string) :
  forall (p : string) (ps : list string),
    strings_Split s sep = p :: ps ->
    has_byte p sep = false
    /\ ((ps = [] /\ s = p)
        \/ exists s', s = p +:+ String sep s' /\ strings_Split s' sep = ps /\ ps <> []).
Proof.
  induction s as [|c r IH]; intros p ps; cbn [strings_Split].
  - intros [= <- <-]. split; [reflexivity|]. by left.
  - destruct (Ascii.eqb_spec c sep) as [->|Hne].
    + intros [= <- <-]. split; [reflexivity|]. right. exists r.
      split; [reflexivity|]. split; [reflexivity|]. apply Split_nonempty.
    + destruct (strings_Split r sep) as [|p0 ps0] eqn:Hr; [by destruct (Split_nonempty r sep)|].
      intros [= <- <-]. destruct (IH p0 ps0 eq_refl) as [Hp Hcase].
      split.
      * unfold has_byte in *. cbn [list_ascii_of_string existsb]. rewrite Hp.
        destruct (Ascii.eqb_spec c sep); [done|reflexivity].
      * destruct Hcase as [[-> ->] | (s' & -> & Hs' & Hne')]; [by left|].
        right. exists s'. by repeat split.
Qed.

Lemma Split_bearer (key : string) :
  has_byte key " "%char = false ->
  strings_Split ("Bearer " +:+ key) " "%char = ["Bearer"; key].
Proof.
  intros Hk.
  change ("Bearer " +:+ key)
    with (String "B" (String "e" (String "a" (String "r" (String "e" (String "r"
            (String " " key))))))).
  cbn [strings_Split Ascii.eqb Bool.eqb andb].
  rewrite (Split_no_sep key " "%char Hk). reflexivity.
Qed.

(** X5. [AuthMiddleware] lets a request through exactly when its
    [Authorization] header is [Bearer ] followed by a key without a space
    for which the tenant store returns a tenant; the request then carries
    that tenant and is otherwise unchanged.  A key that contains a space is
    never accepted, whatever the store holds. *)
Theorem AuthMiddleware_admits_iff {S : Type} `{TenantStore S} (tenantStore : S)
  (now : Z) (c : Context) :
  (forall (st : S) (c' : Context),
     AuthMiddleware tenantStore now c = (st, Next c')
     <-> exists (key : string) (tenant : Tenant),
           GetHeader c "Authorization" = "Bearer " +:+ key
           /\ has_byte key " "%char = false
           /\ GetTenant tenantStore now key = (st, Ok (Some tenant))
           /\ c' = set_tenant c tenant)
  /\ (forall key : string,
        GetHeader c "Authorization" = "Bearer " +:+ key ->
        has_byte key " "%char = true ->
        AuthMiddleware tenantStore now c
        = (tenantStore,
           Abort 401 ∅ {[ "error" := JString "Invalid Authorization header format" ]})).
Proof.
  split.
  - intros st c'. split.
    + unfold AuthMiddleware.
      destruct (String.eqb_spec (GetHeader c "Authorization") "") as [He|Hne];
        [discriminate|].
      destruct (Z.eqb_spec
                  (Z.of_nat (List.length (strings_Split (GetHeader c "Authorization")
                                            " "%char))) 2) as [Hlen|Hlen];
        cbn [negb orb]; [|discriminate].
      destruct (strings_Split (GetHeader c "Authorization") " "%char)
        as [|p [|q [|x xs]]] eqn:Hsplit; cbn [List.length] in Hlen; try lia.
      cbn [nth].
      destruct (String.eqb_spec p "Bearer") as [->|Hp]; [|discriminate].
      cbn [negb].
      destruct (GetTenant tenantStore now q) as [st' [[tenant|]|e]] eqn:Hget;
        try discriminate.
      intros [= <- <-].
      destruct (Split_spec " "%char _ _ _ Hsplit) as [_ [[? _]|(s' & Hs & Hs' & _)]];
        [discriminate|].
      destruct (Split_spec " "%char _ _ _ Hs') as [Hq [[_ ->]|(s'' & _ & Hnil & _)]].
      * exists q, tenant. repeat split; done.
      * by destruct (Split_nonempty s'' " "%char).
    + intros (key & tenant & Hh & Hk & Hget & ->). unfold AuthMiddleware.
      rewrite Hh, (Split_bearer key Hk).
      change (String.eqb ("Bearer " +:+ key) "") with false.
      cbn [List.length nth Z.of_nat Pos.of_succ_nat Pos.succ Z.eqb Pos.eqb negb orb].
      change (String.eqb "Bearer" "Bearer") with true. cbn [negb].
      rewrite Hget. reflexivity.
  - intros key Hh Hk. unfold AuthMiddleware. rewrite Hh.
    change (String.eqb ("Bearer " +:+ key) "") with false.
    change ("Bearer " +:+ key)
      with (String "B" (String "e" (String "a" (String "r" (String "e" (String "r"
              (String " " key))))))).
    cbn [strings_Split Ascii.eqb Bool.eqb andb].
    destruct (strings_Split key " "%char) as [|p ps] eqn:Hsplit;
      [by destruct (Split_nonempty key " "%char)|].
    destruct ps as [|q qs].
    { destruct (Split_spec " "%char _ _ _ Hsplit) as [Hp [[_ ->]|(? & _ & _ & ?)]];
        [congruence|done]. }
    destruct (Z.eqb_spec (Z.of_nat (List.length ("Bearer" :: p :: q :: qs))) 2) as [Hlen|_];
      [cbn [List.length] in Hlen; lia|].
    reflexivity.
Qed.

Lemma AuthMiddleware_admits_iff_witness :
  AuthMiddleware test_tenants 0 (request_of (bearer "valid-key") "" None)
  = (test_tenants,
     Next (set_tenant (request_of (bearer "valid-key") "" None)
             (mkTenant "valid-key" "tenant-1" "" 0 0 [] true)))
  /\ AuthMiddleware test_tenants 0 (request_of (bearer "valid-key extra") "" None)
     = (test_tenants,
        Abort 401 ∅ {[ "error" := JString "Invalid Authorization header format" ]}).
Proof.
  split.
  - apply (proj1 (AuthMiddleware_admits_iff test_tenants 0
                    (request_of (bearer "valid-key") "" None))).
    exists "valid-key", (mkTenant "valid-key" "tenant-1" "" 0 0 [] true).
    repeat split; vm_compute; reflexivity.
  - apply (proj2 (AuthMiddleware_admits_iff test_tenants 0
                    (request_of (bearer "valid-key extra") "" None)) "valid-key extra");
      vm_compute; reflexivity.
Defined.

(** ** Token limits and tenants in [RateLimitMiddleware] *)

(** The verdict on a request depends on the store only through its error
    flag and the two counters of the request's tenant. *)
Lemma RateLimitMiddleware_verdict (m1 m2 : MockRateLimitStore) (c : Context) (t : Tenant) :
  ctx_tenant c = Some t ->
  MockErr m1 = MockErr m2 ->
  map_get (RPM m1) (TenantID t) = map_get (RPM m2) (TenantID t) ->
  map_get (TPM m1) (TenantID t) = map_get (TPM m2) (TenantID t) ->
  snd (RateLimitMiddleware m1 c) = snd (RateLimitMiddleware m2 c).
Proof.
  intros Ht He Hr Hp. unfold RateLimitMiddleware. rewrite Ht.
  cbn [IncrementRPM GetTPM MockRateLimitStore_store].
  unfold MockRateLimitStore_IncrementRPM, MockRateLimitStore_GetTPM.
  rewrite <- He. destruct (MockErr m1) as [e|]; [reflexivity|].
  cbn [RPM TPM MockErr]. rewrite !map_get_insert_eq, <- Hr, <- Hp.
  destruct (_ >? RPMLimit t); [reflexivity|].
  destruct (_ >? TPMLimit t); reflexivity.
Qed.

(** A request of one tenant leaves the counters of every other tenant, and
    the error flag, as they were. *)
Lemma RateLimitMiddleware_other (m : MockRateLimitStore) (c : Context) (t : Tenant)
  (other : string) :
  ctx_tenant c = Some t -> TenantID t <> other ->
  MockErr (fst (RateLimitMiddleware m c)) = MockErr m
  /\ map_get (RPM (fst (RateLimitMiddleware m c))) other = map_get (RPM m) other
  /\ map_get (TPM (fst (RateLimitMiddleware m c))) other = map_get (TPM m) other.
Proof.
  intros Ht Hne. unfold RateLimitMiddleware. rewrite Ht.
  cbn [IncrementRPM GetTPM MockRateLimitStore_store].
  unfold MockRateLimitStore_IncrementRPM, MockRateLimitStore_GetTPM.
  destruct (MockErr m) as [e|] eqn:He; [cbn [fst]; by rewrite He|].
  cbn [RPM TPM MockErr].
  assert (Hget : map_get (<[TenantID t := wrap64 (map_get (RPM m) (TenantID t) + 1)]> (RPM m))
                   other = map_get (RPM m) other).
  { unfold map_get. by rewrite lookup_insert_ne. }
  destruct (_ >? RPMLimit t); [cbn [fst RPM TPM MockErr]; by rewrite Hget|].
  destruct (_ >? TPMLimit t); cbn [fst RPM TPM MockErr]; by rewrite Hget.
Qed.

(** X6. The rate limits of one tenant are not touched by another tenant's
    traffic: after any number of requests of tenant A, admitted or not,
    the counters of a tenant B with a different id are as before, and B's
    next request gets the verdict it would have got without them. *)
Theorem rate_limits_isolate_tenants (k : nat) (m : MockRateLimitStore)
  (cA cB : Context) (tA tB : Tenant)
  (HA : ctx_tenant cA = Some tA) (HB : ctx_tenant cB = Some tB)
  (Hids : TenantID tA <> TenantID tB) :
  map_get (RPM (fst (admit_sequence k m cA))) (TenantID tB) = map_get (RPM m) (TenantID tB)
  /\ map_get (TPM (fst (admit_sequence k m cA))) (TenantID tB)
     = map_get (TPM m) (TenantID tB)
  /\ snd (RateLimitMiddleware (fst (admit_sequence k m cA)) cB)
     = snd (RateLimitMiddleware m cB).
Proof.
  assert (Hinv : MockErr (fst (admit_sequence k m cA)) = MockErr m
                 /\ map_get (RPM (fst (admit_sequence k m cA))) (TenantID tB)
                    = map_get (RPM m) (TenantID tB)
                 /\ map_get (TPM (fst (admit_sequence k m cA))) (TenantID tB)
                    = map_get (TPM m) (TenantID tB)).
  { revert m. induction k as [|k IH]; intros m; [by repeat split|].
    cbn [admit_sequence].
    pose proof (RateLimitMiddleware_other m cA tA (TenantID tB) HA Hids) as (He & Hr & Hp).
    destruct (RateLimitMiddleware m cA) as [m1 f]. cbn [fst] in He, Hr, Hp.
    specialize (IH m1). destruct (admit_sequence k m1 cA) as [m2 fs]. cbn [fst] in *.
    destruct IH as (He2 & Hr2 & Hp2). repeat split; congruence. }
  destruct Hinv as (He & Hr & Hp). split; [exact Hr|]. split; [exact Hp|].
  by apply (RateLimitMiddleware_verdict _ _ cB tB).
Qed.

Lemma rate_limits_isolate_tenants_witness :
  snd (admit_sequence 3 NewMockRateLimitStore (request_of ∅ "" (Some tenant_rpm2)))
  = [Next (request_of ∅ "" (Some tenant_rpm2)); Next (request_of ∅ "" (Some tenant_rpm2));
     rpm_rejection tenant_rpm2]
  /\ snd (RateLimitMiddleware
            (fst (admit_sequence 3 NewMockRateLimitStore
                    (request_of ∅ "" (Some tenant_rpm2))))
            (request_of ∅ "" (Some (mkTenant "k2" "t2" "" 2 100 ["*"] true))))
     = Next (request_of ∅ "" (Some (mkTenant "k2" "t2" "" 2 100 ["*"] true))).
Proof.
  split; [vm_compute; reflexivity|].
  rewrite (proj2 (proj2 (rate_limits_isolate_tenants 3 NewMockRateLimitStore
                           (request_of ∅ "" (Some tenant_rpm2))
                           (request_of ∅ "" (Some (mkTenant "k2" "t2" "" 2 100 ["*"] true)))
                           tenant_rpm2 (mkTenant "k2" "t2" "" 2 100 ["*"] true)
                           eq_refl eq_refl ltac:(vm_compute; discriminate)))).
  vm_compute. reflexivity.
Defined.

(** X7. The TPM limit is checked against the tokens of earlier requests
    only: a request is admitted while the counter is within the limit,
    whatever it will cost itself; once its deferred task has added its
    tokens and the counter is above the limit, the tenant's next request is
    rejected with 429, [Retry-After: 60] and the TPM body, and that rejected
    request has still used one unit of the RPM limit. *)
Theorem tpm_checked_before_counted (m : MockRateLimitStore) (c : Context) (t : Tenant)
  (task : Bookkeeping) (requestID : string) (us : MockUsageStore)
  (Hten : ctx_tenant c = Some t) (Herr : MockErr m = None)
  (Htid : bk_tid task = TenantID t)
  (Hrpm : 0 <= map_get (RPM m) (TenantID t))
  (Hroom : map_get (RPM m) (TenantID t) + 2 <= RPMLimit t)
  (Hmax : RPMLimit t <= max_int64)
  (Htpm : 0 <= map_get (TPM m) (TenantID t) <= TPMLimit t)
  (Htok : 0 <= bk_in task /\ 0 <= bk_out task)
  (Hover : TPMLimit t < map_get (TPM m) (TenantID t) + bk_in task + bk_out task
           <= max_int64) :
  snd (RateLimitMiddleware m c) = Next c
  /\ map_get (TPM (fst (fst (run_Bookkeeping requestID task
                                (fst (RateLimitMiddleware m c)) us)))) (TenantID t)
     = map_get (TPM m) (TenantID t) + bk_in task + bk_out task
  /\ snd (RateLimitMiddleware
            (fst (fst (run_Bookkeeping requestID task (fst (RateLimitMiddleware m c)) us)))
            c)
     = tpm_rejection t
  /\ map_get (RPM (fst (RateLimitMiddleware
                          (fst (fst (run_Bookkeeping requestID task
                                       (fst (RateLimitMiddleware m c)) us))) c)))
       (TenantID t)
     = map_get (RPM m) (TenantID t) + 2.
Proof.
  destruct (RateLimitMiddleware_step m c t Hten Herr)
    as (m1 & f & Hstep & Hrpm1 & Htpm1 & He1 & _ & _ & Hnext).
  assert (Hw1 : wrap64 (map_get (RPM m) (TenantID t) + 1)
                = map_get (RPM m) (TenantID t) + 1).
  { apply wrap64_small. unfold min_int64, max_int64 in *. lia. }
  rewrite Hw1 in Hrpm1, Hnext. rewrite Hstep. cbn [fst snd].
  split; [apply Hnext; lia|].
  unfold run_Bookkeeping. cbn [IncrementTPM MockRateLimitStore_store].
  unfold MockRateLimitStore_IncrementTPM. rewrite He1, Htid, Htpm1.
  cbn [fst snd LogUsage MockUsageStore_store logUsageLoop MockUsageStore_LogUsage].
  set (m2 := {| RPM := RPM m1;
                TPM := <[TenantID t := wrap64 (map_get (TPM m) (TenantID t)
                                               + wrap64 (bk_in task + bk_out task))]> (TPM m);
                MockErr := None |}).
  assert (Hw2 : wrap64 (map_get (TPM m) (TenantID t) + wrap64 (bk_in task + bk_out task))
                = map_get (TPM m) (TenantID t) + bk_in task + bk_out task).
  { rewrite (wrap64_small (bk_in task + bk_out task))
      by (unfold min_int64, max_int64 in *; lia).
    rewrite wrap64_small by (unfold min_int64, max_int64 in *; lia). lia. }
  assert (Htpm2 : map_get (TPM m2) (TenantID t)
                  = map_get (TPM m) (TenantID t) + bk_in task + bk_out task).
  { unfold m2. cbn [TPM]. rewrite map_get_insert_eq. exact Hw2. }
  split; [exact Htpm2|].
  unfold RateLimitMiddleware. rewrite Hten. cbn [IncrementRPM GetTPM MockRateLimitStore_store].
  unfold MockRateLimitStore_IncrementRPM, MockRateLimitStore_GetTPM.
  cbn [MockErr m2 RPM TPM]. rewrite !map_get_insert_eq, Hrpm1.
  assert (Hw3 : wrap64 (map_get (RPM m) (TenantID t) + 1 + 1)
                = map_get (RPM m) (TenantID t) + 2).
  { rewrite wrap64_small by (unfold min_int64, max_int64 in *; lia). lia. }
  rewrite Hw3, Hw2.
  destruct (Z.gtb_spec (map_get (RPM m) (TenantID t) + 2) (RPMLimit t)); [lia|].
  destruct (Z.gtb_spec (map_get (TPM m) (TenantID t) + bk_in task + bk_out task)
              (TPMLimit t)); [|lia].
  cbn [fst snd RPM]. split; [reflexivity|]. rewrite map_get_insert_eq. reflexivity.
Qed.

Lemma tpm_checked_before_counted_witness :
  snd (RateLimitMiddleware NewMockRateLimitStore (request_of ∅ "" (Some tenant_any)))
  = Next (request_of ∅ "" (Some tenant_any))
  /\ snd (RateLimitMiddleware
            (fst (fst (run_Bookkeeping "r1" (mkBookkeeping "t1" "gpt-4" 16 500 0)
                         (fst (RateLimitMiddleware NewMockRateLimitStore
                                 (request_of ∅ "" (Some tenant_any))))
                         {| Records := [] |})))
            (request_of ∅ "" (Some tenant_any)))
     = tpm_rejection tenant_any.
Proof.
  assert (H1 : 0 <= map_get (RPM NewMockRateLimitStore) (TenantID tenant_any))
    by (vm_compute; discriminate).
  assert (H2 : map_get (RPM NewMockRateLimitStore) (TenantID tenant_any) + 2
               <= RPMLimit tenant_any) by (vm_compute; discriminate).
  assert (H3 : RPMLimit tenant_any <= max_int64) by (vm_compute; discriminate).
  assert (H4 : 0 <= map_get (TPM NewMockRateLimitStore) (TenantID tenant_any)
               <= TPMLimit tenant_any) by (split; vm_compute; discriminate).
  assert (H5 : 0 <= bk_in (mkBookkeeping "t1" "gpt-4" 16 500 0)
               /\ 0 <= bk_out (mkBookkeeping "t1" "gpt-4" 16 500 0))
    by (split; vm_compute; discriminate).
  assert (H6 : TPMLimit tenant_any
               < map_get (TPM NewMockRateLimitStore) (TenantID tenant_any)
                 + bk_in (mkBookkeeping "t1" "gpt-4" 16 500 0)
                 + bk_out (mkBookkeeping "t1" "gpt-4" 16 500 0) <= max_int64)
    by (split; vm_compute; (reflexivity || discriminate)).
  destruct (tpm_checked_before_counted NewMockRateLimitStore
              (request_of ∅ "" (Some tenant_any)) tenant_any
              (mkBookkeeping "t1" "gpt-4" 16 500 0) "r1" {| Records := [] |}
              eq_refl eq_refl eq_refl H1 H2 H3 H4 H5 H6)
    as (Hadm & _ & Hrej & _).
  split; [exact Hadm|exact Hrej].
Defined.

(** ** The tenant cache of the DynamoDB store *)

(** X8. A tenant fetched from DynamoDB at time [now] is cached until
    [now + 60 min], with its defaults applied.  Until then every lookup of
    its key returns that same tenant without asking DynamoDB: whatever the
    table holds by then (the tenant replaced through [CreateTenant],
    deactivated or deleted) and whether or not DynamoDB can be reached. *)
Theorem tenant_cache_serves_for_an_hour (s s1 : DynamoDBTenantStore) (now : Z)
  (key : string) (t : Tenant)
  (Hmiss : cache s !! key = None)
  (Hget : DynamoDBTenantStore_GetTenant s now key = (s1, Ok (Some t))) :
  cache s1 !! key = Some (mkCachedTenant t (now + 60 * minute_ns))
  /\ RPMLimit t <> 0 /\ TPMLimit t <> 0
  /\ (forall (s2 : DynamoDBTenantStore) (now2 : Z),
        cache s2 !! key = cache s1 !! key -> now2 < now + 60 * minute_ns ->
        DynamoDBTenantStore_GetTenant s2 now2 key = (s2, Ok (Some t)))
  /\ (forall (t' : Tenant) (now2 : Z),
        APIKey t' = key -> now2 < now + 60 * minute_ns ->
        snd (DynamoDBTenantStore_GetTenant
               (fst (DynamoDBTenantStore_CreateTenant s1 t')) now2 key) = Ok (Some t)).
Proof.
  unfold DynamoDBTenantStore_GetTenant in Hget. rewrite Hmiss in Hget.
  destruct (client_err s) as [e|]; [discriminate|].
  destruct (table s !! key) as [[e|tenant]|]; try discriminate.
  destruct (negb (IsActive tenant)); [discriminate|].
  cbv zeta in Hget. injection Hget as Hs Ht. subst s1. cbn [cache].
  assert (Hentry : forall m : gmap string cachedTenant,
            <[key := {| ct_tenant := t; expiresAt := now + 60 * minute_ns |}]> m !! key
            = Some (mkCachedTenant t (now + 60 * minute_ns)))
    by (intros m; apply lookup_insert_eq).
  rewrite Ht.
  assert (Hc : forall (d : DynamoDBTenantStore) (now2 : Z),
            cache d !! key = Some (mkCachedTenant t (now + 60 * minute_ns)) ->
            now2 < now + 60 * minute_ns ->
            DynamoDBTenantStore_GetTenant d now2 key = (d, Ok (Some t))).
  { intros d now2 Hd Hlt. unfold DynamoDBTenantStore_GetTenant. rewrite Hd.
    cbn [expiresAt ct_tenant].
    replace (now2 <? now + 60 * minute_ns) with true by (symmetry; apply Z.ltb_lt; lia).
    reflexivity. }
  split; [apply Hentry|]. split; [|split; [|split]].
  - rewrite <- Ht. clear. destruct (Z.eqb_spec (RPMLimit tenant) 0) as [Hz|Hnz].
    + destruct (Z.eqb_spec (TPMLimit (set_RPMLimit tenant 100)) 0); cbn; done.
    + destruct (Z.eqb_spec (TPMLimit tenant) 0); cbn; done.
  - rewrite <- Ht. clear. destruct (Z.eqb_spec (RPMLimit tenant) 0) as [Hz|Hnz].
    + destruct (Z.eqb_spec (TPMLimit (set_RPMLimit tenant 100)) 0); cbn in *; done.
    + destruct (Z.eqb_spec (TPMLimit tenant) 0); cbn in *; done.
  - intros s2 now2 Hsame Hlt. apply Hc; [|exact Hlt]. rewrite Hsame. apply Hentry.
  - intros t' now2 Hkey Hlt. unfold DynamoDBTenantStore_CreateTenant. cbn [client_err].
    rewrite Hc; [reflexivity| |exact Hlt].
    cbn [fst cache]. apply Hentry.
Qed.

Lemma tenant_cache_serves_for_an_hour_witness :
  exists s1 t,
    DynamoDBTenantStore_GetTenant test_table 0 "valid-key" = (s1, Ok (Some t))
    /\ RPMLimit t = 100
    /\ snd (DynamoDBTenantStore_GetTenant
              {| client_err := Some (errorString "timeout"); table := ∅; cache := cache s1 |}
              (59 * minute_ns) "valid-key") = Ok (Some t).
Proof.
  eexists. eexists. split; [vm_compute; reflexivity|]. split; [reflexivity|].
  match goal with |- snd (DynamoDBTenantStore_GetTenant ?s2 ?n2 _) = Ok (Some ?t) =>
    rewrite (proj1 (proj2 (proj2 (proj2
               (tenant_cache_serves_for_an_hour test_table _ 0 "valid-key" t
                  eq_refl ltac:(vm_compute; reflexivity))))) s2 n2)
  end; [reflexivity|reflexivity|vm_compute; reflexivity].
Defined.

(** X9. A lookup that does not return a tenant (DynamoDB unreachable, no
    item, an item that does not decode, an inactive tenant) leaves the
    store as it was: failures are not cached.  A cached entry is used
    strictly before its expiry only; from the expiry instant on the table
    decides again, so a tenant deactivated meanwhile is refused. *)
Theorem tenant_lookup_failures_not_cached (s : DynamoDBTenantStore) (now : Z)
  (key : string) :
  ((forall t, snd (DynamoDBTenantStore_GetTenant s now key) <> Ok (Some t)) ->
   fst (DynamoDBTenantStore_GetTenant s now key) = s)
  /\ (forall (entry : cachedTenant) (t : Tenant),
        cache s !! key = Some entry -> expiresAt entry <= now ->
        client_err s = None -> table s !! key = Some (ItemTenant t) ->
        IsActive t = false ->
        DynamoDBTenantStore_GetTenant s now key
        = (s, Err (errorString "tenant is not active")))
  /\ (forall entry : cachedTenant,
        cache s !! key = Some entry -> expiresAt entry <= now ->
        client_err s = None -> table s !! key = None ->
        DynamoDBTenantStore_GetTenant s now key = (s, Ok None)).
Proof.
  split; [|split].
  - intros Hnone. unfold DynamoDBTenantStore_GetTenant in *.
    destruct (match cache s !! key with
              | Some entry => if now <? expiresAt entry then Some (ct_tenant entry) else None
              | None => None
              end) as [t|]; [reflexivity|].
    destruct (client_err s) as [e|]; [reflexivity|].
    destruct (table s !! key) as [[e|tenant]|]; try reflexivity.
    destruct (negb (IsActive tenant)); [reflexivity|].
    exfalso. eapply Hnone. reflexivity.
  - intros entry t Hc Hexp He Ht Hin. unfold DynamoDBTenantStore_GetTenant.
    rewrite Hc, He, Ht, Hin.
    replace (now <? expiresAt entry) with false by (symmetry; apply Z.ltb_ge; lia).
    reflexivity.
  - intros entry Hc Hexp He Ht. unfold DynamoDBTenantStore_GetTenant.
    rewrite Hc, He, Ht.
    replace (now <? expiresAt entry) with false by (symmetry; apply Z.ltb_ge; lia).
    reflexivity.
Qed.

Lemma tenant_lookup_failures_not_cached_witness :
  DynamoDBTenantStore_GetTenant test_table 0 "inactive-key"
  = (test_table, Err (errorString "tenant is not active"))
  /\ fst (DynamoDBTenantStore_GetTenant test_table 0 "no-such-key") = test_table.
Proof.
  split; [vm_compute; reflexivity|].
  apply (proj1 (tenant_lookup_failures_not_cached test_table 0 "no-such-key")).
  intros t. vm_compute. discriminate.
Defined.

(** ** Replies made before the retry loop *)

(** A reply of the handler's own, made before anything is sent. *)
Lemma CreateCompletion_intake_reply (E : Runtime) {MS : Type} `{ModelStore MS}
  (h : Handler MS) (start : Z) (c : Context) (r : Reply) :
  intake E h c = inl r ->
  CreateCompletion E h start c = Returned (mkOutcome r h [] None).
Proof. intros Hin. unfold CreateCompletion. rewrite Hin. reflexivity. Qed.

(** X10. The request is validated before the tenant's model list and the
    model store are looked at: a body of more than 10 MiB is answered 413,
    a body that does not decode 400, and more than 50 messages 400,
    whoever the tenant is and whatever the stores hold; nothing is sent
    upstream and the handler is unchanged.  A body of exactly 10 MiB and a
    conversation of exactly 50 messages pass. *)
Theorem request_validation_bounds (E : Runtime) {MS : Type} `{ModelStore MS}
  (h : Handler MS) (start : Z) (c : Context) (t : Tenant) (b : string)
  (Hten : ctx_tenant c = Some t) (Hbody : Body (ctx_Request c) = BodyBytes b) :
  (len b > 10 * 1024 * 1024 ->
   CreateCompletion E h start c
   = Returned (mkOutcome
                 (json_reply 413 {[ "error" := JString "Request body too large (limit: 10MB)" ]})
                 h [] None))
  /\ (len b <= 10 * 1024 * 1024 -> json_Unmarshal_ChatRequest E b = None ->
      CreateCompletion E h start c
      = Returned (mkOutcome (json_reply 400 {[ "error" := JString "Invalid JSON body" ]})
                    h [] None))
  /\ (forall chatReq : ChatRequest,
        len b <= 10 * 1024 * 1024 -> json_Unmarshal_ChatRequest E b = Some chatReq ->
        (List.length (req_Messages chatReq) > 50)%nat ->
        CreateCompletion E h start c
        = Returned (mkOutcome
                      (json_reply 400
                         {[ "error" := JString "Too many messages in conversation (max: 50)" ]})
                      h [] None))
  /\ (forall (chatReq : ChatRequest) (m : Model),
        len b <= 10 * 1024 * 1024 -> json_Unmarshal_ChatRequest E b = Some chatReq ->
        (List.length (req_Messages chatReq) <= 50)%nat ->
        model_allowed (AllowedModels t) (req_Model chatReq) = true ->
        GetModel (modelStore h) (req_Model chatReq) = Ok (Some m) -> BaseURLs m <> [] ->
        intake E h c = inr (mkIntake t b chatReq m)).
Proof.
  assert (Hbig : len b > 10 * 1024 * 1024 ->
                 ReadAll_limited (Body (ctx_Request c))
                 = Err (errorString "http: request body too large")).
  { intros Hgt. rewrite Hbody. cbn [ReadAll_limited].
    destruct (Z.gtb_spec (len b) (10 * 1024 * 1024)); [reflexivity|lia]. }
  assert (Hok : len b <= 10 * 1024 * 1024 -> ReadAll_limited (Body (ctx_Request c)) = Ok b).
  { intros Hle. rewrite Hbody. cbn [ReadAll_limited].
    destruct (Z.gtb_spec (len b) (10 * 1024 * 1024)); [lia|reflexivity]. }
  split; [|split; [|split]].
  - intros Hgt. apply CreateCompletion_intake_reply. unfold intake.
    rewrite Hten, (Hbig Hgt). reflexivity.
  - intros Hle Hj. apply CreateCompletion_intake_reply. unfold intake.
    rewrite Hten, (Hok Hle), Hj. reflexivity.
  - intros chatReq Hle Hj Hn. apply CreateCompletion_intake_reply. unfold intake.
    rewrite Hten, (Hok Hle), Hj.
    destruct (Z.gtb_spec (Z.of_nat (List.length (req_Messages chatReq))) 50); [reflexivity|lia].
  - intros chatReq m Hle Hj Hn Hal Hm Hurls. unfold intake.
    rewrite Hten, (Hok Hle), Hj, Hal, Hm.
    destruct (Z.gtb_spec (Z.of_nat (List.length (req_Messages chatReq))) 50); [lia|].
    cbn [negb]. destruct (BaseURLs m) as [|u us]; [done|]. reflexivity.
Qed.

Lemma request_validation_bounds_witness :
  intake (test_runtime false unreachable) (NewHandler test_models 0)
    (request_of ∅ chat_body (Some tenant_any))
  = inr (chat_intake false).
Proof.
  refine (proj2 (proj2 (proj2 (request_validation_bounds (test_runtime false unreachable)
            (NewHandler test_models 0) 0 (request_of ∅ chat_body (Some tenant_any))
            tenant_any chat_body eq_refl eq_refl)))
            (chat_request false) (mkModel "gpt-4" "" ["http://a"; "http://b"] "")
            _ _ _ _ _ _); vm_compute; (reflexivity || discriminate || lia).
Defined.

(** X11. A model that the store does not hold is reported differently by
    the two stores: the DynamoDB store returns no model and no error, and
    the caller gets 404; the mock store of the tests returns an error, and
    the caller gets 500.  A DynamoDB failure gives 500 too.  In each case
    nothing is sent upstream. *)
Theorem missing_model_reply (E : Runtime) (start : Z) (c : Context) (t : Tenant)
  (b : string) (chatReq : ChatRequest)
  (Hten : ctx_tenant c = Some t)
  (Hbody : ReadAll_limited (Body (ctx_Request c)) = Ok b)
  (Hjson : json_Unmarshal_ChatRequest E b = Some chatReq)
  (Hmsgs : Z.of_nat (List.length (req_Messages chatReq)) <= 50)
  (Hallowed : model_allowed (AllowedModels t) (req_Model chatReq) = true) :
  (forall h : Handler DynamoDBModelStore,
     model_client_err (modelStore h) = None ->
     model_table (modelStore h) !! req_Model chatReq = None ->
     CreateCompletion E h start c
     = Returned (mkOutcome
                   (json_reply 404 {[ "error" := JString "Model configuration not found" ]})
                   h [] None))
  /\ (forall h : Handler MockModelStore,
        Models (modelStore h) !! req_Model chatReq = None ->
        CreateCompletion E h start c
        = Returned (mkOutcome
                      (json_reply 500 {[ "error" := JString "Failed to resolve model config" ]})
                      h [] None))
  /\ (forall (h : Handler DynamoDBModelStore) (e : error),
        model_client_err (modelStore h) = Some e ->
        CreateCompletion E h start c
        = Returned (mkOutcome
                      (json_reply 500 {[ "error" := JString "Failed to resolve model config" ]})
                      h [] None)).
Proof.
  assert (Hgt : (Z.of_nat (List.length (req_Messages chatReq)) >? 50) = false).
  { destruct (Z.gtb_spec (Z.of_nat (List.length (req_Messages chatReq))) 50); [lia|done]. }
  split; [|split].
  - intros h He Hm. apply CreateCompletion_intake_reply. unfold intake.
    rewrite Hten, Hbody, Hjson, Hgt, Hallowed. cbn [negb GetModel DynamoDBModelStore_store].
    unfold DynamoDBModelStore_GetModel. rewrite He, Hm. reflexivity.
  - intros h Hm. apply CreateCompletion_intake_reply. unfold intake.
    rewrite Hten, Hbody, Hjson, Hgt, Hallowed. cbn [negb GetModel MockModelStore_store].
    unfold MockModelStore_GetModel. rewrite Hm. reflexivity.
  - intros h e He. apply CreateCompletion_intake_reply. unfold intake.
    rewrite Hten, Hbody, Hjson, Hgt, Hallowed. cbn [negb GetModel DynamoDBModelStore_store].
    unfold DynamoDBModelStore_GetModel. rewrite He. reflexivity.
Qed.

Lemma missing_model_reply_witness :
  match CreateCompletion (test_runtime false unreachable)
          (NewHandler {| model_client_err := None; model_table := ∅ |} 0) 0
          (request_of ∅ chat_body (Some tenant_any)),
        CreateCompletion (test_runtime false unreachable)
          (NewHandler {| Models := ∅ |} 0) 0
          (request_of ∅ chat_body (Some tenant_any)) with
  | Returned o1, Returned o2 =>
      reply_status (out_reply o1) = 404 /\ reply_status (out_reply o2) = 500
  | _, _ => False
  end.
Proof.
  destruct (missing_model_reply (test_runtime false unreachable) 0
              (request_of ∅ chat_body (Some tenant_any)) tenant_any chat_body
              (chat_request false) eq_refl eq_refl eq_refl
              ltac:(vm_compute; discriminate) eq_refl) as (Hd & Hm & _).
  rewrite (Hd (NewHandler {| model_client_err := None; model_table := ∅ |} 0) eq_refl)
    by apply lookup_empty.
  rewrite (Hm (NewHandler {| Models := ∅ |} 0)) by apply lookup_empty.
  split; reflexivity.
Defined.

(** ** Relaying a stream *)

Lemma Split_app_sep (sep : ascii) (l rest : string) :
  has_byte l sep = false ->
  strings_Split (l +:+ String sep rest) sep = l :: strings_Split rest sep.
Proof.
  unfold has_byte. induction l as [|c l IH]; cbn [list_ascii_of_string existsb].
  - intros _. change ("" +:+ String sep rest) with (String sep rest).
    cbn [strings_Split]. by rewrite Ascii.eqb_refl.
  - intros [Hc Hl]%orb_false_elim.
    change (String c l +:+ String sep rest) with (String c (l +:+ String sep rest)).
    cbn [strings_Split]. rewrite Hc, (IH Hl). reflexivity.
Qed.

Lemma dropCR_plain (l : string) : ends_with_CR l = false -> dropCR l = l.
Proof.
  induction l as [|c l IH]; [reflexivity|].
  cbn [ends_with_CR dropCR]. destruct l as [|c' l'].
  - intros ->. reflexivity.
  - intros Hl. by rewrite (IH Hl).
Qed.

Lemma scan_lines_forwarded (lines : list string) :
  forallb plain_line lines = true -> scan_lines (forwarded_bytes lines) = lines.
Proof.
  unfold scan_lines. intros Hplain.
  assert (Hsplit : strings_Split (forwarded_bytes lines) "010"%char = (lines ++ [""])%list).
  { induction lines as [|l r IH]; [reflexivity|].
    cbn [forallb] in Hplain. apply andb_prop in Hplain as [Hl Hr].
    unfold plain_line in Hl. apply andb_prop in Hl as [[Hnl _]%andb_prop _].
    apply negb_true_iff in Hnl.
    cbn [forwarded_bytes]. unfold LF.
    rewrite string_append_assoc.
    change (String "010" "" +:+ forwarded_bytes r) with (String "010" (forwarded_bytes r)).
    rewrite (Split_app_sep _ _ _ Hnl), (IH Hr). reflexivity. }
  rewrite Hsplit. clear Hsplit.
  induction lines as [|l r IH]; [reflexivity|].
  cbn [forallb] in Hplain. apply andb_prop in Hplain as [Hl Hr].
  unfold plain_line in Hl. apply andb_prop in Hl as [[_ Hcr]%andb_prop Hlen].
  apply negb_true_iff in Hcr. apply Z.ltb_lt in Hlen.
  change ((l :: r) ++ [""])%list with (l :: (r ++ [""]))%list.
  assert (Hstep : scan_tokens (l :: (r ++ [""])%list) = dropCR l :: scan_tokens (r ++ [""])%list).
  { destruct (r ++ [""])%list as [|x xs] eqn:Hr'; [by destruct r|].
    cbn [scan_tokens].
    destruct (Z.geb_spec (len l) MaxScanTokenSize); [lia|reflexivity]. }
  rewrite Hstep, (dropCR_plain l Hcr), (IH Hr). reflexivity.
Qed.

(** X12. A streamed body made of lines that end in a newline, hold no
    carriage return before it and are shorter than 64 KiB reaches the
    client byte for byte; a line that ends in CR LF does not: the client
    gets it with LF alone. *)
Theorem stream_relay_transparent (E : Runtime) (lines : list string) (arrival : nat -> Z)
  (tid model : string) (start : Z) :
  (forallb plain_line lines = true ->
   written_bytes (snd (streamResponse E (forwarded_bytes lines) arrival tid model start))
   = forwarded_bytes lines)
  /\ (forall l : string,
        plain_line l = true -> len l + 1 < MaxScanTokenSize ->
        written_bytes (snd (streamResponse E ((l +:+ String CR "") +:+ LF) arrival tid model
                              start))
        = l +:+ LF).
Proof.
  split.
  - intros Hplain. rewrite streamResponse_forwards, (scan_lines_forwarded lines Hplain).
    reflexivity.
  - intros l Hl Hshort. rewrite streamResponse_forwards.
    unfold plain_line in Hl. apply andb_prop in Hl as [[Hnl Hcr]%andb_prop Hlen].
    apply negb_true_iff in Hnl, Hcr. apply Z.ltb_lt in Hlen.
    assert (Hnl' : has_byte (l +:+ String CR "") "010"%char = false).
    { clear Hcr Hlen Hshort. unfold has_byte in *. induction l as [|c l IH]; [reflexivity|].
      change (String c l +:+ String CR "") with (String c (l +:+ String CR "")).
      cbn [list_ascii_of_string existsb] in *.
      apply orb_false_elim in Hnl as [-> Hl]. by rewrite (IH Hl). }
    assert (Hdrop : dropCR (l +:+ String CR "") = l).
    { clear. induction l as [|c l IH]; [reflexivity|].
      change (String c l +:+ String CR "") with (String c (l +:+ String CR "")).
      cbn [dropCR]. rewrite IH.
      destruct l; reflexivity. }
    assert (Hlen' : len (l +:+ String CR "") = len l + 1).
    { clear. unfold len. induction l as [|c l IH]; [reflexivity|].
      change (String c l +:+ String CR "") with (String c (l +:+ String CR "")).
      cbn [String.length]. lia. }
    unfold scan_lines, LF.
    rewrite (Split_app_sep _ _ _ Hnl'). cbn [strings_Split scan_tokens].
    destruct (Z.geb_spec (len (l +:+ String CR "")) MaxScanTokenSize) as [Hge|_].
    + lia.
    + rewrite Hdrop. cbn [forwarded_bytes]. apply string_append_nil_r.
Qed.

Lemma stream_relay_transparent_witness :
  written_bytes (snd (streamResponse (test_runtime true unreachable) sse_body (fun _ => 0)
                        "t1" "gpt-4" 0)) = sse_body.
Proof.
  assert (Hbody : sse_body
                  = forwarded_bytes ["data: " +:+ chunk_hello; ""; "data: " +:+ chunk_world;
                                     ""; "data: [DONE]"; ""]) by (vm_compute; reflexivity).
  rewrite Hbody.
  apply (proj1 (stream_relay_transparent (test_runtime true unreachable)
                  ["data: " +:+ chunk_hello; ""; "data: " +:+ chunk_world; "";
                   "data: [DONE]"; ""] (fun _ => 0) "t1" "gpt-4" 0)).
  vm_compute. reflexivity.
Defined.

(** ** The server's routes *)

Lemma route_handlers_main (route : Route) :
  route_handlers main_engine route
  = ([H_Logger; H_Recovery; H_Otel; H_Metrics; H_Auth; H_RateLimit]
     ++ match route with
        | RouteAdminTenants => [H_AdminAuth; H_CreateTenant]
        | RouteChatCompletions => [H_CreateCompletion]
        | RouteHealth => [H_Health]
        | RouteMetrics => [H_PromHandler]
        end)%list.
Proof. destruct route; reflexivity. Qed.

(** [AuthMiddleware] aborts with 401 only. *)
Lemma AuthMiddleware_abort_status {S : Type} `{TenantStore S} (tenantStore : S) (now : Z)
  (c : Context) (st : S) (status : Z) (header : gmap string string)
  (body : gmap string JValue) :
  AuthMiddleware tenantStore now c = (st, Abort status header body) -> status = 401.
Proof.
  unfold AuthMiddleware. destruct (String.eqb _ ""); [by intros [= _ <- _ _]|].
  destruct (_ || _); [by intros [= _ <- _ _]|].
  destruct (GetTenant tenantStore now _) as [st' [[t|]|e]]; [discriminate| |];
    by intros [= _ <- _ _].
Qed.

(** X13. Every route of the server, the admin route, the health check and
    the metrics page included, runs [AuthMiddleware] first: a request
    without an accepted tenant key is answered 401 by it on every route,
    the route's handler is not run, no rate-limit counter moves, nothing
    is sent upstream, and the request is counted under the tenant and model
    labels [unknown]. *)
Theorem every_route_requires_a_tenant_key (E : Runtime) (B : Binder) {TS RL MS : Type}
  `{TenantStore TS} `{TenantCreator TS} `{RateLimitStore RL} `{ModelStore MS}
  (now start : Z) (srv : Server TS RL MS) (route : Route) (req : Request)
  (ts : TS) (status : Z) (header : gmap string string) (body : gmap string JValue)
  (Hauth : AuthMiddleware (srv_tenantStore srv) now (mkContext req None None)
           = (ts, Abort status header body)) :
  status = 401
  /\ ServeHTTP E B now start srv route req
     = mkServed (mkServer ts (srv_rlStore srv) (srv_proxyHandler srv) (srv_adminKey srv))
         (mkHTTPResponse 401 header (RespJSON body)) (mkContext req None None) []
         [mkMetricLabels (Method req) "401" "unknown" "unknown"] false.
Proof.
  pose proof (AuthMiddleware_abort_status _ _ _ _ _ _ _ Hauth) as ->.
  split; [reflexivity|].
  unfold ServeHTTP. rewrite route_handlers_main.
  cbn [app run_chain]. rewrite Hauth. reflexivity.
Qed.

Lemma every_route_requires_a_tenant_key_witness :
  http_status
    (sv_response
       (ServeHTTP (test_runtime false unreachable)
          (mkBinder (fun _ => Ok (mkCreateTenantRequest "t1" "first" "key-1" 0 0 []))
             (fun _ => errorString "invalid"))
          0 0
          (mkServer NewMockTenantStore NewMockRateLimitStore (NewHandler test_models 0)
             "admin-secret")
          RouteAdminTenants
          (mkRequest "POST"
             (<[ "X-Admin-Key" := ["admin-secret"] ]> (bearer "key-1"))
             (BodyBytes "{}"))))
  = 401
  /\ http_status
       (sv_response
          (ServeHTTP (test_runtime false unreachable)
             (mkBinder (fun _ => Ok (mkCreateTenantRequest "t1" "first" "key-1" 0 0 []))
                (fun _ => errorString "invalid"))
             0 0
             (mkServer NewMockTenantStore NewMockRateLimitStore (NewHandler test_models 0)
                "admin-secret")
             RouteHealth (mkRequest "GET" ∅ (BodyBytes ""))))
     = 401.
Proof.
  split.
  - assert (Hauth : AuthMiddleware NewMockTenantStore 0
                      (mkContext
                         (mkRequest "POST"
                            (<[ "X-Admin-Key" := ["admin-secret"] ]> (bearer "key-1"))
                            (BodyBytes "{}")) None None)
                    = (NewMockTenantStore,
                       Abort 401 ∅ {[ "error" := JString "Invalid API Key" ]}))
      by (vm_compute; reflexivity).
    rewrite (proj2 (every_route_requires_a_tenant_key (test_runtime false unreachable)
                      (mkBinder (fun _ => Ok (mkCreateTenantRequest "t1" "first" "key-1" 0 0 []))
                         (fun _ => errorString "invalid"))
                      0 0
                      (mkServer NewMockTenantStore NewMockRateLimitStore
                         (NewHandler test_models 0) "admin-secret")
                      RouteAdminTenants _ _ _ _ _ Hauth)).
    reflexivity.
  - assert (Hauth : AuthMiddleware NewMockTenantStore 0
                      (mkContext (mkRequest "GET" ∅ (BodyBytes "")) None None)
                    = (NewMockTenantStore,
                       Abort 401 ∅ {[ "error" := JString "Missing Authorization header" ]}))
      by (vm_compute; reflexivity).
    rewrite (proj2 (every_route_requires_a_tenant_key (test_runtime false unreachable)
                      (mkBinder (fun _ => Ok (mkCreateTenantRequest "t1" "first" "key-1" 0 0 []))
                         (fun _ => errorString "invalid"))
                      0 0
                      (mkServer NewMockTenantStore NewMockRateLimitStore
                         (NewHandler test_models 0) "admin-secret")
                      RouteHealth _ _ _ _ _ Hauth)).
    reflexivity.
Defined.

Lemma AuthMiddleware_accepts {S : Type} `{TenantStore S} (tenantStore st : S) (now : Z)
  (c : Context) (key : string) (tenant : Tenant) :
  GetHeader c "Authorization" = "Bearer " +:+ key ->
  has_byte key " "%char = false ->
  GetTenant tenantStore now key = (st, Ok (Some tenant)) ->
  AuthMiddleware tenantStore now c = (st, Next (set_tenant c tenant)).
Proof.
  intros Hh Hk Hget. unfold AuthMiddleware. rewrite Hh, (Split_bearer key Hk).
  change (String.eqb ("Bearer " +:+ key) "") with false.
  cbn [List.length nth Z.of_nat Pos.of_succ_nat Pos.succ Z.eqb Pos.eqb negb orb].
  change (String.eqb "Bearer" "Bearer") with true. cbn [negb].
  rewrite Hget. reflexivity.
Qed.

(** With the mock store, a request that gets through carries an active
    tenant of the store, and the store is as before. *)
Lemma AuthMiddleware_mock_next (m st : MockTenantStore) (now : Z) (c c' : Context) :
  AuthMiddleware m now c = (st, Next c') ->
  st = m /\ exists (key : string) (t0 : Tenant),
              Tenants m !! key = Some t0 /\ IsActive t0 = true /\ c' = set_tenant c t0.
Proof.
  unfold AuthMiddleware. destruct (String.eqb _ ""); [discriminate|].
  destruct (_ || _); [discriminate|].
  cbn [GetTenant MockTenantStore_store]. unfold MockTenantStore_GetTenant.
  destruct (Tenants m !! _) as [t0|] eqn:Hlook; [|discriminate].
  destruct (IsActive t0) eqn:Hact; cbn [negb]; [|discriminate].
  intros [= <- <-]. split; [reflexivity|]. eexists. exists t0. by repeat split.
Qed.

Lemma RateLimitMiddleware_flow {S : Type} `{RateLimitStore S} (rlStore st : S)
  (c : Context) (flow : Flow) :
  RateLimitMiddleware rlStore c = (st, flow) ->
  match flow with
  | Abort status _ _ => status = 500 \/ status = 429
  | Next c' => c' = c
  end.
Proof.
  unfold RateLimitMiddleware. destruct (ctx_tenant c) as [t|]; [|intros [= _ <-]; by left].
  destruct (IncrementRPM rlStore _) as [st1 [rpm|e]]; [|intros [= _ <-]; by left].
  destruct (_ >? RPMLimit t); [intros [= _ <-]; by right|].
  destruct (GetTPM st1 _) as [st2 [tpm|e]]; [|intros [= _ <-]; by left].
  destruct (_ >? TPMLimit t); intros [= _ <-]; [by right|reflexivity].
Qed.

(** The chain of the admin route, stage by stage. *)
Lemma ServeHTTP_admin_created (E : Runtime) (B : Binder) {RL MS : Type}
  `{RateLimitStore RL} `{ModelStore MS} (now start : Z)
  (srv : Server MockTenantStore RL MS) (req : Request) :
  http_status (sv_response (ServeHTTP E B now start srv RouteAdminTenants req)) = 201 ->
  exists (creq : CreateTenantRequest) (key : string) (t0 : Tenant),
    ShouldBindJSON B (Body req) = Ok creq
    /\ Tenants (srv_tenantStore srv) !! key = Some t0 /\ IsActive t0 = true
    /\ GetHeader (mkContext req None None) "X-Admin-Key" = srv_adminKey srv
    /\ sv_response (ServeHTTP E B now start srv RouteAdminTenants req)
       = mkHTTPResponse 201 ∅ (RespTenant (CreateTenant_tenant creq))
    /\ srv_tenantStore (sv_server (ServeHTTP E B now start srv RouteAdminTenants req))
       = MockTenantStore_CreateTenant (srv_tenantStore srv) (CreateTenant_tenant creq).
Proof.
  unfold ServeHTTP. rewrite route_handlers_main. cbn [app run_chain].
  destruct (AuthMiddleware (srv_tenantStore srv) now (mkContext req None None))
    as [ts [status header body|c1]] eqn:Hauth.
  { apply AuthMiddleware_abort_status in Hauth as ->. cbn. discriminate. }
  apply AuthMiddleware_mock_next in Hauth as (-> & key & t0 & Hlook & Hact & ->).
  cbn [srv_rlStore srv_tenantStore srv_proxyHandler srv_adminKey].
  destruct (RateLimitMiddleware (srv_rlStore srv) _) as [rl flow] eqn:Hrl.
  apply RateLimitMiddleware_flow in Hrl.
  destruct flow as [status header body|c2].
  { cbn. destruct Hrl as [-> | ->]; discriminate. }
  subst c2. cbn [srv_rlStore srv_tenantStore srv_proxyHandler srv_adminKey].
  unfold AdminHandler_AuthMiddleware, NewAdminHandler. cbn [admin_apiKey].
  change (GetHeader (set_tenant (mkContext req None None) t0) "X-Admin-Key")
    with (GetHeader (mkContext req None None) "X-Admin-Key").
  destruct (String.eqb_spec (GetHeader (mkContext req None None) "X-Admin-Key")
              (srv_adminKey srv)) as [Hkey|Hkey]; cbn [negb]; [|cbn; discriminate].
  unfold AdminHandler_CreateTenant. cbn [ctx_Request set_tenant admin_tenantStore].
  destruct (ShouldBindJSON B (Body req)) as [creq|e] eqn:Hbind; [|cbn; discriminate].
  cbn [CreateTenant MockTenantStore_creator].
  cbn [sv_panicking sv_response sv_server admin_response srv_tenantStore admin_tenantStore
       http_status].
  intros _. exists creq, key, t0. by repeat split.
Qed.

(** X14. When the admin route answers 201, the request carried the admin
    key and the key of an active tenant that existed already; the tenant in
    the response is active, has a key, a name, an id, non-zero limits and a
    non-empty model list; it is stored under its API key; and a later
    request with [Authorization: Bearer <that key>] passes [AuthMiddleware]
    as this tenant, provided the key holds no space. *)
Theorem admin_created_tenant_can_authenticate (E : Runtime) (B : Binder) {RL MS : Type}
  `{RateLimitStore RL} `{ModelStore MS} (now start : Z)
  (srv : Server MockTenantStore RL MS) (req : Request)
  (Hcreated : http_status (sv_response (ServeHTTP E B now start srv RouteAdminTenants req))
              = 201) :
  exists t : Tenant,
    sv_response (ServeHTTP E B now start srv RouteAdminTenants req)
    = mkHTTPResponse 201 ∅ (RespTenant t)
    /\ IsActive t = true /\ APIKey t <> "" /\ TenantID t <> "" /\ Name t <> ""
    /\ RPMLimit t <> 0 /\ TPMLimit t <> 0 /\ AllowedModels t <> []
    /\ GetHeader (mkContext req None None) "X-Admin-Key" = srv_adminKey srv
    /\ (exists (key : string) (t0 : Tenant),
          Tenants (srv_tenantStore srv) !! key = Some t0 /\ IsActive t0 = true)
    /\ Tenants (srv_tenantStore (sv_server (ServeHTTP E B now start srv RouteAdminTenants req)))
       = <[APIKey t := t]> (Tenants (srv_tenantStore srv))
    /\ (has_byte (APIKey t) " "%char = false ->
        forall (now' : Z) (c : Context),
          GetHeader c "Authorization" = "Bearer " +:+ APIKey t ->
          snd (AuthMiddleware
                 (srv_tenantStore (sv_server (ServeHTTP E B now start srv RouteAdminTenants
                                                req))) now' c)
          = Next (set_tenant c t)).
Proof.
  destruct (ServeHTTP_admin_created E B now start srv req Hcreated)
    as (creq & key & t0 & Hbind & Hlook & Hact & Hadmin & Hresp & Hstore).
  exists (CreateTenant_tenant creq). split; [exact Hresp|].
  assert (Hreq : ctr_TenantID creq <> "" /\ ctr_Name creq <> "" /\ ctr_APIKey creq <> "").
  { unfold ShouldBindJSON in Hbind. destruct (Body req) as [b|e]; [|discriminate].
    destruct (json_Decode_CreateTenantRequest B b) as [r|e]; [|discriminate].
    destruct (String.eqb_spec (ctr_TenantID r) ""), (String.eqb_spec (ctr_Name r) ""),
      (String.eqb_spec (ctr_APIKey r) ""); cbn [orb] in Hbind; try discriminate.
    injection Hbind as <-. done. }
  destruct Hreq as (Hid & Hname & Hkey).
  split; [reflexivity|]. split; [exact Hkey|]. split; [exact Hid|]. split; [exact Hname|].
  split; [cbn; destruct (Z.eqb_spec (ctr_RPMLimit creq) 0); [done|assumption]|].
  split; [cbn; destruct (Z.eqb_spec (ctr_TPMLimit creq) 0); [done|assumption]|].
  split.
  { cbn. destruct (ctr_AllowedModels creq) as [|a l]; cbn; done. }
  split; [exact Hadmin|]. split; [by exists key, t0|].
  rewrite Hstore. split; [reflexivity|].
  intros Hnospace now' c Hh.
  rewrite (AuthMiddleware_accepts _
             (MockTenantStore_CreateTenant (srv_tenantStore srv) (CreateTenant_tenant creq))
             now' c (APIKey (CreateTenant_tenant creq)) (CreateTenant_tenant creq) Hh Hnospace);
    [reflexivity|].
  cbn [GetTenant MockTenantStore_store]. unfold MockTenantStore_GetTenant.
  unfold MockTenantStore_CreateTenant at 2. cbn [Tenants].
  rewrite lookup_insert_eq. reflexivity.
Qed.

Lemma admin_created_tenant_can_authenticate_witness :
  sv_response (ServeHTTP (test_runtime false unreachable) second_tenant_binder 0 0
                 one_tenant_server RouteAdminTenants create_second_tenant)
  = mkHTTPResponse 201 ∅
      (RespTenant (mkTenant "key-2" "t2" "second" 100 100000 ["*"] true))
  /\ snd (AuthMiddleware
            (srv_tenantStore
               (sv_server (ServeHTTP (test_runtime false unreachable) second_tenant_binder
                             0 0 one_tenant_server RouteAdminTenants create_second_tenant)))
            1 (request_of (bearer "key-2") "" None))
     = Next (set_tenant (request_of (bearer "key-2") "" None)
               (mkTenant "key-2" "t2" "second" 100 100000 ["*"] true)).
Proof.
  assert (Hcreated : http_status
                       (sv_response
                          (ServeHTTP (test_runtime false unreachable) second_tenant_binder
                             0 0 one_tenant_server RouteAdminTenants create_second_tenant))
                     = 201) by (vm_compute; reflexivity).
  destruct (admin_created_tenant_can_authenticate _ _ _ _ _ _ Hcreated)
    as (t & Hresp & _ & _ & _ & _ & _ & _ & _ & _ & _ & _ & Hauth).
  assert (Ht : t = mkTenant "key-2" "t2" "second" 100 100000 ["*"] true).
  { assert (Hr : sv_response
                   (ServeHTTP (test_runtime false unreachable) second_tenant_binder 0 0
                      one_tenant_server RouteAdminTenants create_second_tenant)
                 = mkHTTPResponse 201 ∅
                     (RespTenant (mkTenant "key-2" "t2" "second" 100 100000 ["*"] true)))
      by (vm_compute; reflexivity).
    rewrite Hr in Hresp. by injection Hresp as <-. }
  subst t. split; [exact Hresp|].
  apply Hauth; vm_compute; reflexivity.
Defined.

(** [CreateCompletion] always returns: with a reply of its own, no task
    and no model set in the context, or with the upstream response
    forwarded, one task and the model set. *)
Lemma CreateCompletion_outcome (E : Runtime) {MS : Type} `{ModelStore MS}
  (h : Handler MS) (start : Z) (c : Context) :
  exists o,
    CreateCompletion E h start c = Returned o
    /\ ((out_model o = None /\ count_Go (out_trace o) = O
         /\ exists js, reply_body (out_reply o) = JSONBody js)
        \/ (exists i b,
              intake E h c = inr i
              /\ out_model o = Some (req_Model (in_chatReq i))
              /\ count_Go (out_trace o) = 1%nat
              /\ reply_body (out_reply o) = RawBody b
              /\ reply_status (out_reply o) < 500)).
Proof.
  unfold CreateCompletion. destruct (intake E h c) as [r|i] eqn:Hin.
  - eexists. split; [reflexivity|]. left. cbn. unfold intake in Hin.
    repeat split.
    repeat match type of Hin with
           | match ?x with _ => _ end = _ => destruct x
           | (if ?x then _ else _) = _ => destruct x
           end; try discriminate; injection Hin as <-; eexists; reflexivity.
  - pose proof (upstreamLoop_spec E h start c i) as Hspec.
    destruct (upstreamLoop E h start c i) as [st|st|]; [| |contradiction].
    + destruct Hspec as [Htr Hpost].
      destruct (loop_events_silent _ Htr) as (_ & Hgo & _).
      unfold respond. destruct (lastErr st) as [e|].
      { eexists. split; [reflexivity|]. left. cbn. repeat split; [exact Hgo|eexists; reflexivity]. }
      destruct (Hpost eq_refl) as (rsp & -> & _).
      destruct (Z.geb_spec (StatusCode rsp) 500) as [Hge|Hlt].
      { eexists. split; [reflexivity|]. left. cbn.
        repeat split; [exact Hgo|eexists; reflexivity]. }
      pose proof (write_body_no_Go E start i rsp) as Hwb.
      destruct (write_body E start i rsp) as [outTok evs]. cbn [snd] in Hwb.
      eexists. split; [reflexivity|]. right. exists i. eexists.
      cbn [out_model out_trace out_reply reply_body reply_status].
      split; [reflexivity|]. split; [reflexivity|].
      split; [rewrite !count_Go_app, Hgo, Hwb; reflexivity|].
      split; [reflexivity|exact Hlt].
    + destruct (loop_events_silent _ Hspec) as (_ & Hgo & _).
      eexists. split; [reflexivity|]. left. cbn.
      repeat split; [exact Hgo|eexists; reflexivity].
Qed.

(** X15. Every request to the chat route is counted exactly once in
    [http_requests_total], under its method and the decimal status of the
    response that was sent.  The tenant label is [unknown] exactly when
    the request was not authenticated.  The model label is set only when
    an upstream response was forwarded: every answer the gateway makes
    itself (401, 429, 400, 403, 404, 502, ...) is counted under model
    [unknown], even when the requested model is known. *)
Theorem chat_request_metrics (E : Runtime) (B : Binder) {TS RL MS : Type}
  `{TenantStore TS} `{TenantCreator TS} `{RateLimitStore RL} `{ModelStore MS}
  (now start : Z) (srv : Server TS RL MS) (req : Request) :
  exists l : MetricLabels,
    sv_metrics (ServeHTTP E B now start srv RouteChatCompletions req) = [l]
    /\ sv_panicking (ServeHTTP E B now start srv RouteChatCompletions req) = false
    /\ lbl_method l = Method req
    /\ lbl_status l
       = strconv_Itoa
           (http_status (sv_response (ServeHTTP E B now start srv RouteChatCompletions req)))
    /\ (ctx_tenant (sv_context (ServeHTTP E B now start srv RouteChatCompletions req)) = None
        -> lbl_tenant_id l = "unknown"
           /\ http_status (sv_response (ServeHTTP E B now start srv RouteChatCompletions req))
              = 401)
    /\ (forall t : Tenant,
          ctx_tenant (sv_context (ServeHTTP E B now start srv RouteChatCompletions req))
          = Some t -> lbl_tenant_id l = TenantID t)
    /\ (lbl_model l <> "unknown" ->
        count_Go (sv_trace (ServeHTTP E B now start srv RouteChatCompletions req)) = 1%nat
        /\ exists b,
             http_body (sv_response (ServeHTTP E B now start srv RouteChatCompletions req))
             = RespRaw b).
Proof.
  unfold ServeHTTP. rewrite route_handlers_main. cbn [app run_chain].
  destruct (AuthMiddleware (srv_tenantStore srv) now (mkContext req None None))
    as [ts [status header body|c1]] eqn:Hauth.
  { apply AuthMiddleware_abort_status in Hauth as ->.
    eexists. cbn. repeat split; try done. }
  assert (Hc1 : exists t, c1 = set_tenant (mkContext req None None) t).
  { unfold AuthMiddleware in Hauth. destruct (String.eqb _ ""); [discriminate|].
    destruct (_ || _); [discriminate|].
    destruct (GetTenant (srv_tenantStore srv) now _) as [st' [[t|]|e]]; try discriminate.
    injection Hauth as _ <-. by exists t. }
  destruct Hc1 as [t ->].
  cbn [srv_rlStore srv_tenantStore srv_proxyHandler srv_adminKey].
  destruct (RateLimitMiddleware (srv_rlStore srv) _) as [rl flow] eqn:Hrl.
  apply RateLimitMiddleware_flow in Hrl.
  destruct flow as [status header body|c2].
  { eexists. cbn. repeat split; try done. by intros t' [= <-]. }
  subst c2. cbn [srv_rlStore srv_tenantStore srv_proxyHandler srv_adminKey].
  destruct (CreateCompletion_outcome E (srv_proxyHandler srv) start
              (set_tenant (mkContext req None None) t)) as (o & -> & Hcase).
  eexists. cbn [sv_panicking sv_metrics sv_response sv_context sv_trace app
                MetricsMiddleware_labels lbl_method lbl_status lbl_tenant_id lbl_model
                ctx_Request ctx_tenant ctx_model set_tenant].
  split; [reflexivity|]. split; [reflexivity|]. split; [reflexivity|].
  split; [reflexivity|]. split; [discriminate|]. split; [by intros t' [= <-]|].
  destruct Hcase as [(-> & _) | (i & b & _ & -> & Hgo & Hb & _)]; [done|].
  intros _. split; [exact Hgo|]. exists b. unfold reply_response. cbn [http_body].
  rewrite Hb. reflexivity.
Qed.

Lemma chat_request_metrics_witness :
  exists l : MetricLabels,
    sv_metrics (ServeHTTP (test_runtime false (always_status 200 "{}")) second_tenant_binder
                  0 0 one_tenant_server RouteChatCompletions
                  (mkRequest "POST" (bearer "k") (BodyBytes chat_body)))
    = [l]
    /\ l = mkMetricLabels "POST" "200" "t1" "gpt-4"
    /\ sv_metrics (ServeHTTP (test_runtime false unreachable) second_tenant_binder
                     0 0 one_tenant_server RouteChatCompletions
                     (mkRequest "POST" (bearer "k") (BodyBytes chat_body)))
       = [mkMetricLabels "POST" "502" "t1" "unknown"].
Proof.
  destruct (chat_request_metrics (test_runtime false (always_status 200 "{}"))
              second_tenant_binder 0 0 one_tenant_server
              (mkRequest "POST" (bearer "k") (BodyBytes chat_body)))
    as (l & Hm & _).
  exists l. split; [exact Hm|].
  assert (Hm' : sv_metrics
                  (ServeHTTP (test_runtime false (always_status 200 "{}"))
                     second_tenant_binder 0 0 one_tenant_server RouteChatCompletions
                     (mkRequest "POST" (bearer "k") (BodyBytes chat_body)))
                = [mkMetricLabels "POST" "200" "t1" "gpt-4"]) by (vm_compute; reflexivity).
  rewrite Hm' in Hm. injection Hm as <-.
  split; [reflexivity|vm_compute; reflexivity].
Defined.

(** ** The counter keys of the Redis store *)

Lemma string_of_uint_no_colon (d : Decimal.uint) :
  has_byte (NilEmpty.string_of_uint d) ":"%char = false.
Proof. unfold has_byte. induction d; cbn; [reflexivity|exact IHd..]. Qed.

Lemma Itoa_no_colon (z : Z) : has_byte (strconv_Itoa z) ":"%char = false.
Proof.
  unfold strconv_Itoa, NilZero.string_of_int, NilZero.string_of_uint.
  destruct (Z.to_int z) as [d|d]; destruct d; try reflexivity;
    match goal with
    | |- has_byte (NilEmpty.string_of_uint ?u) _ = _ => apply (string_of_uint_no_colon u)
    | |- has_byte (String "-" (NilEmpty.string_of_uint ?u)) _ = _ =>
        apply (string_of_uint_no_colon u)
    end.
Qed.

Lemma Itoa_inj (a b : Z) : strconv_Itoa a = strconv_Itoa b -> a = b.
Proof.
  unfold strconv_Itoa. intros Heq.
  assert (Hnn : forall z, Z.to_int z <> Decimal.Pos Decimal.Nil
                          /\ Z.to_int z <> Decimal.Neg Decimal.Nil).
  { intros [|p|p]; cbn; split; try discriminate; intros [= Hp];
      by apply (DecimalPos.Unsigned.to_uint_nonnil p). }
  assert (Hi : Some (Z.to_int a) = Some (Z.to_int b)).
  { rewrite <- (NilZero.isi (Z.to_int a)), <- (NilZero.isi (Z.to_int b)), Heq by apply Hnn.
    reflexivity. }
  injection Hi as Hi. rewrite <- (DecimalZ.of_to a), <- (DecimalZ.of_to b), Hi. reflexivity.
Qed.

Lemma append_inj_l (p x y : string) : p +:+ x = p +:+ y -> x = y.
Proof.
  induction p as [|c p IH]; [exact (fun Heq => Heq)|].
  change (String c p +:+ x) with (String c (p +:+ x)).
  change (String c p +:+ y) with (String c (p +:+ y)).
  intros [= Heq]. exact (IH Heq).
Qed.

Lemma has_byte_app_sep (r d : string) (sep : ascii) :
  has_byte (r +:+ String sep d) sep = true.
Proof.
  unfold has_byte. induction r as [|c r IH].
  - change ("" +:+ String sep d) with (String sep d).
    cbn [list_ascii_of_string existsb]. by rewrite Ascii.eqb_refl.
  - change (String c r +:+ String sep d) with (String c (r +:+ String sep d)).
    cbn [list_ascii_of_string existsb]. rewrite IH. apply orb_true_r.
Qed.

(** A separator followed by a text without it splits a string in one way
    only. *)
Lemma append_sep_inj (sep : ascii) (a1 : string) :
  forall a2 d1 d2 : string,
    has_byte d1 sep = false -> has_byte d2 sep = false ->
    a1 +:+ String sep d1 = a2 +:+ String sep d2 -> a1 = a2 /\ d1 = d2.
Proof.
  induction a1 as [|c a1 IH]; intros [|c2 a2] d1 d2 H1 H2.
  - intros [= Heq]. by split.
  - change ("" +:+ String sep d1) with (String sep d1).
    change (String c2 a2 +:+ String sep d2) with (String c2 (a2 +:+ String sep d2)).
    intros [= _ Heq]. rewrite Heq, has_byte_app_sep in H1. discriminate.
  - change ("" +:+ String sep d2) with (String sep d2).
    change (String c a1 +:+ String sep d1) with (String c (a1 +:+ String sep d1)).
    intros [= _ Heq]. rewrite <- Heq, has_byte_app_sep in H2. discriminate.
  - change (String c a1 +:+ String sep d1) with (String c (a1 +:+ String sep d1)).
    change (String c2 a2 +:+ String sep d2) with (String c2 (a2 +:+ String sep d2)).
    intros [= -> Heq]. destruct (IH a2 d1 d2 H1 H2 Heq) as [-> ->]. by split.
Qed.

Lemma rpm_key_inj (t1 t2 : string) (n1 n2 : Z) :
  rpm_key t1 n1 = rpm_key t2 n2 -> t1 = t2 /\ minute_of n1 = minute_of n2.
Proof.
  unfold rpm_key. intros Heq%append_inj_l.
  apply (append_sep_inj ":"%char) in Heq as [-> Hd]; try apply Itoa_no_colon.
  split; [reflexivity|]. exact (Itoa_inj _ _ Hd).
Qed.

Lemma tpm_key_inj (t1 t2 : string) (n1 n2 : Z) :
  tpm_key t1 n1 = tpm_key t2 n2 -> t1 = t2 /\ minute_of n1 = minute_of n2.
Proof.
  unfold tpm_key. intros Heq%append_inj_l.
  apply (append_sep_inj ":"%char) in Heq as [-> Hd]; try apply Itoa_no_colon.
  split; [reflexivity|]. exact (Itoa_inj _ _ Hd).
Qed.

Lemma rpm_key_not_tpm_key (t1 t2 : string) (n1 n2 : Z) : rpm_key t1 n1 <> tpm_key t2 n2.
Proof.
  unfold rpm_key, tpm_key.
  change ("rate_limit:rpm:" +:+ ?x) with ("rate_limit:" +:+ String "r" ("pm:" +:+ x)).
  change ("rate_limit:tpm:" +:+ ?x) with ("rate_limit:" +:+ String "t" ("pm:" +:+ x)).
  intros Heq%append_inj_l. discriminate.
Qed.

(** X16. The Redis key of a counter names its kind, its tenant and its
    minute without ambiguity: two RPM keys, or two TPM keys, are equal only
    for the same tenant id and the same minute, also when tenant ids hold
    colons, and an RPM key is never a TPM key.  No two counters share a
    key. *)
Theorem redis_counter_keys_distinct (t1 t2 : string) (n1 n2 : Z) :
  (rpm_key t1 n1 = rpm_key t2 n2 <-> t1 = t2 /\ minute_of n1 = minute_of n2)
  /\ (tpm_key t1 n1 = tpm_key t2 n2 <-> t1 = t2 /\ minute_of n1 = minute_of n2)
  /\ rpm_key t1 n1 <> tpm_key t2 n2.
Proof.
  split; [|split].
  - split; [apply rpm_key_inj|]. intros [-> Hm]. unfold rpm_key.
    fold (minute_of n1). fold (minute_of n2). by rewrite Hm.
  - split; [apply tpm_key_inj|]. intros [-> Hm]. unfold tpm_key.
    fold (minute_of n1). fold (minute_of n2). by rewrite Hm.
  - apply rpm_key_not_tpm_key.
Qed.

(** ** Counting in the Redis store *)

Lemma minute_bounds (t b : Z) :
  0 <= t -> minute_of t = b -> b * 60 * second_ns <= t < (b + 1) * 60 * second_ns.
Proof.
  unfold minute_of, time_Unix, int_div, second_ns. intros Ht <-.
  assert (H0 : 0 <= t / 1000000000) by (apply Z.div_pos; lia).
  rewrite Z.quot_div_nonneg by lia.
  pose proof (Z.div_mod (t / 1000000000) 60 ltac:(lia)) as Hq.
  pose proof (Z.mod_pos_bound (t / 1000000000) 60 ltac:(lia)) as Hr.
  pose proof (Z.div_mod t 1000000000 ltac:(lia)) as Hq'.
  pose proof (Z.mod_pos_bound t 1000000000 ltac:(lia)) as Hr'.
  lia.
Qed.

(** One [IncrementRPM] in minute [b]: the counter goes from [k] to [k + 1],
    its key outlives the minute, and no other key is touched. *)
Lemma redis_IncrementRPM_step (s : RedisRateLimitStore) (tenantID : string) (b k t : Z) :
  rpm_state s tenantID b k -> 0 <= t -> minute_of t = b -> k < max_int64 ->
  exists s',
    RedisRateLimitStore_IncrementRPM (redis_at s t) tenantID = (s', Ok (k + 1))
    /\ rpm_state s' tenantID b (k + 1)
    /\ redis_now s' = t
    /\ forall key, key <> rpm_key tenantID t -> redis_db s' !! key = redis_db s !! key.
Proof.
  intros [Herr Hk] Ht Hb Hmax.
  pose proof (minute_bounds t b Ht Hb) as [Hlo Hhi].
  assert (Hkey : rpm_key tenantID t
                 = "rate_limit:rpm:" +:+ tenantID +:+ ":" +:+ strconv_Itoa b).
  { unfold rpm_key. fold (minute_of t). by rewrite Hb. }
  unfold RedisRateLimitStore_IncrementRPM. cbn [redis_at redis_now]. rewrite Hkey.
  unfold redis_IncrBy, redis_lookup. cbn [redis_err redis_db redis_now redis_at].
  rewrite Herr.
  destruct Hk as [[-> Hnone] | (Hk1 & e & Hsome & He)].
  - rewrite Hnone. cbn [redis_value redis_expireAt]. change (0 + 1) with 1.
    change ((1 <? min_int64) || (1 >? max_int64)) with false. cbv beta iota zeta.
    change (1 =? 1) with true. cbv beta iota zeta.
    unfold redis_Expire, redis_lookup. cbn [redis_err redis_db redis_now].
    rewrite lookup_insert_eq. cbn [redis_expireAt redis_value].
    eexists. split; [reflexivity|]. split; [|split; [reflexivity|]].
    + split; [reflexivity|]. right. split; [lia|]. exists (t + 90 * second_ns).
      cbn [redis_db]. split; [apply lookup_insert_eq|]. unfold second_ns in *. lia.
    + intros key Hne. cbn [redis_db]. by rewrite !lookup_insert_ne.
  - rewrite Hsome. cbn [redis_value redis_expireAt].
    replace (e <=? t) with false by (symmetry; apply Z.leb_gt; lia).
    cbn [redis_value redis_expireAt].
    replace ((k + 1 <? min_int64) || (k + 1 >? max_int64)) with false.
    2:{ symmetry. apply orb_false_intro; [apply Z.ltb_ge|rewrite Z.gtb_ltb; apply Z.ltb_ge];
          unfold min_int64, max_int64 in *; lia. }
    cbv beta iota zeta.
    replace (k + 1 =? 1) with false by (symmetry; apply Z.eqb_neq; lia).
    eexists. split; [reflexivity|]. split; [|split; [reflexivity|]].
    + split; [reflexivity|]. right. split; [lia|]. exists e.
      cbn [redis_db]. split; [apply lookup_insert_eq|exact He].
    + intros key Hne. cbn [redis_db]. by rewrite lookup_insert_ne.
Qed.

Lemma redis_rpm_sequence_counts (tenantID : string) (b : Z) (times : list Z) :
  forall (s : RedisRateLimitStore) (k : Z),
    rpm_state s tenantID b k ->
    Forall (fun t => 0 <= t /\ minute_of t = b) times ->
    k + Z.of_nat (List.length times) <= max_int64 ->
    snd (redis_rpm_sequence s tenantID times)
    = map (fun j => Ok (k + Z.of_nat j)) (seq 1 (List.length times)).
Proof.
  induction times as [|t rest IH]; intros s k Hst Htimes Hmax; [reflexivity|].
  apply Forall_cons in Htimes as [[Ht Hb] Hrest].
  cbn [List.length] in Hmax.
  destruct (redis_IncrementRPM_step s tenantID b k t Hst Ht Hb ltac:(lia))
    as (s' & Hinc & Hst' & _).
  cbn [redis_rpm_sequence]. rewrite Hinc.
  specialize (IH s' (k + 1) Hst' Hrest ltac:(lia)).
  destruct (redis_rpm_sequence s' tenantID rest) as [s2 rs]. cbn [snd] in *.
  cbn [List.length seq map]. f_equal.
  rewrite IH, <- (seq_shift (List.length rest) 1), map_map.
  apply map_ext. intros j. f_equal. lia.
Qed.

(** X17. Against a Redis server that answers, the [IncrementRPM] calls of
    one tenant at clock readings of the same minute return 1, 2, 3, ... when
    the minute's counter did not exist before: the key that the first call
    creates with an expiry of 90 s is still there at every later reading of
    that minute. *)
Theorem redis_rpm_counts_within_a_minute (s : RedisRateLimitStore) (tenantID : string)
  (b : Z) (times : list Z)
  (Herr : redis_err s = None)
  (Hfresh : redis_db s !! ("rate_limit:rpm:" +:+ tenantID +:+ ":" +:+ strconv_Itoa b) = None)
  (Htimes : Forall (fun t => 0 <= t /\ minute_of t = b) times)
  (Hmax : Z.of_nat (List.length times) <= max_int64) :
  snd (redis_rpm_sequence s tenantID times)
  = map (fun j => Ok (Z.of_nat j)) (seq 1 (List.length times)).
Proof.
  rewrite (redis_rpm_sequence_counts tenantID b times s 0); [reflexivity| |exact Htimes|lia].
  split; [exact Herr|]. left. by split.
Qed.

Lemma redis_rpm_counts_within_a_minute_witness :
  snd (redis_rpm_sequence (mkRedisRateLimitStore None ∅ 0) "t1"
         [120 * second_ns; 150 * second_ns; 179 * second_ns])
  = [Ok 1; Ok 2; Ok 3].
Proof.
  apply (redis_rpm_counts_within_a_minute (mkRedisRateLimitStore None ∅ 0) "t1" 2
           [120 * second_ns; 150 * second_ns; 179 * second_ns] eq_refl).
  - apply lookup_empty.
  - repeat constructor; vm_compute; discriminate.
  - vm_compute. discriminate.
Defined.

Lemma rpm_prefix_not_tpm (x y : string) : "rate_limit:rpm:" +:+ x <> "rate_limit:tpm:" +:+ y.
Proof.
  change ("rate_limit:rpm:" +:+ x) with ("rate_limit:" +:+ String "r" ("pm:" +:+ x)).
  change ("rate_limit:tpm:" +:+ y) with ("rate_limit:" +:+ String "t" ("pm:" +:+ y)).
  intros Heq%append_inj_l. discriminate.
Qed.

(** One request through [RateLimitMiddleware] against the Redis store, in
    a minute whose TPM counter does not exist. *)
Lemma redis_RateLimitMiddleware_step (s : RedisRateLimitStore) (c : Context) (tn : Tenant)
  (b k t : Z) :
  ctx_tenant c = Some tn ->
  rpm_state s (TenantID tn) b k ->
  redis_db s !! ("rate_limit:tpm:" +:+ TenantID tn +:+ ":" +:+ strconv_Itoa b) = None ->
  0 <= t -> minute_of t = b -> k < max_int64 -> 0 <= TPMLimit tn ->
  exists s',
    RateLimitMiddleware (redis_at s t) c
    = (s', if k + 1 <=? RPMLimit tn then Next c else rpm_rejection tn)
    /\ rpm_state s' (TenantID tn) b (k + 1)
    /\ forall key, key <> rpm_key (TenantID tn) t -> redis_db s' !! key = redis_db s !! key.
Proof.
  intros Hten Hst Htpm Ht Hb Hmax Hlim.
  destruct (redis_IncrementRPM_step s (TenantID tn) b k t Hst Ht Hb Hmax)
    as (s' & Hinc & Hst' & Hnow & Hother).
  exists s'. split; [|by split].
  unfold RateLimitMiddleware. rewrite Hten.
  cbn [IncrementRPM GetTPM RedisRateLimitStore_store]. rewrite Hinc.
  destruct (Z.gtb_spec (k + 1) (RPMLimit tn)) as [Hgt|Hle].
  { replace (k + 1 <=? RPMLimit tn) with false by (symmetry; apply Z.leb_gt; lia).
    reflexivity. }
  replace (k + 1 <=? RPMLimit tn) with true by (symmetry; apply Z.leb_le; lia).
  unfold RedisRateLimitStore_GetTPM, redis_lookup. rewrite (proj1 Hst'), Hnow.
  assert (Hkey : tpm_key (TenantID tn) t
                 = "rate_limit:tpm:" +:+ TenantID tn +:+ ":" +:+ strconv_Itoa b).
  { unfold tpm_key. fold (minute_of t). by rewrite Hb. }
  rewrite Hkey, Hother, Htpm.
  - destruct (Z.gtb_spec 0 (TPMLimit tn)); [lia|reflexivity].
  - intros Heq. exact (rpm_prefix_not_tpm _ _ (eq_sym Heq)).
Qed.

Lemma redis_admit_sequence_spec (c : Context) (tn : Tenant) (b : Z) (times : list Z) :
  ctx_tenant c = Some tn -> 0 <= TPMLimit tn ->
  forall (s : RedisRateLimitStore) (k : Z),
    rpm_state s (TenantID tn) b k ->
    redis_db s !! ("rate_limit:tpm:" +:+ TenantID tn +:+ ":" +:+ strconv_Itoa b) = None ->
    Forall (fun t => 0 <= t /\ minute_of t = b) times ->
    k + Z.of_nat (List.length times) <= max_int64 ->
    snd (redis_admit_sequence s c times)
    = map (fun j => if k + Z.of_nat j <=? RPMLimit tn then Next c else rpm_rejection tn)
        (seq 1 (List.length times))
    /\ redis_err (fst (redis_admit_sequence s c times)) = None
    /\ forall key,
         key <> "rate_limit:rpm:" +:+ TenantID tn +:+ ":" +:+ strconv_Itoa b ->
         redis_db (fst (redis_admit_sequence s c times)) !! key = redis_db s !! key.
Proof.
  intros Hten Hlim.
  induction times as [|t rest IH]; intros s k Hst Htpm Htimes Hmax.
  { cbn. split; [reflexivity|]. split; [exact (proj1 Hst)|done]. }
  apply Forall_cons in Htimes as [[Ht Hb] Hrest]. cbn [List.length] in Hmax.
  destruct (redis_RateLimitMiddleware_step s c tn b k t Hten Hst Htpm Ht Hb ltac:(lia) Hlim)
    as (s' & Hstep & Hst' & Hother).
  assert (Hkey : rpm_key (TenantID tn) t
                 = "rate_limit:rpm:" +:+ TenantID tn +:+ ":" +:+ strconv_Itoa b).
  { unfold rpm_key. fold (minute_of t). by rewrite Hb. }
  rewrite Hkey in Hother.
  assert (Htpm' : redis_db s' !! ("rate_limit:tpm:" +:+ TenantID tn +:+ ":" +:+ strconv_Itoa b)
                  = None).
  { rewrite Hother; [exact Htpm|]. intros Heq. exact (rpm_prefix_not_tpm _ _ (eq_sym Heq)). }
  cbn [redis_admit_sequence]. rewrite Hstep.
  specialize (IH s' (k + 1) Hst' Htpm' Hrest ltac:(lia)).
  destruct (redis_admit_sequence s' c rest) as [s2 fs]. cbn [fst snd] in *.
  destruct IH as (Hfs & Herr2 & Hother2).
  split; [|split; [exact Herr2|]].
  - cbn [List.length seq map]. f_equal.
    rewrite Hfs, <- (seq_shift (List.length rest) 1), map_map.
    apply map_ext. intros j. replace (k + 1 + Z.of_nat j) with (k + Z.of_nat (S j)) by lia.
    reflexivity.
  - intros key Hne. rewrite Hother2, Hother by exact Hne. reflexivity.
Qed.

(** X18. With the Redis store the RPM limit holds per minute: of the
    requests of one tenant at clock readings of one minute whose counters
    did not exist before, exactly the first [rpm_limit] are admitted and the
    others get the RPM rejection; and the tenant's first request of any
    other minute whose counters do not exist is admitted again, whatever the
    count of the minute before. *)
Theorem redis_rpm_limit_per_minute (s : RedisRateLimitStore) (c : Context) (tn : Tenant)
  (b : Z) (times : list Z)
  (Herr : redis_err s = None) (Hten : ctx_tenant c = Some tn)
  (Hrpm : redis_db s !! ("rate_limit:rpm:" +:+ TenantID tn +:+ ":" +:+ strconv_Itoa b) = None)
  (Htpm : redis_db s !! ("rate_limit:tpm:" +:+ TenantID tn +:+ ":" +:+ strconv_Itoa b) = None)
  (Htimes : Forall (fun t => 0 <= t /\ minute_of t = b) times)
  (Hmax : Z.of_nat (List.length times) < max_int64)
  (Hlim : 0 <= TPMLimit tn) :
  snd (redis_admit_sequence s c times)
  = map (fun j => if Z.of_nat j <=? RPMLimit tn then Next c else rpm_rejection tn)
      (seq 1 (List.length times))
  /\ (forall t' : Z,
        0 <= t' -> minute_of t' <> b -> 1 <= RPMLimit tn ->
        redis_db s !! rpm_key (TenantID tn) t' = None ->
        redis_db s !! tpm_key (TenantID tn) t' = None ->
        snd (RateLimitMiddleware (redis_at (fst (redis_admit_sequence s c times)) t') c)
        = Next c).
Proof.
  assert (Hst : rpm_state s (TenantID tn) b 0) by (split; [exact Herr|left; by split]).
  destruct (redis_admit_sequence_spec c tn b times Hten Hlim s 0 Hst Htpm Htimes ltac:(lia))
    as (Hfs & Herr' & Hother).
  split; [exact Hfs|].
  intros t' Ht' Hmin Hone Hrpm' Htpm'.
  assert (Hk : rpm_key (TenantID tn) t'
               = "rate_limit:rpm:" +:+ TenantID tn +:+ ":" +:+ strconv_Itoa (minute_of t'))
    by reflexivity.
  assert (Htk : tpm_key (TenantID tn) t'
                = "rate_limit:tpm:" +:+ TenantID tn +:+ ":" +:+ strconv_Itoa (minute_of t'))
    by reflexivity.
  assert (Hst' : rpm_state (fst (redis_admit_sequence s c times)) (TenantID tn)
                   (minute_of t') 0).
  { split; [exact Herr'|]. left. split; [reflexivity|].
    rewrite <- Hk, Hother; [exact Hrpm'|].
    rewrite Hk. intros Heq%append_inj_l.
    apply (append_sep_inj ":"%char) in Heq as [_ Heq]; try apply Itoa_no_colon.
    apply Itoa_inj in Heq. contradiction. }
  destruct (redis_RateLimitMiddleware_step (fst (redis_admit_sequence s c times)) c tn
              (minute_of t') 0 t' Hten Hst') as (s' & Hstep & _);
    try done; try (unfold max_int64; lia).
  - rewrite <- Htk, Hother; [exact Htpm'|].
    rewrite Htk. intros Heq. exact (rpm_prefix_not_tpm _ _ (eq_sym Heq)).
  - rewrite Hstep. cbn [snd].
    replace (0 + 1 <=? RPMLimit tn) with true by (symmetry; apply Z.leb_le; lia).
    reflexivity.
Qed.

Lemma redis_rpm_limit_per_minute_witness :
  snd (redis_admit_sequence (mkRedisRateLimitStore None ∅ 0)
         (request_of ∅ "" (Some tenant_rpm2))
         [120 * second_ns; 150 * second_ns; 179 * second_ns])
  = [Next (request_of ∅ "" (Some tenant_rpm2)); Next (request_of ∅ "" (Some tenant_rpm2));
     rpm_rejection tenant_rpm2]
  /\ snd (RateLimitMiddleware
            (redis_at (fst (redis_admit_sequence (mkRedisRateLimitStore None ∅ 0)
                              (request_of ∅ "" (Some tenant_rpm2))
                              [120 * second_ns; 150 * second_ns; 179 * second_ns]))
               (180 * second_ns))
            (request_of ∅ "" (Some tenant_rpm2)))
     = Next (request_of ∅ "" (Some tenant_rpm2)).
Proof.
  assert (Htimes : Forall (fun t => 0 <= t /\ minute_of t = 2)
                     [120 * second_ns; 150 * second_ns; 179 * second_ns])
    by (repeat constructor; vm_compute; discriminate).
  assert (Hmax : Z.of_nat (List.length [120 * second_ns; 150 * second_ns; 179 * second_ns])
                 < max_int64) by (vm_compute; reflexivity).
  assert (Hlim : 0 <= TPMLimit tenant_rpm2) by (vm_compute; discriminate).
  destruct (redis_rpm_limit_per_minute (mkRedisRateLimitStore None ∅ 0)
              (request_of ∅ "" (Some tenant_rpm2)) tenant_rpm2 2
              [120 * second_ns; 150 * second_ns; 179 * second_ns]
              eq_refl eq_refl (lookup_empty _) (lookup_empty _) Htimes Hmax Hlim)
    as [Hseq Hnext].
  split; [exact Hseq|].
  apply Hnext; try apply lookup_empty; vm_compute; discriminate.
Defined.

(** The first [IncrementTPM] of a minute: the counter holds the tokens and
    expires 90 s later; no other key is touched. *)
Lemma redis_IncrementTPM_first (s : RedisRateLimitStore) (tenantID : string) (n : Z) :
  redis_err s = None -> redis_db s !! tpm_key tenantID (redis_now s) = None ->
  0 <= n <= max_int64 ->
  exists s',
    RedisRateLimitStore_IncrementTPM s tenantID n = (s', Ok n)
    /\ redis_err s' = None
    /\ redis_db s' !! tpm_key tenantID (redis_now s)
       = Some (mkRedisEntry n (Some (redis_now s + 90 * second_ns)))
    /\ forall key, key <> tpm_key tenantID (redis_now s) ->
                   redis_db s' !! key = redis_db s !! key.
Proof.
  intros Herr Hnone Hn. unfold RedisRateLimitStore_IncrementTPM, redis_IncrBy, redis_lookup.
  rewrite Herr, Hnone. cbn [redis_value redis_expireAt]. rewrite Z.add_0_l.
  replace ((n <? min_int64) || (n >? max_int64)) with false.
  2:{ symmetry. apply orb_false_intro; [apply Z.ltb_ge|rewrite Z.gtb_ltb; apply Z.ltb_ge];
        unfold min_int64, max_int64 in *; lia. }
  cbv beta iota zeta. rewrite Z.eqb_refl. cbv beta iota zeta.
  unfold redis_Expire, redis_lookup. cbn [redis_err redis_db redis_now].
  rewrite lookup_insert_eq. cbn [redis_expireAt redis_value].
  eexists. split; [reflexivity|]. cbn [redis_err redis_db].
  split; [reflexivity|]. split; [apply lookup_insert_eq|].
  intros key Hne. by rewrite !lookup_insert_ne.
Qed.

(** X19. With the Redis store the deferred task charges its tokens to
    the minute in which the task runs, whatever the minute the request
    started in: when the minute's counter did not exist, [GetTPM] returns
    [input + output] at every later clock reading of that minute, and 0 in
    any other minute whose counter does not exist.  The TPM limit thus
    never sees the tokens of an earlier minute. *)
Theorem redis_tokens_charged_to_the_minute_of_the_task (s : RedisRateLimitStore)
  (task : Bookkeeping) (requestID : string) (us : MockUsageStore)
  (Herr : redis_err s = None) (Hnow : 0 <= redis_now s)
  (Hfresh : redis_db s !! tpm_key (bk_tid task) (redis_now s) = None)
  (Htok : 0 <= bk_in task /\ 0 <= bk_out task /\ bk_in task + bk_out task <= max_int64) :
  (forall t2 : Z,
     0 <= t2 -> minute_of t2 = minute_of (redis_now s) ->
     snd (RedisRateLimitStore_GetTPM
            (redis_at (fst (fst (run_Bookkeeping requestID task s us))) t2) (bk_tid task))
     = Ok (bk_in task + bk_out task))
  /\ (forall t' : Z,
        minute_of t' <> minute_of (redis_now s) ->
        redis_db s !! tpm_key (bk_tid task) t' = None ->
        snd (RedisRateLimitStore_GetTPM
               (redis_at (fst (fst (run_Bookkeeping requestID task s us))) t') (bk_tid task))
        = Ok 0).
Proof.
  assert (Hw : wrap64 (bk_in task + bk_out task) = bk_in task + bk_out task).
  { apply wrap64_small. unfold min_int64, max_int64 in *. lia. }
  destruct (redis_IncrementTPM_first s (bk_tid task) (bk_in task + bk_out task) Herr Hfresh)
    as (s' & Hinc & Herr' & Hentry & Hother); [lia|].
  assert (Hs' : fst (fst (run_Bookkeeping requestID task s us)) = s').
  { unfold run_Bookkeeping. cbn [IncrementTPM RedisRateLimitStore_store].
    rewrite Hw, Hinc. reflexivity. }
  rewrite Hs'. split.
  - intros t2 Ht2 Hmin.
    assert (Hkey : tpm_key (bk_tid task) t2 = tpm_key (bk_tid task) (redis_now s)).
    { unfold tpm_key. fold (minute_of t2). fold (minute_of (redis_now s)). by rewrite Hmin. }
    pose proof (minute_bounds t2 _ Ht2 Hmin) as [_ Hhi].
    pose proof (minute_bounds (redis_now s) _ Hnow eq_refl) as [Hlo _].
    unfold RedisRateLimitStore_GetTPM, redis_lookup. cbn [redis_at redis_err redis_db redis_now].
    rewrite Herr', Hkey, Hentry. cbn [redis_expireAt redis_value].
    replace (redis_now s + 90 * second_ns <=? t2) with false; [reflexivity|].
    symmetry. apply Z.leb_gt. unfold second_ns in *. lia.
  - intros t' Hmin Hnone.
    unfold RedisRateLimitStore_GetTPM, redis_lookup. cbn [redis_at redis_err redis_db redis_now].
    rewrite Herr', Hother, Hnone; [reflexivity|].
    intros Heq%tpm_key_inj. by destruct Heq.
Qed.

Lemma redis_tokens_charged_to_the_minute_of_the_task_witness :
  snd (RedisRateLimitStore_GetTPM
         (redis_at (fst (fst (run_Bookkeeping "r1" (mkBookkeeping "t1" "gpt-4" 16 500 0)
                                (mkRedisRateLimitStore None ∅ (61 * second_ns))
                                {| Records := [] |})))
            (119 * second_ns)) "t1")
  = Ok 516
  /\ snd (RedisRateLimitStore_GetTPM
            (redis_at (fst (fst (run_Bookkeeping "r1" (mkBookkeeping "t1" "gpt-4" 16 500 0)
                                   (mkRedisRateLimitStore None ∅ (61 * second_ns))
                                   {| Records := [] |})))
               (120 * second_ns)) "t1")
     = Ok 0.
Proof.
  assert (Hnow : 0 <= redis_now (mkRedisRateLimitStore None ∅ (61 * second_ns)))
    by (vm_compute; discriminate).
  assert (Htok : 0 <= bk_in (mkBookkeeping "t1" "gpt-4" 16 500 0)
                 /\ 0 <= bk_out (mkBookkeeping "t1" "gpt-4" 16 500 0)
                 /\ bk_in (mkBookkeeping "t1" "gpt-4" 16 500 0)
                    + bk_out (mkBookkeeping "t1" "gpt-4" 16 500 0) <= max_int64)
    by (repeat split; vm_compute; discriminate).
  destruct (redis_tokens_charged_to_the_minute_of_the_task
              (mkRedisRateLimitStore None ∅ (61 * second_ns))
              (mkBookkeeping "t1" "gpt-4" 16 500 0) "r1" {| Records := [] |}
              eq_refl Hnow (lookup_empty _) Htok) as [Hsame Hother].
  split.
  - apply Hsame; vm_compute; (discriminate || reflexivity).
  - apply Hother; [vm_compute; discriminate|apply lookup_empty].
Defined.

(** ** The admin route when the admin key is not configured *)

(** X20. [main] takes the admin key from [os.Getenv("ADMIN_API_KEY")],
    which is the empty string when the variable is not set; the admin
    middleware compares it with the [X-Admin-Key] header, which reads as
    the empty string when it is absent.  With the key not configured, a
    request without that header from any active tenant that is within its
    rate limits therefore creates a tenant; the new tenant replaces
    whatever the store held under its API key, and no other entry
    changes. *)
Theorem admin_key_unset_admits_any_tenant (E : Runtime) (B : Binder) {RL MS : Type}
  `{RateLimitStore RL} `{ModelStore MS} (now start : Z)
  (srv : Server MockTenantStore RL MS) (req : Request) (key : string) (t0 : Tenant)
  (creq : CreateTenantRequest) (rl : RL)
  (Hunset : srv_adminKey srv = "")
  (Hnoheader : Header req !! "X-Admin-Key" = None)
  (Hbearer : GetHeader (mkContext req None None) "Authorization" = "Bearer " +:+ key)
  (Hnospace : has_byte key " "%char = false)
  (Htenant : Tenants (srv_tenantStore srv) !! key = Some t0)
  (Hactive : IsActive t0 = true)
  (Hlimits : RateLimitMiddleware (srv_rlStore srv) (set_tenant (mkContext req None None) t0)
             = (rl, Next (set_tenant (mkContext req None None) t0)))
  (Hbind : ShouldBindJSON B (Body req) = Ok creq) :
  sv_response (ServeHTTP E B now start srv RouteAdminTenants req)
  = mkHTTPResponse 201 ∅ (RespTenant (CreateTenant_tenant creq))
  /\ Tenants (srv_tenantStore (sv_server (ServeHTTP E B now start srv RouteAdminTenants req)))
     !! ctr_APIKey creq = Some (CreateTenant_tenant creq)
  /\ forall k : string,
       k <> ctr_APIKey creq ->
       Tenants (srv_tenantStore (sv_server (ServeHTTP E B now start srv RouteAdminTenants
                                              req))) !! k
       = Tenants (srv_tenantStore srv) !! k.
Proof.
  assert (Hauth : AuthMiddleware (srv_tenantStore srv) now (mkContext req None None)
                  = (srv_tenantStore srv, Next (set_tenant (mkContext req None None) t0))).
  { apply (AuthMiddleware_accepts _ _ _ _ key t0 Hbearer Hnospace).
    cbn [GetTenant MockTenantStore_store]. unfold MockTenantStore_GetTenant.
    rewrite Htenant, Hactive. reflexivity. }
  assert (Hadmin : AdminHandler_AuthMiddleware
                     (NewAdminHandler (srv_tenantStore srv) (srv_adminKey srv))
                     (set_tenant (mkContext req None None) t0)
                   = Next (set_tenant (mkContext req None None) t0)).
  { unfold AdminHandler_AuthMiddleware, NewAdminHandler, GetHeader.
    cbn [admin_apiKey ctx_Request set_tenant].
    change (CanonicalMIMEHeaderKey "X-Admin-Key") with "X-Admin-Key".
    rewrite Hnoheader, Hunset. reflexivity. }
  unfold ServeHTTP. rewrite route_handlers_main. cbn [app run_chain].
  rewrite Hauth. cbn [srv_rlStore srv_tenantStore srv_proxyHandler srv_adminKey].
  rewrite Hlimits. cbn [srv_rlStore srv_tenantStore srv_proxyHandler srv_adminKey].
  rewrite Hadmin. unfold AdminHandler_CreateTenant.
  cbn [ctx_Request set_tenant admin_tenantStore NewAdminHandler]. rewrite Hbind.
  cbn [CreateTenant MockTenantStore_creator sv_panicking sv_response sv_server
       admin_response srv_tenantStore admin_tenantStore].
  split; [reflexivity|]. unfold MockTenantStore_CreateTenant. cbn [Tenants].
  change (APIKey (CreateTenant_tenant creq)) with (ctr_APIKey creq).
  split; [apply lookup_insert_eq|]. intros k Hk. by rewrite lookup_insert_ne.
Qed.

Lemma admin_key_unset_admits_any_tenant_witness :
  sv_response
    (ServeHTTP (test_runtime false unreachable) second_tenant_binder 0 0
       (mkServer {| Tenants := {[ "k" := tenant_any ]} |} NewMockRateLimitStore
          (NewHandler test_models 0) "")
       RouteAdminTenants (mkRequest "POST" (bearer "k") (BodyBytes "{}")))
  = mkHTTPResponse 201 ∅ (RespTenant (mkTenant "key-2" "t2" "second" 100 100000 ["*"] true)).
Proof.
  assert (Hlimits : exists rl,
            RateLimitMiddleware NewMockRateLimitStore
              (set_tenant (mkContext (mkRequest "POST" (bearer "k") (BodyBytes "{}")) None None)
                 tenant_any)
            = (rl, Next (set_tenant
                           (mkContext (mkRequest "POST" (bearer "k") (BodyBytes "{}"))
                              None None) tenant_any))).
  { eexists. vm_compute. reflexivity. }
  destruct Hlimits as [rl Hlimits].
  refine (proj1 (admin_key_unset_admits_any_tenant (test_runtime false unreachable)
                   second_tenant_binder 0 0
                   (mkServer {| Tenants := {[ "k" := tenant_any ]} |} NewMockRateLimitStore
                      (NewHandler test_models 0) "")
                   (mkRequest "POST" (bearer "k") (BodyBytes "{}")) "k" tenant_any
                   (mkCreateTenantRequest "t2" "second" "key-2" 0 0 []) rl
                   eq_refl _ _ _ _ eq_refl Hlimits eq_refl)); vm_compute; reflexivity.
Defined.

(** ** The breaker after it has opened *)

(** X21. The breaker of [NewHandler], once open: every call up to its
    expiry is refused without being made; the first call after the expiry
    is made; if it fails the breaker is open again for 30 s from then; if
    it returns, the breaker is half-open with one success counted; and in
    the half-open state the fifth consecutive call that returns closes the
    breaker, with a new window of 60 s. *)
Theorem breaker_recovers_after_timeout {W A : Type} (clock : W -> Z) (b : CircuitBreaker)
  (w w' : W) (req : W -> W * result A) :
  cb_settings b = handler_settings ->
  (forall e : Z,
     cb_state b = StateOpen -> cb_expiry b = Some e -> clock w <= e ->
     Execute clock b w req = (b, w, Err ErrOpenState))
  /\ (forall (e : Z) (err : error),
        cb_state b = StateOpen -> cb_expiry b = Some e -> e < clock w ->
        req w = (w', Err err) ->
        snd (Execute clock b w req) = Err err
        /\ cb_state (fst (fst (Execute clock b w req))) = StateOpen
        /\ cb_expiry (fst (fst (Execute clock b w req))) = Some (clock w' + 30 * second_ns))
  /\ (forall (e : Z) (a : A),
        cb_state b = StateOpen -> cb_expiry b = Some e -> e < clock w ->
        req w = (w', Ok a) ->
        snd (Execute clock b w req) = Ok a
        /\ cb_state (fst (fst (Execute clock b w req))) = StateHalfOpen
        /\ ConsecutiveSuccesses (cb_counts (fst (fst (Execute clock b w req)))) = 1)
  /\ (forall a : A,
        cb_state b = StateHalfOpen ->
        Requests (cb_counts b) = 4 -> ConsecutiveSuccesses (cb_counts b) = 4 ->
        req w = (w', Ok a) ->
        cb_state (fst (fst (Execute clock b w req))) = StateClosed
        /\ cb_counts (fst (fst (Execute clock b w req))) = Counts_clear
        /\ cb_expiry (fst (fst (Execute clock b w req))) = Some (clock w' + 60 * second_ns)).
Proof.
  destruct b as [st s g cnt ex]. cbn [cb_settings cb_state cb_expiry cb_counts].
  intros ->. split; [|split; [|split]].
  - intros e -> -> Hle. unfold Execute, beforeRequest, currentState.
    cbn [cb_state cb_expiry].
    replace (e <? clock w) with false by (symmetry; apply Z.ltb_ge; lia).
    reflexivity.
  - intros e err -> -> Hlt Hreq. unfold Execute, beforeRequest, currentState.
    cbn [cb_state cb_expiry].
    replace (e <? clock w) with true by (symmetry; apply Z.ltb_lt; lia).
    unfold setState, toNewGeneration, with_counts.
    cbn [State_eqb cb_state cb_settings cb_generation cb_counts cb_expiry
         Requests Counts_clear MaxRequests handler_settings Counts_onRequest].
    change (0 >=? 5) with false. cbv beta iota. rewrite Hreq.
    unfold afterRequest, currentState. cbn [cb_state cb_generation fst snd].
    rewrite Z.eqb_refl. cbn [negb]. unfold onFailure, setState, toNewGeneration.
    cbn [cb_state State_eqb cb_settings Timeout handler_settings cb_expiry].
    repeat split.
  - intros e a -> -> Hlt Hreq. unfold Execute, beforeRequest, currentState.
    cbn [cb_state cb_expiry].
    replace (e <? clock w) with true by (symmetry; apply Z.ltb_lt; lia).
    unfold setState, toNewGeneration, with_counts.
    cbn [State_eqb cb_state cb_settings cb_generation cb_counts cb_expiry
         Requests Counts_clear MaxRequests handler_settings Counts_onRequest].
    change (0 >=? 5) with false. cbv beta iota. rewrite Hreq.
    unfold afterRequest, currentState. cbn [cb_state cb_generation fst snd].
    rewrite Z.eqb_refl. cbn [negb]. unfold onSuccess, with_counts, Counts_onSuccess.
    cbn [cb_state cb_settings cb_counts ConsecutiveSuccesses MaxRequests handler_settings].
    change (wrap_u32 (0 + 1) >=? 5) with false. cbv beta iota.
    cbn [cb_state cb_counts ConsecutiveSuccesses]. repeat split.
  - intros a -> Hr Hc Hreq. unfold Execute, beforeRequest, currentState.
    cbn [cb_state cb_counts cb_settings MaxRequests handler_settings]. rewrite Hr.
    change (4 >=? 5) with false. cbv beta iota. rewrite Hreq.
    unfold afterRequest, currentState, with_counts. cbn [cb_state cb_generation fst snd].
    rewrite Z.eqb_refl. cbn [negb]. unfold onSuccess, with_counts, Counts_onSuccess.
    cbn [cb_state cb_settings cb_counts ConsecutiveSuccesses MaxRequests handler_settings
         Counts_onRequest].
    rewrite Hc. change (wrap_u32 (4 + 1) >=? 5) with true. cbv beta iota.
    unfold setState, toNewGeneration.
    cbn [State_eqb cb_state cb_settings cb_counts cb_expiry Interval handler_settings].
    change (60 * second_ns =? 0) with false. cbv beta iota. repeat split.
Qed.

Lemma breaker_recovers_after_timeout_witness :
  snd (Execute w_now (cb (fst (ten_runs unreachable))) (mkWorld (39 * second_ns) 10 [])
         (httpClient_Do (test_runtime false (always_status 200 "{}"))
            (mkProxyRequest "POST" "http://a" ∅ "")))
  = Err ErrOpenState
  /\ cb_state
       (fst (fst (Execute w_now (cb (fst (ten_runs unreachable)))
                    (mkWorld (40 * second_ns) 10 [])
                    (httpClient_Do (test_runtime false (always_status 200 "{}"))
                       (mkProxyRequest "POST" "http://a" ∅ "")))))
     = StateHalfOpen.
Proof.
  assert (Hs : cb_settings (cb (fst (ten_runs unreachable))) = handler_settings)
    by (vm_compute; reflexivity).
  assert (Hopen : cb_state (cb (fst (ten_runs unreachable))) = StateOpen)
    by (vm_compute; reflexivity).
  assert (Hexp : cb_expiry (cb (fst (ten_runs unreachable))) = Some (39 * second_ns))
    by (vm_compute; reflexivity).
  split.
  - rewrite (proj1 (breaker_recovers_after_timeout w_now (cb (fst (ten_runs unreachable)))
                      (mkWorld (39 * second_ns) 10 []) (mkWorld (39 * second_ns) 10 [])
                      (httpClient_Do (test_runtime false (always_status 200 "{}"))
                         (mkProxyRequest "POST" "http://a" ∅ "")) Hs)
               (39 * second_ns) Hopen Hexp); [reflexivity|].
    vm_compute. discriminate.
  - refine (proj1 (proj2 (proj1 (proj2 (proj2
              (breaker_recovers_after_timeout w_now (cb (fst (ten_runs unreachable)))
                 (mkWorld (40 * second_ns) 10 []) _
                 (httpClient_Do (test_runtime false (always_status 200 "{}"))
                    (mkProxyRequest "POST" "http://a" ∅ "")) Hs)))
              (39 * second_ns) (mkResponse 200 ∅ "{}" (fun _ => 0)) Hopen Hexp _ _)));
      [vm_compute; reflexivity|reflexivity].
Defined.
